(** * SalesAnalyzer: the aggregation core of [final_gst.py]

    A shallow embedding of the class [EcommerceAnalyzer] (loaders, the
    Meesho and Amazon analyzers, the cross-platform comparison) and of the
    derived ratios computed in [main], followed by the properties of the
    specification that concern them.

    Modelling conventions.
    - A pandas [DataFrame] is column-major: a row count and an ordered list
      of named columns.  A column is a list of cells.
    - float64 and int64 values are idealised as exact rationals ([Qc]);
      [NaN] is the one missing-value marker (pandas' [NaN] and [NaT]).
    - Python exceptions are the left summand of a result type; the analyzer
      object [self] is threaded explicitly, because [analyze_meesho_data]
      assigns a column of the stored table in place.
    - A Python [dict] is a [gmap] keyed by strings; a grouped table (the
      result of [groupby(...).agg(...)]) maps each group key to its sum,
      one such map per aggregated column.  The order in which pandas lists
      the groups is not represented.
    - An uploaded file is represented by what [pd.read_csv] makes of it;
      the parser of dates behind [pd.to_datetime] is a parameter of the
      loaders.
    - pandas treats a table with a repeated column name differently from
      the model (indexing by that name gives a table, not a column).  The
      properties are stated for tables that are well formed ([wf]): no
      repeated name, one cell per row in every column. *)

From Stdlib Require Import QArith Qcanon Qround Ascii String.
From stdpp Require Import gmap strings list fin_maps numbers.

Local Open Scope Z_scope.

(** ** Cells and columns *)

Inductive cell :=
  | NaN
  | Num (q : Qc)
  | Str (s : string)
  | Timestamp (year month day : Z)
  | Period (year month : Z).

Global Instance cell_eq_dec : EqDecision cell.
Proof. solve_decision. Defined.

Definition cell_to_sum (c : cell) : unit + Qc + string + Z * Z * Z + Z * Z :=
  match c with
  | NaN => inl (inl (inl (inl tt)))
  | Num q => inl (inl (inl (inr q)))
  | Str s => inl (inl (inr s))
  | Timestamp y m d => inl (inr (y, m, d))
  | Period y m => inr (y, m)
  end.

Definition cell_of_sum (x : unit + Qc + string + Z * Z * Z + Z * Z) : cell :=
  match x with
  | inl (inl (inl (inl _))) => NaN
  | inl (inl (inl (inr q))) => Num q
  | inl (inl (inr s)) => Str s
  | inl (inr (y, m, d)) => Timestamp y m d
  | inr (y, m) => Period y m
  end.

Global Instance cell_countable : Countable cell.
Proof.
  refine (inj_countable' cell_to_sum cell_of_sum _).
  by intros [].
Defined.

Definition isna (c : cell) : bool :=
  match c with NaN => true | _ => false end.

(** ** Exceptions *)

Inductive exn :=
  | KeyError (k : string)
  | TypeError
  | AttributeError
  | ZeroDivisionError
  | ParserError.

Global Instance exn_eq_dec : EqDecision exn.
Proof. solve_decision. Defined.

Definition result (A : Type) : Type := exn + A.

Definition raise {A} (e : exn) : result A := inl e.
Definition ok {A} (a : A) : result A := inr a.

Global Instance result_ret : MRet result := λ A a, inr a.
Global Instance result_bind : MBind result := λ A B f m,
  match m with
  | inl e => inl e
  | inr a => f a
  end.

Definition raises {A} (m : result A) : Prop :=
  match m with inl _ => True | inr _ => False end.

(** ** Scalars

    [Series.sum()] and [len] hand Python two kinds of numbers: a built-in
    [int], or a numpy scalar ([np.float64]; [np.int64] behaves alike in
    every operation used here). *)

Inductive scalar :=
  | PyInt (n : Z)
  | NpFloat (x : Qc).

Global Instance scalar_eq_dec : EqDecision scalar.
Proof. solve_decision. Defined.

Definition scalar_to_Qc (s : scalar) : Qc :=
  match s with
  | PyInt n => Qc_of_Z n
  | NpFloat x => x
  end.

(** [a + b] on scalars: the result is a numpy scalar as soon as one operand
    is. *)
Definition scalar_add (a b : scalar) : scalar :=
  match a, b with
  | PyInt x, PyInt y => PyInt (x + y)
  | _, _ => NpFloat (scalar_to_Qc a + scalar_to_Qc b)
  end.

(** The outcome of a true division.  The signs of infinities and of zeros
    are not tracked. *)
Inductive float :=
  | Finite (x : Qc)
  | Inf
  | NotANumber.

Global Instance float_eq_dec : EqDecision float.
Proof. solve_decision. Defined.

(** [a / b]: Python raises [ZeroDivisionError] when both operands are
    built-in numbers and [b] is zero; a numpy scalar on either side makes
    the division follow IEEE 754 (a warning, silenced by
    [warnings.filterwarnings('ignore')], and [inf] or [nan]). *)
Definition truediv (a b : scalar) : result float :=
  match a, b with
  | PyInt x, PyInt y =>
      if decide (y = 0) then raise ZeroDivisionError
      else ok (Finite (Qc_of_Z x / Qc_of_Z y))
  | _, _ =>
      let x := scalar_to_Qc a in
      let y := scalar_to_Qc b in
      if decide (y = 0%Qc) then
        if decide (x = 0%Qc) then ok NotANumber else ok Inf
      else ok (Finite (x / y))
  end.

(** [r * 100] on the outcome of a division. *)
Definition float_mul (r : float) (k : Z) : float :=
  match r with
  | Finite x => Finite (x * Qc_of_Z k)
  | Inf => if decide (k = 0) then NotANumber else Inf
  | NotANumber => NotANumber
  end.

(** ** Rounding to two decimals

    [DataFrame.round(2)] is numpy's [around]: scale by 100, round half to
    even, scale back. *)

Definition rint (x : Qc) : Z :=
  let f := Qfloor x in
  match Qccompare (x - Qc_of_Z f) (Q2Qc (1 # 2)) with
  | Lt => f
  | Gt => f + 1
  | Eq => if Z.even f then f else f + 1
  end.

Definition round2 (x : Qc) : Qc :=
  (Qc_of_Z (rint (x * Qc_of_Z 100)) / Qc_of_Z 100)%Qc.

Definition two_decimals (x : Qc) : Prop := round2 x = x.

Global Instance two_decimals_dec x : Decision (two_decimals x).
Proof. unfold two_decimals. apply _. Defined.

(** ** Data frames *)

Record DataFrame := mkDataFrame {
  index : nat;                        (* number of rows *)
  series : list (string * list cell)  (* the columns, in header order *)
}.

Global Instance DataFrame_eq_dec : EqDecision DataFrame.
Proof. solve_decision. Defined.

Definition columns (df : DataFrame) : list string := (series df).*1.

(** What [pd.read_csv] builds: every column has one cell per row, and no
    two columns bear the same name. *)
Definition wf (df : DataFrame) : Prop :=
  NoDup (columns df) ∧ Forall (λ s, length s.2 = index df) (series df).

Global Instance wf_dec df : Decision (wf df).
Proof. unfold wf. apply _. Defined.

(** [len(df)] and [df.empty] *)
Definition len (df : DataFrame) : Z := Z.of_nat (index df).

Definition empty (df : DataFrame) : bool :=
  bool_decide (index df = 0%nat ∨ series df = []).

Section assoc.
Context {A : Type}.

Fixpoint assoc (c : string) (l : list (string * A)) : option A :=
  match l with
  | [] => None
  | (n, x) :: l' => if decide (n = c) then Some x else assoc c l'
  end.

(** Assignment to a name: in place when the name exists, appended last
    otherwise. *)
Fixpoint assign (c : string) (x : A) (l : list (string * A))
  : list (string * A) :=
  match l with
  | [] => [(c, x)]
  | (n, y) :: l' =>
      if decide (n = c) then (n, x) :: l' else (n, y) :: assign c x l'
  end.
End assoc.

(** [df[c]] *)
Definition getitem (df : DataFrame) (c : string) : result (list cell) :=
  match assoc c (series df) with
  | Some col => ok col
  | None => raise (KeyError c)
  end.

(** [df[c] = col] *)
Definition setitem (df : DataFrame) (c : string) (col : list cell)
  : DataFrame :=
  {| index := index df; series := assign c col (series df) |}.

(** [col == s] *)
Definition eq_str (col : list cell) (s : string) : list bool :=
  (λ c, bool_decide (c = Str s)) <$> col.

Fixpoint select {A} (mask : list bool) (l : list A) : list A :=
  match mask, l with
  | b :: mask', x :: l' =>
      if b then x :: select mask' l' else select mask' l'
  | _, _ => []
  end.

(** [df[mask]]: a new frame holding the rows where [mask] is true. *)
Definition getitem_mask (df : DataFrame) (mask : list bool) : DataFrame :=
  {| index := length (filter (λ b, b = true) mask);
     series := (λ s, (s.1, select mask s.2)) <$> series df |}.

Fixpoint traverse {A B} (f : A → result B) (l : list A) : result (list B) :=
  match l with
  | [] => ok []
  | x :: l' => y ← f x; ys ← traverse f l'; ok (y :: ys)
  end.

(** A sum skips missing values ([skipna=True]); it is defined on numeric
    columns.  On a column holding text or dates pandas does not produce a
    number, which is rendered here as [TypeError]. *)
Definition to_numeric (c : cell) : result Qc :=
  match c with
  | NaN => ok 0%Qc
  | Num q => ok q
  | _ => raise TypeError
  end.

Definition summands (col : list cell) : result (list Qc) :=
  traverse to_numeric col.

Definition total (l : list Qc) : Qc := foldr Qcplus 0%Qc l.

(** [col.sum()].  [read_csv] gives the columns of a table without rows the
    dtype [object], and the sum of an empty [object] column is the built-in
    integer [0]; any other sum is a numpy scalar. *)
Definition Series_sum (col : list cell) : result scalar :=
  l ← summands col;
  match col with
  | [] => ok (PyInt 0)
  | _ :: _ => ok (NpFloat (total l))
  end.

(** [col.dt.to_period('M')] *)
Definition to_period_M (c : cell) : result cell :=
  match c with
  | NaN => ok NaN
  | Timestamp y m _ => ok (Period y m)
  | _ => raise AttributeError
  end.

Definition dt_to_period (col : list cell) : result (list cell) :=
  traverse to_period_M col.

(** ** Grouped tables

    [df.groupby(key).agg({c: 'sum', ...})].  The defaults of [groupby]
    apply: [dropna=True], so a row whose key is missing belongs to no
    group. *)

Abbreviation grouped := (list (string * gmap cell Qc)).

Fixpoint group_sum (keys : list cell) (vals : list Qc) : gmap cell Qc :=
  match keys, vals with
  | k :: keys', v :: vals' =>
      let m := group_sum keys' vals' in
      if isna k then m else <[k := (v + default 0 (m !! k))%Qc]> m
  | _, _ => ∅
  end.

Definition agg_sum (df : DataFrame) (keys : list cell) (c : string)
  : result (string * gmap cell Qc) :=
  col ← getitem df c;
  vals ← summands col;
  ok (c, group_sum keys vals).

Definition groupby_agg_sum (df : DataFrame) (key : string)
    (cols : list string) : result grouped :=
  keys ← getitem df key;
  traverse (agg_sum df keys) cols.

(** [g.round(2)] *)
Definition round_frame (g : grouped) : grouped :=
  (λ s : string * gmap cell Qc, (s.1, round2 <$> s.2)) <$> g.


(** ** Analysis results *)

Inductive value :=
  | Scalar (s : scalar)
  | Frame (g : grouped).

Global Instance value_eq_dec : EqDecision value.
Proof. solve_decision. Defined.

Abbreviation analysis := (gmap string value).

(** [d[k]] and [d.get(k, dflt)] on a dict *)
Definition dict_getitem {V} (d : gmap string V) (k : string) : result V :=
  match d !! k with
  | Some v => ok v
  | None => raise (KeyError k)
  end.

Definition dict_get {V} (d : gmap string V) (k : string) (dflt : V) : V :=
  default dflt (d !! k).

(** Truth value of [None] or a dict: a dict is true when it is not
    empty. *)
Definition truthy {V} (d : option (gmap string V)) : bool :=
  match d with
  | None => false
  | Some d => bool_decide (d ≠ ∅)
  end.

(** ** The analyzer object *)

Record EcommerceAnalyzer := mkAnalyzer {
  meesho_sales : option DataFrame;
  meesho_returns : option DataFrame;
  flipkart_data : option DataFrame;
  amazon_data : option DataFrame
}.

Global Instance EcommerceAnalyzer_eq_dec : EqDecision EcommerceAnalyzer.
Proof. solve_decision. Defined.

(** [__init__] *)
Definition init : EcommerceAnalyzer :=
  {| meesho_sales := None; meesho_returns := None;
     flipkart_data := None; amazon_data := None |}.

(** A method runs on [self], may update it, and returns or raises. *)
Definition method (A : Type) : Type :=
  EcommerceAnalyzer → EcommerceAnalyzer * result A.

Global Instance method_ret : MRet method := λ A a self, (self, ok a).
Global Instance method_bind : MBind method := λ A B f m self,
  match m self with
  | (self', inl e) => (self', inl e)
  | (self', inr a) => f a self'
  end.

Definition this : method EcommerceAnalyzer := λ self, (self, ok self).
Definition lift {A} (r : result A) : method A := λ self, (self, r).
Definition set_meesho_sales (df : DataFrame) : method () := λ self,
  ({| meesho_sales := Some df; meesho_returns := meesho_returns self;
      flipkart_data := flipkart_data self;
      amazon_data := amazon_data self |}, ok ()).
Definition set_meesho_returns (df : DataFrame) : method () := λ self,
  ({| meesho_sales := meesho_sales self; meesho_returns := Some df;
      flipkart_data := flipkart_data self;
      amazon_data := amazon_data self |}, ok ()).
Definition set_flipkart_data (df : DataFrame) : method () := λ self,
  ({| meesho_sales := meesho_sales self;
      meesho_returns := meesho_returns self;
      flipkart_data := Some df; amazon_data := amazon_data self |}, ok ()).
Definition set_amazon_data (df : DataFrame) : method () := λ self,
  ({| meesho_sales := meesho_sales self;
      meesho_returns := meesho_returns self;
      flipkart_data := flipkart_data self; amazon_data := Some df |}, ok ()).

(** [try: body except: handler] *)
Definition try_except {A} (body : method A) (handler : exn → method A)
  : method A := λ self,
  match body self with
  | (self', inl e) => handler e self'
  | (self', inr a) => (self', inr a)
  end.

(** ** Loader *)

(** An uploaded file, as [pd.read_csv] sees it: either it does not parse,
    or it parses into a table. *)
Inductive upload :=
  | Unreadable
  | Csv (df : DataFrame).

Definition read_csv (f : upload) : result DataFrame :=
  match f with
  | Unreadable => raise ParserError
  | Csv df => ok df
  end.

(** [str.strip()]: the ASCII characters Python counts as white space. *)
Definition is_whitespace (a : ascii) : bool :=
  let n := nat_of_ascii a in
  ((9 <=? n)%nat && (n <=? 13)%nat) || ((28 <=? n)%nat && (n <=? 32)%nat).

Fixpoint lstrip (s : string) : string :=
  match s with
  | EmptyString => EmptyString
  | String a s' => if is_whitespace a then lstrip s' else s
  end.

Definition rstrip (s : string) : string :=
  String.rev (lstrip (String.rev s)).

Definition strip (s : string) : string := rstrip (lstrip s).

(** [df.columns = df.columns.str.strip()] *)
Definition columns_strip (df : DataFrame) : DataFrame :=
  {| index := index df;
     series := (λ s : string * list cell, (strip s.1, s.2)) <$> series df |}.

Section Loader.

(** The element-wise parser of [pd.to_datetime]: the calendar date a value
    stands for, or nothing when the value does not parse as a date. *)
Variable parse_datetime : cell → option (Z * Z * Z).

(** [pd.to_datetime(col, errors='coerce')] *)
Definition coerce (c : cell) : cell :=
  match parse_datetime c with
  | Some (y, m, d) => Timestamp y m d
  | None => NaN
  end.

Definition to_datetime (col : list cell) : list cell := coerce <$> col.

Definition load_meesho_data (sales_file : upload)
    (returns_file : option upload) : method bool :=
  try_except
    (df ← lift (read_csv sales_file);
     set_meesho_sales df;;
     let df := columns_strip df in
     set_meesho_sales df;;
     (if bool_decide ("order_date" ∈ columns df) then
        col ← lift (getitem df "order_date");
        set_meesho_sales (setitem df "order_date" (to_datetime col))
      else mret ());;
     match returns_file with
     | Some f =>
         try_except
           (r ← lift (read_csv f);
            set_meesho_returns r;;
            set_meesho_returns (columns_strip r))
           (λ _, mret ())
     | None => mret ()
     end;;
     mret true)
    (λ _, mret false).

Definition load_flipkart_data (file : upload) : method bool :=
  try_except
    (df ← lift (read_csv file);
     set_flipkart_data df;;
     set_flipkart_data (columns_strip df);;
     mret true)
    (λ _, mret false).

Definition date_columns : list string :=
  ["Invoice Date"; "Order Date"; "Shipment Date"].

Fixpoint convert_date_columns (df : DataFrame) (cols : list string)
  : method () :=
  match cols with
  | [] => mret ()
  | col :: cols' =>
      if bool_decide (col ∈ columns df) then
        c ← lift (getitem df col);
        let df' := setitem df col (to_datetime c) in
        set_amazon_data df';;
        convert_date_columns df' cols'
      else convert_date_columns df cols'
  end.

Definition load_amazon_data (file : upload) : method bool :=
  try_except
    (df ← lift (read_csv file);
     set_amazon_data df;;
     let df := columns_strip df in
     set_amazon_data df;;
     convert_date_columns df date_columns;;
     mret true)
    (λ _, mret false).

End Loader.

(** ** Analyzer *)

Definition meesho_sums : list string :=
  ["total_invoice_value"; "tax_amount"; "quantity"].

Definition analyze_meesho_data : method (option analysis) :=
  self ← this;
  match meesho_sales self with
  | None => mret None
  | Some df =>
      let analysis : analysis := ∅ in
      let analysis := <["total_orders" := Scalar (PyInt (len df))]> analysis in
      total_sales ← lift (getitem df "total_invoice_value" ≫= Series_sum);
      let analysis := <["total_sales" := Scalar total_sales]> analysis in
      total_tax ← lift (getitem df "tax_amount" ≫= Series_sum);
      let analysis := <["total_tax" := Scalar total_tax]> analysis in
      taxable_sales ←
        lift (getitem df "total_taxable_sale_value" ≫= Series_sum);
      let analysis := <["taxable_sales" := Scalar taxable_sales]> analysis in
      state_wise ←
        lift (groupby_agg_sum df "end_customer_state_new" meesho_sums);
      let analysis :=
        <["state_wise" := Frame (round_frame state_wise)]> analysis in
      (* the stored table is the object [df]; the assignment of its
         month column is seen by every later use *)
      '(df, analysis) ←
        (if bool_decide ("order_date" ∈ columns df) then
           month ← lift (getitem df "order_date" ≫= dt_to_period);
           let df := setitem df "month" month in
           set_meesho_sales df;;
           monthly ← lift (groupby_agg_sum df "month" meesho_sums);
           mret (df, <["monthly" := Frame (round_frame monthly)]> analysis)
         else mret (df, analysis));
      product_performance ← lift (groupby_agg_sum df "hsn_code" meesho_sums);
      let analysis :=
        <["product_performance" := Frame (round_frame product_performance)]>
          analysis in
      tax_rate_analysis ← lift (groupby_agg_sum df "gst_rate" meesho_sums);
      let analysis :=
        <["tax_rate_analysis" := Frame (round_frame tax_rate_analysis)]>
          analysis in
      mret (Some analysis)
  end.

Definition amazon_sums : list string :=
  ["Invoice Amount"; "Total Tax Amount"; "Quantity"].

Definition tcs_columns : list string :=
  ["Tcs Igst Amount"; "Tcs Cgst Amount"; "Tcs Sgst Amount";
   "Tcs Utgst Amount"].

(** The loop filling [tcs_data] *)
Fixpoint tcs_data (shipments : DataFrame) (cols : list string)
  : result (list scalar) :=
  match cols with
  | [] => ok []
  | col :: cols' =>
      if bool_decide (col ∈ columns shipments) then
        x ← getitem shipments col ≫= Series_sum;
        xs ← tcs_data shipments cols';
        ok (x :: xs)
      else tcs_data shipments cols'
  end.

(** The built-in [sum], which starts from the integer [0] *)
Definition py_sum (l : list scalar) : scalar := foldl scalar_add (PyInt 0) l.

Definition analyze_amazon_data : method (option analysis) :=
  self ← this;
  match amazon_data self with
  | None => mret None
  | Some df =>
      let analysis : analysis := ∅ in
      ty ← lift (getitem df "Transaction Type");
      let shipments := getitem_mask df (eq_str ty "Shipment") in
      ty ← lift (getitem df "Transaction Type");
      let refunds := getitem_mask df (eq_str ty "Refund") in
      ty ← lift (getitem df "Transaction Type");
      let cancellations := getitem_mask df (eq_str ty "Cancel") in
      let analysis :=
        <["total_shipments" := Scalar (PyInt (len shipments))]> analysis in
      let analysis :=
        <["total_refunds" := Scalar (PyInt (len refunds))]> analysis in
      let analysis :=
        <["total_cancellations" := Scalar (PyInt (len cancellations))]>
          analysis in
      if negb (empty shipments) then
        total_sales ← lift (getitem shipments "Invoice Amount" ≫= Series_sum);
        let analysis := <["total_sales" := Scalar total_sales]> analysis in
        total_tax ← lift (getitem shipments "Total Tax Amount" ≫= Series_sum);
        let analysis := <["total_tax" := Scalar total_tax]> analysis in
        gross ← lift (getitem shipments "Tax Exclusive Gross" ≫= Series_sum);
        let analysis := <["tax_exclusive_gross" := Scalar gross]> analysis in
        state_wise ←
          lift (groupby_agg_sum shipments "Ship To State" amazon_sums);
        let analysis :=
          <["state_wise" := Frame (round_frame state_wise)]> analysis in
        (* [shipments] is a copy of the selected rows: its month column is
           not a column of the stored table *)
        '(shipments, analysis) ←
          (if bool_decide ("Order Date" ∈ columns shipments) then
             month ← lift (getitem shipments "Order Date" ≫= dt_to_period);
             let shipments := setitem shipments "month" month in
             monthly ← lift (groupby_agg_sum shipments "month" amazon_sums);
             mret (shipments,
                   <["monthly" := Frame (round_frame monthly)]> analysis)
           else mret (shipments, analysis));
        product_performance ←
          lift (groupby_agg_sum shipments "Hsn/sac" amazon_sums);
        let analysis :=
          <["product_performance" := Frame (round_frame product_performance)]>
            analysis in
        tcs ← lift (tcs_data shipments tcs_columns);
        let analysis := <["total_tcs" := Scalar (py_sum tcs)]> analysis in
        mret (Some analysis)
      else mret (Some analysis)
  end.

(** ** Comparator *)

Definition create_comparison_dashboard
  : method (gmap string (gmap string value)) :=
  let comparisons : gmap string (gmap string value) := ∅ in
  meesho_analysis ← analyze_meesho_data;
  comparisons ←
    (match meesho_analysis with
     | Some a =>
         if truthy meesho_analysis then
           sales ← lift (dict_getitem a "total_sales");
           tax ← lift (dict_getitem a "total_tax");
           orders ← lift (dict_getitem a "total_orders");
           mret (<["Meesho" :=
                    {[ "Sales" := sales; "Tax" := tax; "Orders" := orders ]}]>
                   comparisons)
         else mret comparisons
     | None => mret comparisons
     end);
  amazon_analysis ← analyze_amazon_data;
  let comparisons :=
    match amazon_analysis with
    | Some a =>
        if truthy amazon_analysis then
          <["Amazon" :=
             {[ "Sales" := dict_get a "total_sales" (Scalar (PyInt 0));
                "Tax" := dict_get a "total_tax" (Scalar (PyInt 0));
                "Orders" := dict_get a "total_shipments" (Scalar (PyInt 0)) ]}]>
            comparisons
        else comparisons
    | None => comparisons
    end in
  self ← this;
  let comparisons :=
    match flipkart_data self with
    | Some df =>
        if negb (empty df) then
          <["Flipkart" :=
             {[ "Sales" := Scalar (PyInt 0);
                "Tax" := Scalar (PyInt 0);
                "Orders" := Scalar (PyInt (len df)) ]}]>
            comparisons
        else comparisons
    | None => comparisons
    end in
  mret comparisons.

(** ** Ratios derived in [main] *)

Definition value_truediv (a b : value) : result float :=
  match a, b with
  | Scalar x, Scalar y => truediv x y
  | _, _ => raise TypeError
  end.

(** [x > 0] *)
Definition value_positive (a : value) : result bool :=
  match a with
  | Scalar x => ok (bool_decide (0 < scalar_to_Qc x)%Qc)
  | Frame _ => raise TypeError
  end.

(** The average tax rate of the Meesho tab:
    [(a['total_tax'] / a['total_sales']) * 100] *)
Definition meesho_tax_rate (a : analysis) : result float :=
  total_tax ← dict_getitem a "total_tax";
  total_sales ← dict_getitem a "total_sales";
  r ← value_truediv total_tax total_sales;
  ok (float_mul r 100).

(** The return rate of the Amazon tab, computed under
    [if a['total_shipments'] > 0] *)
Definition amazon_return_rate (a : analysis) : result (option float) :=
  total_shipments ← dict_getitem a "total_shipments";
  positive ← value_positive total_shipments;
  if positive : bool then
    total_refunds ← dict_getitem a "total_refunds";
    total_shipments ← dict_getitem a "total_shipments";
    r ← value_truediv total_refunds total_shipments;
    ok (Some (float_mul r 100))
  else ok None.

(** * Vocabulary of the properties *)

(** The number of rows selected by [col == s] *)
Definition count_str (col : list cell) (s : string) : nat :=
  length (filter (λ c, c = Str s) col).

(** The keys of the groups of a key column: its distinct values other
    than the missing-value marker. *)
Definition group_keys (keys : list cell) : gset cell :=
  list_to_set (filter (λ k, k ≠ NaN) keys).


(** The analyzer with its Meesho table replaced *)
Definition with_meesho_sales (self : EcommerceAnalyzer) (df : DataFrame)
  : EcommerceAnalyzer :=
  {| meesho_sales := Some df; meesho_returns := meesho_returns self;
     flipkart_data := flipkart_data self; amazon_data := amazon_data self |}.

(** The monthly step of either analyzer: with a date column [d], the table
    receives the column [month] and is grouped by it. *)
Definition month_step (d : string) (sums : list string) (df df1 : DataFrame)
    (mo : option grouped) : Prop :=
  if bool_decide (d ∈ columns df) then
    ∃ month monthly,
      getitem df d ≫= dt_to_period = ok month ∧
      df1 = setitem df "month" month ∧
      groupby_agg_sum df1 "month" sums = ok monthly ∧
      mo = Some monthly
  else df1 = df ∧ mo = None.

(** The dict [a] with the entry [monthly], when the month step made one *)
Definition add_monthly (mo : option grouped) (a : analysis) : analysis :=
  match mo with
  | Some monthly => <["monthly" := Frame (round_frame monthly)]> a
  | None => a
  end.

(** A run of [analyze_meesho_data] that returns, on the stored table [df]:
    the table it leaves behind and the dict it returns. *)
Inductive meesho_run (df : DataFrame) : DataFrame → analysis → Prop :=
  | Meesho_run ts tt tx sw df1 mo pp tr :
      getitem df "total_invoice_value" ≫= Series_sum = ok ts →
      getitem df "tax_amount" ≫= Series_sum = ok tt →
      getitem df "total_taxable_sale_value" ≫= Series_sum = ok tx →
      groupby_agg_sum df "end_customer_state_new" meesho_sums = ok sw →
      month_step "order_date" meesho_sums df df1 mo →
      groupby_agg_sum df1 "hsn_code" meesho_sums = ok pp →
      groupby_agg_sum df1 "gst_rate" meesho_sums = ok tr →
      meesho_run df df1
        (<["tax_rate_analysis" := Frame (round_frame tr)]>
           (<["product_performance" := Frame (round_frame pp)]>
              (add_monthly mo
                 (<["state_wise" := Frame (round_frame sw)]>
                    (<["taxable_sales" := Scalar tx]>
                       (<["total_tax" := Scalar tt]>
                          (<["total_sales" := Scalar ts]>
                             (<["total_orders" := Scalar (PyInt (len df))]>
                                ∅)))))))).

(** The rows of an Amazon table with a given transaction type *)
Definition partition (df : DataFrame) (ty : list cell) (s : string)
  : DataFrame :=
  getitem_mask df (eq_str ty s).

(** The three counts, which every Amazon result holds *)
Definition amazon_counts (df : DataFrame) (ty : list cell) : analysis :=
  <["total_cancellations" := Scalar (PyInt (len (partition df ty "Cancel")))]>
    (<["total_refunds" := Scalar (PyInt (len (partition df ty "Refund")))]>
       (<["total_shipments" :=
            Scalar (PyInt (len (partition df ty "Shipment")))]> ∅)).

(** A run of [analyze_amazon_data] that returns, on the stored table
    [df]. *)
Inductive amazon_run (df : DataFrame) : analysis → Prop :=
  | Amazon_no_shipment ty :
      getitem df "Transaction Type" = ok ty →
      empty (partition df ty "Shipment") = true →
      amazon_run df (amazon_counts df ty)
  | Amazon_shipments ty ts tt gross sw sh1 mo pp tcs :
      getitem df "Transaction Type" = ok ty →
      empty (partition df ty "Shipment") = false →
      getitem (partition df ty "Shipment") "Invoice Amount" ≫= Series_sum
        = ok ts →
      getitem (partition df ty "Shipment") "Total Tax Amount" ≫= Series_sum
        = ok tt →
      getitem (partition df ty "Shipment") "Tax Exclusive Gross"
        ≫= Series_sum = ok gross →
      groupby_agg_sum (partition df ty "Shipment") "Ship To State" amazon_sums
        = ok sw →
      month_step "Order Date" amazon_sums (partition df ty "Shipment") sh1 mo →
      groupby_agg_sum sh1 "Hsn/sac" amazon_sums = ok pp →
      tcs_data sh1 tcs_columns = ok tcs →
      amazon_run df
        (<["total_tcs" := Scalar (py_sum tcs)]>
           (<["product_performance" := Frame (round_frame pp)]>
              (add_monthly mo
                 (<["state_wise" := Frame (round_frame sw)]>
                    (<["tax_exclusive_gross" := Scalar gross]>
                       (<["total_tax" := Scalar tt]>
                          (<["total_sales" := Scalar ts]>
                             (amazon_counts df ty)))))))).

(** The entries of a Meesho result other than [monthly] *)
Definition meesho_keys : gset string :=
  list_to_set ["total_orders"; "total_sales"; "total_tax"; "taxable_sales";
               "state_wise"; "product_performance"; "tax_rate_analysis"].

(** A row of the comparison, and the row each platform contributes *)
Definition comparison_row (sales tax orders : value) : gmap string value :=
  {[ "Sales" := sales; "Tax" := tax; "Orders" := orders ]}.

Definition zero : value := Scalar (PyInt 0).

Definition meesho_row (r : option analysis) : option (gmap string value) :=
  a ← r;
  sales ← a !! "total_sales";
  tax ← a !! "total_tax";
  orders ← a !! "total_orders";
  Some (comparison_row sales tax orders).

Definition amazon_row (r : option analysis) : option (gmap string value) :=
  a ← r;
  if bool_decide (a ≠ ∅) then
    Some (comparison_row (dict_get a "total_sales" zero)
            (dict_get a "total_tax" zero)
            (dict_get a "total_shipments" zero))
  else None.

Definition flipkart_row (t : option DataFrame) : option (gmap string value) :=
  df ← t;
  if empty df then None
  else Some (comparison_row zero zero (Scalar (PyInt (len df)))).

Definition platforms : list string := ["Meesho"; "Amazon"; "Flipkart"].

(** The two last updates of [comparisons] in
    [create_comparison_dashboard] *)
Definition add_amazon_row (r : option analysis)
    (c : gmap string (gmap string value)) : gmap string (gmap string value) :=
  match r with
  | Some a =>
      if truthy r then
        <["Amazon" :=
           {[ "Sales" := dict_get a "total_sales" (Scalar (PyInt 0));
              "Tax" := dict_get a "total_tax" (Scalar (PyInt 0));
              "Orders" := dict_get a "total_shipments" (Scalar (PyInt 0)) ]}]>
          c
      else c
  | None => c
  end.

Definition add_flipkart_row (t : option DataFrame)
    (c : gmap string (gmap string value)) : gmap string (gmap string value) :=
  match t with
  | Some df =>
      if negb (empty df) then
        <["Flipkart" :=
           {[ "Sales" := Scalar (PyInt 0); "Tax" := Scalar (PyInt 0);
              "Orders" := Scalar (PyInt (len df)) ]}]> c
      else c
  | None => c
  end.

(** ** Tables used as concrete inputs *)

Module Examples.

(** A whole number as a cell *)
Definition rupees (n : Z) : cell := Num (Qc_of_Z n).

(** A table without rows, as [read_csv] reads a file that holds only
    the header line. *)
Definition header_only (names : list string) : DataFrame :=
  {| index := 0; series := (λ n, (n, [])) <$> names |}.

Definition meesho_header : list string :=
  ["total_invoice_value"; "tax_amount"; "total_taxable_sale_value";
   "end_customer_state_new"; "quantity"; "order_date"; "hsn_code";
   "gst_rate"].

(** A Meesho table with every column the analysis reads: the rows of the
    specification's example, completed. *)
Definition meesho_sheet : DataFrame :=
  {| index := 3;
     series :=
       [("total_invoice_value", [rupees 100; rupees 50; rupees 200]);
        ("tax_amount", [rupees 18; rupees 9; rupees 36]);
        ("total_taxable_sale_value", [rupees 82; rupees 41; rupees 164]);
        ("end_customer_state_new", [Str "UP"; Str "UP"; Str "MH"]);
        ("quantity", [rupees 1; rupees 1; rupees 2]);
        ("order_date",
         [Timestamp 2024 1 5; Timestamp 2024 1 20; Timestamp 2024 2 1]);
        ("hsn_code", [rupees 6109; rupees 6109; rupees 6110]);
        ("gst_rate", [rupees 18; rupees 18; rupees 18])] |}.

(** The Amazon table of the specification's example: two shipments and
    one refund. *)
Definition amazon_sheet : DataFrame :=
  {| index := 3;
     series :=
       [("Transaction Type", [Str "Shipment"; Str "Shipment"; Str "Refund"]);
        ("Invoice Amount", [rupees 100; rupees 200; rupees 50]);
        ("Total Tax Amount", [rupees 18; rupees 36; rupees 9]);
        ("Tax Exclusive Gross", [rupees 82; rupees 164; rupees 41]);
        ("Ship To State", [Str "DELHI"; Str "KARNATAKA"; Str "DELHI"]);
        ("Quantity", [rupees 1; rupees 2; rupees 1]);
        ("Hsn/sac", [rupees 6109; rupees 6109; rupees 6109])] |}.

Definition flipkart_sheet : DataFrame :=
  {| index := 2;
     series := [("Order Id", [Str "OD1"; Str "OD2"]);
                ("Final Invoice Amount", [rupees 499; rupees 1299])] |}.

(** The analyzer once the given Meesho, Amazon and Flipkart tables are
    stored *)
Definition loaded (m a f : option DataFrame) : EcommerceAnalyzer :=
  {| meesho_sales := m; meesho_returns := None;
     flipkart_data := f; amazon_data := a |}.

End Examples.

(** The comparison a state yields, for use on concrete states *)
Definition comparison_of (self : EcommerceAnalyzer)
  : gmap string (gmap string value) :=
  match (create_comparison_dashboard self).2 with
  | inr cmp => cmp
  | inl _ => ∅
  end.

(** Columns on which a sum is defined, and date columns as the Loader
    leaves them *)
Definition numeric (c : cell) : bool :=
  match c with NaN | Num _ => true | _ => false end.

Definition datelike (c : cell) : bool :=
  match c with NaN | Timestamp _ _ _ => true | _ => false end.

Definition has_column (p : cell → bool) (df : DataFrame) (c : string) : bool :=
  match getitem df c with
  | inr col => forallb p col
  | inl _ => false
  end.

(** The columns the Meesho analysis sums, those it groups by, and both *)
Definition meesho_numeric : list string :=
  ["total_invoice_value"; "tax_amount"; "total_taxable_sale_value";
   "quantity"].

Definition meesho_group_keys : list string :=
  ["end_customer_state_new"; "hsn_code"; "gst_rate"].

Definition meesho_required : list string :=
  meesho_numeric ++ meesho_group_keys.

(** The groups of a grouped table [g] are the values of [keys] other than
    the missing-value marker, in every column of [g]. *)
Definition groups_are (g : grouped) (keys : list cell) : Prop :=
  ∀ c m, (c, m) ∈ g → ∀ k, k ∈ dom m ↔ k ∈ keys ∧ k ≠ NaN.

(** The grouped aggregates other than [monthly], with their grouping
    column *)
Definition meesho_groupings : list (string * string) :=
  [("state_wise", "end_customer_state_new");
   ("product_performance", "hsn_code");
   ("tax_rate_analysis", "gst_rate")].

Definition amazon_groupings : list (string * string) :=
  [("state_wise", "Ship To State"); ("product_performance", "Hsn/sac")].

(** The dict a run returns and its grouped tables, for use on concrete
    states *)
Definition analysis_of (r : EcommerceAnalyzer * result (option analysis))
  : analysis :=
  match r.2 with
  | inr (Some a) => a
  | _ => ∅
  end.

Definition frame_of (a : analysis) (name : string) : grouped :=
  match a !! name with
  | Some (Frame g) => g
  | _ => []
  end.

Definition groups_of (a : analysis) (name col : string)
  : option (gset cell) :=
  dom <$> assoc col (frame_of a name).


Definition scalar_of (a : analysis) (name : string) : option scalar :=
  match a !! name with
  | Some (Scalar s) => Some s
  | _ => None
  end.

(** The scalar sums, with the column each sums *)
Definition meesho_scalars : list (string * string) :=
  [("total_sales", "total_invoice_value");
   ("total_tax", "tax_amount");
   ("taxable_sales", "total_taxable_sale_value")].

Definition amazon_scalars : list (string * string) :=
  [("total_sales", "Invoice Amount");
   ("total_tax", "Total Tax Amount");
   ("tax_exclusive_gross", "Tax Exclusive Gross")].

(** [s] is the sum of the column [c] of [df], as it is: not rounded. *)
Definition exact_sum (df : DataFrame) (c : string) (s : scalar) : Prop :=
  ∃ col vals,
    getitem df c = ok col ∧ summands col = ok vals ∧
    Series_sum col = ok s ∧ scalar_to_Qc s = total vals.

Definition amazon_count_names : list string :=
  ["total_shipments"; "total_refunds"; "total_cancellations"].


(** The analyzer with its Amazon table replaced *)
Definition with_amazon_data (self : EcommerceAnalyzer) (df : DataFrame)
  : EcommerceAnalyzer :=
  {| meesho_sales := meesho_sales self; meesho_returns := meesho_returns self;
     flipkart_data := flipkart_data self; amazon_data := Some df |}.

(** The date columns [cols] of [df], converted one after the other *)
Definition converted (parse : cell → option (Z * Z * Z)) (df : DataFrame)
    (cols : list string) : DataFrame :=
  foldl (λ df c,
           match getitem df c with
           | inr col => setitem df c (to_datetime parse col)
           | inl _ => df
           end) df cols.

(** [df'] is [df0] with the cells of the date columns [cols] replaced:
    by the date they parse to, or by the missing-value marker. *)
Definition dates_coerced (parse : cell → option (Z * Z * Z))
    (df0 : DataFrame) (cols : list string) (df' : DataFrame) : Prop :=
  index df' = index df0 ∧ columns df' = columns df0 ∧
  (∀ c, c ∉ cols → getitem df' c = getitem df0 c) ∧
  (∀ c col, c ∈ cols → getitem df0 c = ok col →
     ∃ col', getitem df' c = ok col' ∧ length col' = length col ∧
       (∀ i v, col !! i = Some v →
          col' !! i = Some match parse v with
                           | Some (y, m, d) => Timestamp y m d
                           | None => NaN
                           end) ∧
       (Forall (λ v, parse v = None) col → Forall (λ v, v = NaN) col')).

(** A parser of dates written YYYY-MM-DD, to run the Loader on concrete
    files *)
Definition digit (a : ascii) : option Z :=
  let n := nat_of_ascii a in
  if ((48 <=? n)%nat && (n <=? 57)%nat)%bool
  then Some (Z.of_nat (n - 48)) else None.

Definition two_digits (a b : ascii) : option Z :=
  x ← digit a; y ← digit b; Some (10 * x + y).

Definition parse_iso (c : cell) : option (Z * Z * Z) :=
  match c with
  | Str (String y1 (String y2 (String y3 (String y4 (String "-"
      (String m1 (String m2 (String "-" (String d1 (String d2 ""))))))))))
    =>
      hi ← two_digits y1 y2; lo ← two_digits y3 y4;
      m ← two_digits m1 m2; d ← two_digits d1 d2;
      if ((1 <=? m) && (m <=? 12) && (1 <=? d) && (d <=? 31))%bool
      then Some (100 * hi + lo, m, d) else None
  | _ => None
  end.

(** A string that neither starts nor ends with white space *)
Definition starts_clean (s : string) : Prop :=
  match s with
  | EmptyString => True
  | String a _ => is_whitespace a = false
  end.

Definition trimmed (s : string) : Prop :=
  starts_clean s ∧ starts_clean (String.rev s).

(** Whether [read_csv] parses an uploaded file *)
Definition parses (f : upload) : bool :=
  match f with
  | Csv _ => true
  | Unreadable => false
  end.

(** The analyzer with its returns table, or its Flipkart table, replaced *)
Definition with_meesho_returns (self : EcommerceAnalyzer) (df : DataFrame)
  : EcommerceAnalyzer :=
  {| meesho_sales := meesho_sales self; meesho_returns := Some df;
     flipkart_data := flipkart_data self; amazon_data := amazon_data self |}.

Definition with_flipkart_data (self : EcommerceAnalyzer) (df : DataFrame)
  : EcommerceAnalyzer :=
  {| meesho_sales := meesho_sales self; meesho_returns := meesho_returns self;
     flipkart_data := Some df; amazon_data := amazon_data self |}.

(** The returns table after [load_meesho_data]: the stripped table of a
    returns file that parses, the table stored before otherwise. *)
Definition returns_after (returns_file : option upload)
    (before : option DataFrame) : option DataFrame :=
  match returns_file with
  | Some (Csv r) => Some (columns_strip r)
  | _ => before
  end.

(** The entries an Amazon result holds besides its three counts and
    [monthly], when there is a shipment *)
Definition amazon_sum_names : list string :=
  ["total_sales"; "total_tax"; "tax_exclusive_gross"; "state_wise";
   "product_performance"; "total_tcs"].

(** Whether a call returned, and what, for use on concrete states *)
Definition returns {A} (r : EcommerceAnalyzer * result A) : bool :=
  match r.2 with inr _ => true | inl _ => false end.

Definition returned {A} (r : EcommerceAnalyzer * result A) (d : A) : A :=
  match r.2 with inr x => x | inl _ => d end.

Definition returns_analysis (r : EcommerceAnalyzer * result (option analysis))
  : bool :=
  match r.2 with inr (Some _) => true | _ => false end.

Definition holds_frame (a : analysis) (name : string) : bool :=
  match a !! name with Some (Frame _) => true | _ => false end.

(** The mask of the rows whose key is [k] *)
Definition eq_cell (keys : list cell) (k : cell) : list bool :=
  (λ c, bool_decide (c = k)) <$> keys.

(** The value a grouped sum holds for the key [k]: the rounded sum of the
    values of the rows whose key is [k], and nothing for a key that is
    missing or that no row has. *)
Definition group_value (keys : list cell) (vals : list Qc) (k : cell)
  : option Qc :=
  if decide (k ∈ keys ∧ k ≠ NaN)
  then Some (round2 (total (select (eq_cell keys k) vals)))
  else None.

(** The key column of the grouped table [name] of a result: a column of
    the table, or the months of its date column [d]. *)
Definition key_column (groupings : list (string * string)) (d : string)
    (df : DataFrame) (name : string) (keys : list cell) : Prop :=
  (∃ key, (name, key) ∈ groupings ∧ getitem df key = ok keys) ∨
  (name = "monthly" ∧ getitem df d ≫= dt_to_period = ok keys).

(** The three transaction types the Amazon analysis counts *)
Definition counted_types : list cell :=
  [Str "Shipment"; Str "Refund"; Str "Cancel"].

(** The month of a cell of a date column as the Loader and the month step
    leave it: the month of the date it parses to, or the missing-value
    marker. *)
Definition month_of (parse : cell → option (Z * Z * Z)) (c : cell) : cell :=
  match parse c with
  | Some (y, m, _) => Period y m
  | None => NaN
  end.

(** The scalar entries of a Meesho result *)
Definition meesho_scalar_names : list string :=
  ["total_orders"; "total_sales"; "total_tax"; "taxable_sales"].

(** * Properties *)

(** ** Runs on concrete states *)

Lemma returns_eq {A} (r : EcommerceAnalyzer * result A) d :
  returns r = true → r = (r.1, ok (returned r d)).
Proof. unfold returns, returned. by destruct r as [s [e|x]]. Qed.

Lemma returns_analysis_eq (r : EcommerceAnalyzer * result (option analysis)) :
  returns_analysis r = true → r = (r.1, ok (Some (analysis_of r))).
Proof.
  unfold returns_analysis, analysis_of. by destruct r as [s [e|[a|]]].
Qed.

Lemma comparison_of_eq self :
  returns (create_comparison_dashboard self) = true →
  create_comparison_dashboard self
  = ((create_comparison_dashboard self).1, ok (comparison_of self)).
Proof. apply returns_eq. Qed.

Lemma frame_of_eq (a : analysis) name :
  holds_frame a name = true → a !! name = Some (Frame (frame_of a name)).
Proof.
  unfold holds_frame, frame_of. by destruct (a !! name) as [[s|g]|].
Qed.

(** ** Results and methods *)

Lemma bind_ok {A B} (m : result A) (f : A → result B) b :
  m ≫= f = ok b → ∃ a, m = ok a ∧ f a = ok b.
Proof. destruct m as [e|a]; [done|]. intros H. by exists a. Qed.

Lemma raises_bind_l {A B} (m : result A) (f : A → result B) :
  raises m → raises (m ≫= f).
Proof. by destruct m. Qed.

Lemma raises_bind_r {A B} (m : result A) (f : A → result B) :
  (∀ a, m = ok a → raises (f a)) → raises (m ≫= f).
Proof. destruct m as [e|a]; [done|]. intros H. by apply H. Qed.


(** ** Named columns *)

Section assoc_facts.
Context {A : Type}.
Implicit Types (l : list (string * A)) (c : string) (x : A).

Lemma assoc_None c l : assoc c l = None ↔ c ∉ l.*1.
Proof.
  induction l as [|[n y] l IH]; simpl.
  - split; [intros _; apply not_elem_of_nil | done].
  - case_decide as Hn; subst.
    + split; [done|]. intros []. apply elem_of_cons. by left.
    + rewrite IH. rewrite not_elem_of_cons.
      split; [by intros; split; [congruence|] | by intros [_ ?]].
Qed.

Lemma assoc_is_Some c l : is_Some (assoc c l) ↔ c ∈ l.*1.
Proof.
  rewrite <-not_eq_None_Some, assoc_None.
  split; [apply dec_stable | by intros ? ?].
Qed.

Lemma assoc_elem_of c l x : assoc c l = Some x → (c, x) ∈ l.
Proof.
  induction l as [|[n y] l IH]; simpl; [done|].
  case_decide; subst.
  - intros [= ->]. apply elem_of_cons. by left.
  - intros. apply elem_of_cons. right. by apply IH.
Qed.

Lemma assoc_assign_eq c x l : assoc c (assign c x l) = Some x.
Proof.
  induction l as [|[n y] l IH]; simpl.
  - by rewrite decide_True.
  - case_decide; simpl; [by rewrite decide_True | by rewrite decide_False].
Qed.

Lemma assoc_assign_ne c c' x l :
  c ≠ c' → assoc c' (assign c x l) = assoc c' l.
Proof.
  intros Hne. induction l as [|[n y] l IH]; simpl.
  - by rewrite decide_False.
  - case_decide; subst; simpl.
    + by rewrite !decide_False.
    + case_decide; [done | apply IH].
Qed.

Lemma assign_id c x l : assoc c l = Some x → assign c x l = l.
Proof.
  induction l as [|[n y] l IH]; simpl; [done|].
  case_decide; subst.
  - by intros [= ->].
  - intros. f_equal. by apply IH.
Qed.

Lemma assign_names_in c x l : c ∈ l.*1 → (assign c x l).*1 = l.*1.
Proof.
  induction l as [|[n y] l IH]; simpl.
  - by intros ?%elem_of_nil.
  - case_decide; subst; simpl; [done|].
    intros [?|?]%elem_of_cons; [done|]. f_equal. by apply IH.
Qed.

Lemma assign_names_fresh c x l : c ∉ l.*1 → (assign c x l).*1 = l.*1 ++ [c].
Proof.
  induction l as [|[n y] l IH]; simpl; [done|].
  intros [? ?]%not_elem_of_cons.
  rewrite decide_False by done. simpl. f_equal. by apply IH.
Qed.

Lemma assign_elem_of c x l s :
  s ∈ assign c x l → s = (c, x) ∨ s ∈ l.
Proof.
  induction l as [|[n y] l IH]; simpl.
  - intros ?%list_elem_of_singleton. by left.
  - case_decide; subst.
    + intros [->|?]%elem_of_cons; [by left|].
      right. apply elem_of_cons. by right.
    + intros [->|?]%elem_of_cons.
      * right. apply elem_of_cons. by left.
      * destruct IH as [?|?]; [done | by left |].
        right. apply elem_of_cons. by right.
Qed.
End assoc_facts.

Lemma getitem_ok_iff df c : (∃ col, getitem df c = ok col) ↔ c ∈ columns df.
Proof.
  unfold getitem, columns. rewrite <-assoc_is_Some.
  destruct (assoc c (series df)); split; intros [? ?]; by eauto.
Qed.

Lemma getitem_missing df c : c ∉ columns df → getitem df c = raise (KeyError c).
Proof.
  unfold getitem, columns. intros ->%assoc_None. done.
Qed.

Lemma getitem_setitem_eq df c col : getitem (setitem df c col) c = ok col.
Proof. unfold getitem, setitem. simpl. by rewrite assoc_assign_eq. Qed.

Lemma getitem_setitem_ne df c c' col :
  c ≠ c' → getitem (setitem df c col) c' = getitem df c'.
Proof.
  intros. unfold getitem, setitem. simpl. by rewrite assoc_assign_ne.
Qed.

Lemma setitem_id df c col : getitem df c = ok col → setitem df c col = df.
Proof.
  unfold getitem, setitem. destruct df as [n l]. simpl.
  destruct (assoc c l) eqn:E; [|done]. intros [= ->].
  by rewrite assign_id.
Qed.

Lemma columns_setitem df c col :
  columns (setitem df c col) =
    if decide (c ∈ columns df) then columns df else columns df ++ [c].
Proof.
  unfold columns, setitem. simpl. case_decide.
  - by apply assign_names_in.
  - by apply assign_names_fresh.
Qed.

Lemma elem_of_columns_setitem df c col c' :
  c' ∈ columns (setitem df c col) ↔ c' = c ∨ c' ∈ columns df.
Proof.
  rewrite columns_setitem. case_decide.
  - split; [by right | by intros [->|?]].
  - rewrite elem_of_app. rewrite list_elem_of_singleton. tauto.
Qed.

Lemma getitem_length df c col :
  wf df → getitem df c = ok col → length col = index df.
Proof.
  intros [_ Hlen]. unfold getitem.
  destruct (assoc c (series df)) eqn:E; [|done]. intros [= ->].
  apply assoc_elem_of in E.
  by apply (proj1 (list.Forall_forall _ _) Hlen) in E.
Qed.

Lemma wf_setitem df c col :
  wf df → length col = index df → wf (setitem df c col).
Proof.
  intros [Hnd Hlen] Hcol. split.
  - rewrite columns_setitem. case_decide; [done|].
    apply list.NoDup_app. split_and!; [done | | apply list.NoDup_singleton].
    intros x Hx ->%list_elem_of_singleton. done.
  - apply list.Forall_forall. intros s [->|Hs]%assign_elem_of; [done|].
    by apply (proj1 (list.Forall_forall _ _) Hlen).
Qed.

(** ** Traversals *)

Lemma traverse_length {A B} (f : A → result B) l l' :
  traverse f l = ok l' → length l' = length l.
Proof.
  revert l'. induction l as [|x l IH]; intros l'; simpl.
  - by intros [= <-].
  - intros (y & _ & (ys & Hys & [= <-])%bind_ok)%bind_ok.
    simpl. f_equal. by apply IH.
Qed.

Lemma traverse_elem_of {A B} (f : A → result B) l l' y :
  traverse f l = ok l' → y ∈ l' → ∃ x, x ∈ l ∧ f x = ok y.
Proof.
  revert l'. induction l as [|x l IH]; intros l'; simpl.
  - intros [= <-] ?%elem_of_nil. done.
  - intros (y' & Hy' & (ys & Hys & [= <-])%bind_ok)%bind_ok.
    intros [->|Hin]%elem_of_cons.
    + exists x. split; [apply elem_of_cons; by left | done].
    + destruct (IH _ Hys Hin) as (x' & ? & ?).
      exists x'. split; [apply elem_of_cons; by right | done].
Qed.

Lemma traverse_raises {A B} (f : A → result B) l x :
  x ∈ l → raises (f x) → raises (traverse f l).
Proof.
  induction l as [|x' l IH]; simpl.
  - by intros ?%elem_of_nil.
  - intros [->|Hin]%elem_of_cons Hx.
    + by apply raises_bind_l.
    + apply raises_bind_r. intros y _. apply raises_bind_l. by apply IH.
Qed.

Lemma traverse_ext {A B} (f g : A → result B) l :
  (∀ x, x ∈ l → f x = g x) → traverse f l = traverse g l.
Proof.
  induction l as [|x l IH]; intros H; simpl; [done|].
  rewrite H by (apply elem_of_cons; by left).
  rewrite IH; [done|]. intros. apply H. apply elem_of_cons. by right.
Qed.

Lemma traverse_lookup {A B} (f : A → result B) l l' i x :
  traverse f l = ok l' → l !! i = Some x → ∃ y, l' !! i = Some y ∧ f x = ok y.
Proof.
  revert l' i. induction l as [|x' l IH]; intros l' i; simpl; [done|].
  intros (y' & Hy' & (ys & Hys & [= <-])%bind_ok)%bind_ok.
  destruct i as [|i]; simpl.
  - intros [= ->]. by exists y'.
  - by apply IH.
Qed.

(** ** Row selection *)

Lemma assoc_fmap {A B} (f : A → B) c (l : list (string * A)) :
  assoc c ((λ s : string * A, (s.1, f s.2)) <$> l) = f <$> assoc c l.
Proof.
  induction l as [|[n y] l IH]; simpl; [done|]. by case_decide.
Qed.

Lemma select_length {A} (mask : list bool) (l : list A) :
  length mask = length l →
  length (select mask l) = length (filter (λ b, b = true) mask).
Proof.
  revert l. induction mask as [|b mask IH]; intros [|x l]; simpl; try done.
  intros [= Hlen]. destruct b.
  - rewrite filter_cons_True by done. simpl. f_equal. by apply IH.
  - rewrite filter_cons_False by done. by apply IH.
Qed.

Lemma columns_getitem_mask df mask : columns (getitem_mask df mask) = columns df.
Proof.
  unfold columns, getitem_mask. simpl. rewrite <-list_fmap_compose.
  by apply list_fmap_ext.
Qed.


Lemma wf_getitem_mask df mask :
  wf df → length mask = index df → wf (getitem_mask df mask).
Proof.
  intros [Hnd Hlen] Hmask. split.
  - by rewrite columns_getitem_mask.
  - unfold getitem_mask. simpl. apply list.Forall_fmap.
    eapply list.Forall_impl; [exact Hlen|]. intros [n col]. simpl. intros Hcol.
    apply select_length. congruence.
Qed.

Lemma length_eq_str col s : length (eq_str col s) = length col.
Proof. unfold eq_str. by rewrite length_fmap. Qed.

Lemma count_eq_str col s :
  length (filter (λ b, b = true) (eq_str col s)) = count_str col s.
Proof.
  unfold count_str, eq_str. induction col as [|c col IH]; [done|].
  rewrite fmap_cons. destruct (decide (c = Str s)) as [Hc|Hc].
  - rewrite bool_decide_eq_true_2 by done.
    rewrite !filter_cons_True by done. simpl. by f_equal.
  - rewrite bool_decide_eq_false_2 by done.
    rewrite !filter_cons_False by done. done.
Qed.

(** ** Rounding *)

Lemma Qc_100_neq_0 : Qc_of_Z 100 ≠ 0%Qc.
Proof. rewrite <-Z2Qc_inj_0. by intros ?%Z2Qc_inj. Qed.

Lemma rint_Z n : rint (Qc_of_Z n) = n.
Proof.
  unfold rint.
  replace (Qfloor (Qc_of_Z n)) with n by (symmetry; apply Qfloor_Z).
  replace (Qc_of_Z n - Qc_of_Z n)%Qc with 0%Qc by ring.
  reflexivity.
Qed.

Lemma round2_cents n :
  round2 (Qc_of_Z n / Qc_of_Z 100) = (Qc_of_Z n / Qc_of_Z 100)%Qc.
Proof.
  unfold round2.
  replace (Qc_of_Z n / Qc_of_Z 100 * Qc_of_Z 100)%Qc with (Qc_of_Z n).
  - by rewrite rint_Z.
  - field. apply Qc_100_neq_0.
Qed.

Lemma two_decimals_iff x :
  two_decimals x ↔ ∃ n, x = (Qc_of_Z n / Qc_of_Z 100)%Qc.
Proof.
  split.
  - intros Hx. exists (rint (x * Qc_of_Z 100)). symmetry. exact Hx.
  - intros [n ->]. unfold two_decimals. apply round2_cents.
Qed.

Lemma two_decimals_round2 x : two_decimals (round2 x).
Proof. apply two_decimals_iff. by eexists. Qed.

Lemma two_decimals_0 : two_decimals 0.
Proof.
  apply two_decimals_iff. exists 0. rewrite Z2Qc_inj_0.
  field. apply Qc_100_neq_0.
Qed.

Lemma two_decimals_plus x y :
  two_decimals x → two_decimals y → two_decimals (x + y).
Proof.
  intros [n ->]%two_decimals_iff [m ->]%two_decimals_iff.
  apply two_decimals_iff. exists (n + m). rewrite Z2Qc_inj_add.
  field. apply Qc_100_neq_0.
Qed.

Lemma two_decimals_total l : Forall two_decimals l → two_decimals (total l).
Proof.
  induction 1 as [|x l Hx _ IH]; simpl.
  - apply two_decimals_0.
  - by apply two_decimals_plus.
Qed.

(** ** Group sums *)

Lemma isna_true k : isna k = true ↔ k = NaN.
Proof. by destruct k. Qed.

Lemma isna_false k : isna k = false ↔ k ≠ NaN.
Proof. by destruct k. Qed.

Lemma dom_group_sum keys vals :
  length keys = length vals → dom (group_sum keys vals) = group_keys keys.
Proof.
  revert vals. unfold group_keys.
  induction keys as [|k keys IH]; intros [|v vals]; simpl; try done.
  intros [= Hlen]. destruct (isna k) eqn:Hk.
  - apply isna_true in Hk. subst k.
    rewrite filter_cons_False by (by intros []). by apply IH.
  - apply isna_false in Hk. rewrite filter_cons_True by done.
    simpl. rewrite dom_insert_L. by rewrite IH.
Qed.










Lemma round_frame_two_decimals g c m k v :
  (c, m) ∈ round_frame g → m !! k = Some v → two_decimals v.
Proof.
  unfold round_frame. intros ([c' m'] & [= -> ->] & _)%list_elem_of_fmap.
  simpl. rewrite lookup_fmap.
  destruct (m' !! k); simpl; [|done]. intros [= <-].
  apply two_decimals_round2.
Qed.

Lemma assoc_round_frame g c :
  assoc c (round_frame g)
  = (λ m : gmap cell Qc, round2 <$> m) <$> assoc c g.
Proof. unfold round_frame. apply (assoc_fmap (λ m : gmap cell Qc, round2 <$> m)). Qed.

(** ** Grouped aggregation *)

Lemma agg_sum_name df keys c s : agg_sum df keys c = ok s → s.1 = c.
Proof.
  unfold agg_sum.
  intros (col & _ & (vals & _ & [= <-])%bind_ok)%bind_ok. done.
Qed.

Lemma groupby_agg_sum_inv df key cols g :
  groupby_agg_sum df key cols = ok g →
  ∃ keys, getitem df key = ok keys ∧
    ∀ c m, (c, m) ∈ g →
      c ∈ cols ∧ ∃ col vals,
        getitem df c = ok col ∧ summands col = ok vals ∧
        m = group_sum keys vals.
Proof.
  unfold groupby_agg_sum. intros (keys & Hkeys & Hg)%bind_ok.
  exists keys. split; [done|]. intros c m Hin.
  destruct (traverse_elem_of _ _ _ _ Hg Hin) as (c' & Hc' & Hagg).
  pose proof (agg_sum_name _ _ _ _ Hagg) as Hname. simpl in Hname. subst c'.
  split; [done|]. unfold agg_sum in Hagg.
  apply bind_ok in Hagg as (col & Hcol & (vals & Hvals & [= <-])%bind_ok).
  by exists col, vals.
Qed.

Lemma traverse_agg_sum_assoc df keys cols g c :
  traverse (agg_sum df keys) cols = ok g → c ∈ cols →
  ∃ col vals, getitem df c = ok col ∧ summands col = ok vals ∧
    assoc c g = Some (group_sum keys vals).
Proof.
  revert g. induction cols as [|c' cols IH]; intros g; simpl.
  - by intros _ ?%elem_of_nil.
  - intros (s & Hs & (g' & Hg' & [= <-])%bind_ok)%bind_ok Hin.
    pose proof (agg_sum_name _ _ _ _ Hs) as Hname.
    destruct s as [n m]. simpl in Hname. subst n. simpl.
    case_decide as Hc; subst.
    + unfold agg_sum in Hs.
      apply bind_ok in Hs as (col & Hcol & (vals & Hvals & [= <-])%bind_ok).
      by exists col, vals.
    + apply elem_of_cons in Hin as [?|Hin]; [congruence|]. by apply IH.
Qed.

Lemma groupby_agg_sum_assoc df key cols g c :
  groupby_agg_sum df key cols = ok g → c ∈ cols →
  ∃ keys col vals,
    getitem df key = ok keys ∧ getitem df c = ok col ∧
    summands col = ok vals ∧ assoc c g = Some (group_sum keys vals).
Proof.
  unfold groupby_agg_sum. intros (keys & Hkeys & Hg)%bind_ok Hin.
  destruct (traverse_agg_sum_assoc _ _ _ _ _ Hg Hin) as (col & vals & ?).
  exists keys, col, vals. tauto.
Qed.

Lemma groupby_agg_sum_ext df1 df2 key cols :
  (∀ c, c ∈ key :: cols → getitem df1 c = getitem df2 c) →
  groupby_agg_sum df1 key cols = groupby_agg_sum df2 key cols.
Proof.
  intros Hext. unfold groupby_agg_sum.
  rewrite (Hext key) by (apply elem_of_cons; by left).
  destruct (getitem df2 key) as [e|keys]; [done|]. simpl.
  apply traverse_ext. intros c Hc. unfold agg_sum.
  by rewrite (Hext c) by (apply elem_of_cons; by right).
Qed.

Lemma groupby_agg_sum_missing_key df key cols :
  key ∉ columns df → raises (groupby_agg_sum df key cols).
Proof.
  intros Hkey. unfold groupby_agg_sum. by rewrite getitem_missing.
Qed.

Lemma groupby_agg_sum_missing_col df key cols c :
  c ∈ cols → c ∉ columns df → raises (groupby_agg_sum df key cols).
Proof.
  intros Hin Hc. unfold groupby_agg_sum.
  apply raises_bind_r. intros keys _.
  apply (traverse_raises _ _ c); [done|].
  unfold agg_sum. by rewrite getitem_missing.
Qed.

(** The groups of every column of a grouped table are the values of the
    key column other than the missing-value marker. *)
Lemma groupby_agg_sum_dom df key cols g :
  wf df → groupby_agg_sum df key cols = ok g →
  ∃ keys, getitem df key = ok keys ∧
    ∀ c m, (c, m) ∈ round_frame g → dom m = group_keys keys.
Proof.
  intros Hwf (keys & Hkeys & Hg)%groupby_agg_sum_inv.
  exists keys. split; [done|]. intros c m.
  unfold round_frame. intros ([c' m'] & [= -> ->] & Hin)%list_elem_of_fmap.
  simpl. rewrite dom_fmap_L.
  destruct (Hg _ _ Hin) as (_ & col & vals & Hcol & Hvals & ->).
  apply dom_group_sum.
  rewrite (getitem_length _ _ _ Hwf Hkeys).
  unfold summands in Hvals. rewrite (traverse_length _ _ _ Hvals).
  by rewrite (getitem_length _ _ _ Hwf Hcol).
Qed.

(** ** Running a method *)

Lemma run_bind {A B} (m : method A) (f : A → method B) self :
  (m ≫= f) self =
    match m self with
    | (self', inl e) => (self', inl e)
    | (self', inr a) => f a self'
    end.
Proof. done. Qed.

Lemma run_lift {A} (r : result A) self : lift r self = (self, r).
Proof. done. Qed.

Lemma run_this self : this self = (self, inr self).
Proof. done. Qed.

Lemma run_ret {A} (a : A) self : mret (M:=method) a self = (self, inr a).
Proof. done. Qed.

Lemma run_set_meesho_sales df self :
  set_meesho_sales df self = (with_meesho_sales self df, inr ()).
Proof. done. Qed.

Lemma with_meesho_sales_id self df :
  meesho_sales self = Some df → with_meesho_sales self df = self.
Proof. destruct self. simpl. by intros ->. Qed.

Lemma with_meesho_sales_twice self df df' :
  with_meesho_sales (with_meesho_sales self df) df'
  = with_meesho_sales self df'.
Proof. done. Qed.

Ltac run :=
  repeat (rewrite ?run_bind, ?run_lift, ?run_this, ?run_ret,
            ?run_set_meesho_sales;
          cbv beta iota delta [ok]).

(** Case analysis on the outcome of the next statement, in a goal that
    assumes the method returns. *)
Ltac run_ok H :=
  match goal with
  | |- context [match ?r with inl _ => _ | inr _ => _ end] =>
      let e := fresh "e" in
      destruct r as [e|?] eqn:H; [by intros [=]|]; run
  end.

Lemma analyze_meesho_data_None self :
  meesho_sales self = None → analyze_meesho_data self = (self, ok None).
Proof. intros Hdf. unfold analyze_meesho_data. run. by rewrite Hdf. Qed.

Lemma analyze_meesho_data_inv self self' df r :
  meesho_sales self = Some df →
  analyze_meesho_data self = (self', ok r) →
  ∃ df1 a, r = Some a ∧ meesho_run df df1 a ∧
    self' = with_meesho_sales self df1.
Proof.
  intros Hdf. unfold analyze_meesho_data. run. rewrite Hdf. run.
  run_ok Hts. run_ok Htt. run_ok Htx. run_ok Hsw.
  case_bool_decide as Hod.
  - run. run_ok Hmo. run_ok Hmonthly. run_ok Hpp. run_ok Htr.
    unfold ok. intros [= <- <-]. eexists _, _. split; [done|]. split.
    + eapply (Meesho_run df _ _ _ _ _ (Some _)); try done.
      unfold month_step. rewrite bool_decide_eq_true_2 by done.
      by eexists _, _.
    + done.
  - run. run_ok Hpp. run_ok Htr.
    unfold ok. intros [= <- <-]. eexists _, _. split; [done|]. split.
    + eapply (Meesho_run df _ _ _ _ _ None); try done.
      unfold month_step. by rewrite bool_decide_eq_false_2 by done.
    + by rewrite with_meesho_sales_id.
Qed.

Lemma analyze_meesho_data_intro self df df1 a :
  meesho_sales self = Some df → meesho_run df df1 a →
  analyze_meesho_data self = (with_meesho_sales self df1, ok (Some a)).
Proof.
  intros Hdf [ts tt tx sw df1' mo pp tr Hts Htt Htx Hsw Hmo Hpp Htr].
  unfold analyze_meesho_data. run. rewrite Hdf. run.
  rewrite Hts. run. rewrite Htt. run. rewrite Htx. run. rewrite Hsw. run.
  unfold month_step in Hmo. case_bool_decide as Hod.
  - destruct Hmo as (month & monthly & Hmonth & -> & Hmonthly & ->).
    run. rewrite Hmonth. run. rewrite Hmonthly. run. rewrite Hpp. run. rewrite Htr. run. done.
  - destruct Hmo as [-> ->].
    run. rewrite Hpp. run. rewrite Htr. run.
    by rewrite with_meesho_sales_id.
Qed.


Lemma analyze_amazon_data_inv self self' df r :
  amazon_data self = Some df →
  analyze_amazon_data self = (self', ok r) →
  self' = self ∧ ∃ a, r = Some a ∧ amazon_run df a.
Proof.
  intros Hdf. unfold analyze_amazon_data. run. rewrite Hdf. run.
  run_ok Hty.
  fold (partition df l "Shipment") (partition df l "Refund")
    (partition df l "Cancel").
  destruct (empty (partition df l "Shipment")) eqn:Hempty; unfold negb;
    cbv iota; run.
  - unfold ok. intros [= <- <-]. split; [done|]. eexists. split; [done|].
    by apply Amazon_no_shipment.
  - run_ok Hts. run_ok Htt. run_ok Hgross. run_ok Hsw.
    case_bool_decide as Hod.
    + run. run_ok Hmo. run_ok Hmonthly. run_ok Hpp. run_ok Htcs.
      unfold ok. intros [= <- <-]. split; [done|]. eexists. split; [done|].
      eapply (Amazon_shipments df _ _ _ _ _ _ (Some _)); try done.
      unfold month_step. rewrite bool_decide_eq_true_2 by done.
      by eexists _, _.
    + run. run_ok Hpp. run_ok Htcs.
      unfold ok. intros [= <- <-]. split; [done|]. eexists. split; [done|].
      eapply (Amazon_shipments df _ _ _ _ _ _ None); try done.
      unfold month_step. by rewrite bool_decide_eq_false_2 by done.
Qed.

Lemma analyze_amazon_data_intro self df a :
  amazon_data self = Some df → amazon_run df a →
  analyze_amazon_data self = (self, ok (Some a)).
Proof.
  intros Hdf Hrun. unfold analyze_amazon_data. run. rewrite Hdf. run.
  destruct Hrun as [ty Hty Hempty
                   |ty ts tt gross sw sh1 mo pp tcs Hty Hempty Hts Htt Hgross
                      Hsw Hmo Hpp Htcs];
    rewrite Hty; run;
    fold (partition df ty "Shipment") (partition df ty "Refund")
      (partition df ty "Cancel");
    rewrite Hempty; unfold negb; cbv iota; run; [done|].
  rewrite Hts. run. rewrite Htt. run. rewrite Hgross. run. rewrite Hsw. run.
  unfold month_step in Hmo. case_bool_decide as Hod.
  - destruct Hmo as (month & monthly & Hmonth & -> & Hmonthly & ->).
    run. rewrite Hmonth. run. rewrite Hmonthly. run. rewrite Hpp. run.
    rewrite Htcs. run. done.
  - destruct Hmo as [-> ->]. run. rewrite Hpp. run. rewrite Htcs. run. done.
Qed.

(** Case analysis on the outcome of the next statement, whatever it is *)
Ltac run_any :=
  repeat match goal with
    | |- context [match ?r with inl _ => _ | inr _ => _ end] =>
        destruct r; run; try done
    | |- context [if ?b then _ else _] => destruct b; run; try done
    | |- context [let (_, _) := ?p in _] => destruct p; run; try done
    end.

(** [analyze_amazon_data] never assigns to [self]. *)
Lemma analyze_amazon_data_self self : (analyze_amazon_data self).1 = self.
Proof.
  unfold analyze_amazon_data. run.
  destruct (amazon_data self); run; [|done]. run_any.
Qed.

(** Its outcome depends on the Amazon table only. *)
Lemma analyze_amazon_data_ext self1 self2 :
  amazon_data self1 = amazon_data self2 →
  (analyze_amazon_data self1).2 = (analyze_amazon_data self2).2.
Proof.
  intros Heq. unfold analyze_amazon_data. run. rewrite Heq.
  destruct (amazon_data self2); run; [|done]. run_any.
Qed.

(** [analyze_meesho_data] assigns to the Meesho table only. *)
Lemma analyze_meesho_data_frame self :
  let self' := (analyze_meesho_data self).1 in
  meesho_returns self' = meesho_returns self ∧
  flipkart_data self' = flipkart_data self ∧
  amazon_data self' = amazon_data self.
Proof.
  unfold analyze_meesho_data. run.
  destruct (meesho_sales self); run; [|done]. run_any.
Qed.

(** ** The entries of a returned dict *)

Lemma lookup_add_monthly_ne mo (a : analysis) k :
  k ≠ "monthly" → add_monthly mo a !! k = a !! k.
Proof.
  intros Hk. destruct mo; simpl; [|done]. by rewrite lookup_insert_ne.
Qed.

Lemma lookup_add_monthly mo (a : analysis) :
  a !! "monthly" = None →
  add_monthly mo a !! "monthly" = (λ g, Frame (round_frame g)) <$> mo.
Proof.
  intros Ha. destruct mo; simpl; [|done]. by rewrite lookup_insert_eq.
Qed.

Ltac lookup_dict :=
  repeat first
    [ rewrite lookup_insert_eq
    | rewrite lookup_insert_ne by done
    | rewrite lookup_add_monthly_ne by done
    | rewrite lookup_add_monthly by (by repeat rewrite lookup_insert_ne by done)
    | rewrite lookup_empty ].

Lemma meesho_run_scalars df df1 a :
  meesho_run df df1 a →
  ∃ ts tt tx,
    getitem df "total_invoice_value" ≫= Series_sum = ok ts ∧
    getitem df "tax_amount" ≫= Series_sum = ok tt ∧
    getitem df "total_taxable_sale_value" ≫= Series_sum = ok tx ∧
    a !! "total_orders" = Some (Scalar (PyInt (len df))) ∧
    a !! "total_sales" = Some (Scalar ts) ∧
    a !! "total_tax" = Some (Scalar tt) ∧
    a !! "taxable_sales" = Some (Scalar tx).
Proof.
  intros [ts tt tx sw df1' mo pp tr Hts Htt Htx Hsw Hmo Hpp Htr].
  exists ts, tt, tx. split_and!; try done; by lookup_dict.
Qed.

Lemma meesho_run_frames df df1 a :
  meesho_run df df1 a →
  ∃ sw mo pp tr,
    groupby_agg_sum df "end_customer_state_new" meesho_sums = ok sw ∧
    month_step "order_date" meesho_sums df df1 mo ∧
    groupby_agg_sum df1 "hsn_code" meesho_sums = ok pp ∧
    groupby_agg_sum df1 "gst_rate" meesho_sums = ok tr ∧
    a !! "state_wise" = Some (Frame (round_frame sw)) ∧
    a !! "monthly" = (λ g, Frame (round_frame g)) <$> mo ∧
    a !! "product_performance" = Some (Frame (round_frame pp)) ∧
    a !! "tax_rate_analysis" = Some (Frame (round_frame tr)).
Proof.
  intros [ts tt tx sw df1' mo pp tr Hts Htt Htx Hsw Hmo Hpp Htr].
  exists sw, mo, pp, tr. split_and!; try done; by lookup_dict.
Qed.

Lemma dom_add_monthly mo (a : analysis) :
  dom (add_monthly mo a) =
    if mo is Some _ then {["monthly"]} ∪ dom a else dom a.
Proof. destruct mo; simpl; [|done]. by rewrite dom_insert_L. Qed.

Lemma meesho_run_dom df df1 a :
  meesho_run df df1 a →
  dom a = if bool_decide ("order_date" ∈ columns df)
          then {["monthly"]} ∪ meesho_keys else meesho_keys.
Proof.
  intros [ts tt tx sw df1' mo pp tr Hts Htt Htx Hsw Hmo Hpp Htr].
  rewrite !dom_insert_L, dom_add_monthly, !dom_insert_L, dom_empty_L.
  unfold month_step in Hmo. unfold meesho_keys. simpl.
  case_bool_decide.
  - destruct Hmo as (? & ? & _ & _ & _ & ->). set_solver.
  - destruct Hmo as [_ ->]. set_solver.
Qed.

Lemma meesho_run_nonempty df df1 a : meesho_run df df1 a → a ≠ ∅.
Proof. intros [] Ha. by apply insert_non_empty in Ha. Qed.

Lemma amazon_counts_lookup df ty :
  amazon_counts df ty !! "total_shipments"
    = Some (Scalar (PyInt (len (partition df ty "Shipment")))) ∧
  amazon_counts df ty !! "total_refunds"
    = Some (Scalar (PyInt (len (partition df ty "Refund")))) ∧
  amazon_counts df ty !! "total_cancellations"
    = Some (Scalar (PyInt (len (partition df ty "Cancel")))).
Proof. unfold amazon_counts. split_and!; by lookup_dict. Qed.

Lemma amazon_run_counts df a :
  amazon_run df a →
  ∃ ty, getitem df "Transaction Type" = ok ty ∧
    a !! "total_shipments"
      = Some (Scalar (PyInt (len (partition df ty "Shipment")))) ∧
    a !! "total_refunds"
      = Some (Scalar (PyInt (len (partition df ty "Refund")))) ∧
    a !! "total_cancellations"
      = Some (Scalar (PyInt (len (partition df ty "Cancel")))).
Proof.
  intros [ty Hty Hempty
         |ty ts tt gross sw sh1 mo pp tcs Hty Hempty Hts Htt Hgross Hsw Hmo
            Hpp Htcs];
    exists ty; (split; [done|]);
    destruct (amazon_counts_lookup df ty) as (H1 & H2 & H3).
  - done.
  - by lookup_dict.
Qed.

Lemma amazon_run_nonempty df a : amazon_run df a → a ≠ ∅.
Proof.
  intros [] Ha; unfold amazon_counts in Ha; by apply insert_non_empty in Ha.
Qed.


(** ** The comparison rows *)


Lemma run_fst {A} (m : method A) self s r : m self = (s, r) → (m self).1 = s.
Proof. by intros ->. Qed.


Lemma analyze_amazon_data_run self :
  analyze_amazon_data self = (self, (analyze_amazon_data self).2).
Proof.
  rewrite <-(analyze_amazon_data_self self) at 2.
  by destruct (analyze_amazon_data self).
Qed.

Lemma lookup_add_amazon_row r c :
  c !! "Amazon" = None → add_amazon_row r c !! "Amazon" = amazon_row r.
Proof.
  intros Hc. destruct r as [a|]; simpl; [|done].
  case_bool_decide.
  - rewrite lookup_insert_eq. rewrite bool_decide_eq_true_2 by done.
    reflexivity.
  - rewrite bool_decide_eq_false_2 by (intros Hn; by apply Hn). exact Hc.
Qed.

Lemma lookup_add_amazon_row_ne r c p :
  p ≠ "Amazon" → add_amazon_row r c !! p = c !! p.
Proof.
  intros Hp. destruct r as [a|]; simpl; [|done].
  case_bool_decide; [by rewrite lookup_insert_ne | done].
Qed.

Lemma lookup_add_flipkart_row t c :
  c !! "Flipkart" = None → add_flipkart_row t c !! "Flipkart" = flipkart_row t.
Proof.
  intros Hc. destruct t as [df|]; simpl; [|done].
  destruct (empty df); simpl; [done | by rewrite lookup_insert_eq].
Qed.

Lemma lookup_add_flipkart_row_ne t c p :
  p ≠ "Flipkart" → add_flipkart_row t c !! p = c !! p.
Proof.
  intros Hp. destruct t as [df|]; simpl; [|done].
  destruct (empty df); simpl; [done | by rewrite lookup_insert_ne].
Qed.

Lemma not_platform p :
  p ∉ platforms → p ≠ "Meesho" ∧ p ≠ "Amazon" ∧ p ≠ "Flipkart".
Proof. unfold platforms. rewrite !not_elem_of_cons. tauto. Qed.

(** What remains of [create_comparison_dashboard] once the Meesho row is
    settled *)
Lemma comparison_rest_inv s1 self' c1 cmp :
  (amazon_analysis ← analyze_amazon_data;
   let comparisons := add_amazon_row amazon_analysis c1 in
   self ← this;
   let comparisons := add_flipkart_row (flipkart_data self) comparisons in
   mret comparisons) s1 = (self', ok cmp) →
  ∃ r2,
    s1 = self' ∧ (analyze_amazon_data s1).2 = ok r2 ∧
    cmp = add_flipkart_row (flipkart_data s1) (add_amazon_row r2 c1).
Proof.
  run. rewrite (analyze_amazon_data_run s1).
  destruct (analyze_amazon_data s1).2 as [e|r2]; [by intros [=]|].
  run. unfold ok. intros [= <- <-]. by exists r2.
Qed.

Lemma lookup_comparison_rest r2 t c1 :
  c1 !! "Amazon" = None → c1 !! "Flipkart" = None →
  let cmp := add_flipkart_row t (add_amazon_row r2 c1) in
  cmp !! "Meesho" = c1 !! "Meesho" ∧
  cmp !! "Amazon" = amazon_row r2 ∧
  cmp !! "Flipkart" = flipkart_row t ∧
  ∀ p, p ∉ platforms → cmp !! p = c1 !! p.
Proof.
  intros Ha Hf. simpl. split_and!.
  - rewrite lookup_add_flipkart_row_ne by done.
    by rewrite lookup_add_amazon_row_ne.
  - rewrite lookup_add_flipkart_row_ne by done.
    by apply lookup_add_amazon_row.
  - apply lookup_add_flipkart_row.
    by rewrite lookup_add_amazon_row_ne.
  - intros p (? & ? & ?)%not_platform.
    rewrite lookup_add_flipkart_row_ne by done.
    by rewrite lookup_add_amazon_row_ne.
Qed.

Lemma create_comparison_dashboard_inv self self' cmp :
  create_comparison_dashboard self = (self', ok cmp) →
  ∃ r1 r2,
    analyze_meesho_data self = (self', ok r1) ∧
    (analyze_amazon_data self).2 = ok r2 ∧
    cmp !! "Meesho" = meesho_row r1 ∧
    cmp !! "Amazon" = amazon_row r2 ∧
    cmp !! "Flipkart" = flipkart_row (flipkart_data self) ∧
    ∀ p, p ∉ platforms → cmp !! p = None.
Proof.
  unfold create_comparison_dashboard. rewrite run_bind.
  pose proof (analyze_meesho_data_frame self) as (_ & Hfk & Ham).
  destruct (analyze_meesho_data self) as [s1 [e|r1]] eqn:Hr1;
    [by intros [=]|]. simpl in Hfk, Ham.
  rewrite run_bind.
  assert (∀ c1 : gmap string (gmap string value),
    c1 !! "Meesho" = meesho_row r1 →
    (∀ p, p ≠ "Meesho" → c1 !! p = None) →
    (amazon_analysis ← analyze_amazon_data;
     let comparisons := add_amazon_row amazon_analysis c1 in
     self ← this;
     let comparisons := add_flipkart_row (flipkart_data self) comparisons in
     mret comparisons) s1 = (self', ok cmp) →
    s1 = self' ∧ ∃ r2,
      (analyze_amazon_data self).2 = ok r2 ∧
      cmp !! "Meesho" = meesho_row r1 ∧
      cmp !! "Amazon" = amazon_row r2 ∧
      cmp !! "Flipkart" = flipkart_row (flipkart_data self) ∧
      ∀ p, p ∉ platforms → cmp !! p = None) as Hrest.
  { intros c1 Hm Hother (r2 & <- & Hr2 & ->)%comparison_rest_inv.
    rewrite (analyze_amazon_data_ext s1 self Ham) in Hr2. rewrite Hfk.
    destruct (lookup_comparison_rest r2 (flipkart_data self) c1)
      as (H1 & H2 & H3 & H4); [by apply Hother | by apply Hother |].
    split; [done|]. exists r2. split_and!; try done; [congruence|].
    intros p Hp. rewrite H4 by done. apply Hother.
    by apply not_platform in Hp as (? & _). }
  assert (∀ c1 : gmap string (gmap string value),
    c1 !! "Meesho" = meesho_row r1 →
    (∀ p, p ≠ "Meesho" → c1 !! p = None) →
    (amazon_analysis ← analyze_amazon_data;
     let comparisons := add_amazon_row amazon_analysis c1 in
     self ← this;
     let comparisons := add_flipkart_row (flipkart_data self) comparisons in
     mret comparisons) s1 = (self', ok cmp) →
    ∃ r1' r2,
      (s1, @inr exn _ r1) = (self', ok r1') ∧
      (analyze_amazon_data self).2 = ok r2 ∧
      cmp !! "Meesho" = meesho_row r1' ∧
      cmp !! "Amazon" = amazon_row r2 ∧
      cmp !! "Flipkart" = flipkart_row (flipkart_data self) ∧
      ∀ p, p ∉ platforms → cmp !! p = None) as Hrest'.
  { intros c1 Hm Hother (-> & r2 & ?)%Hrest; [|done..].
    by exists r1, r2. }
  clear Hrest. destruct r1 as [a|]; cbv iota.
  - unfold truthy at 1. case_bool_decide as Hne.
    + run. unfold dict_getitem.
      destruct (a !! "total_sales") as [sales|] eqn:Hs; run;
        [|by intros [=]].
      destruct (a !! "total_tax") as [tax|] eqn:Ht; run; [|by intros [=]].
      destruct (a !! "total_orders") as [orders|] eqn:Ho; run;
        [|by intros [=]].
      intros H.
      apply (Hrest' (<["Meesho" := comparison_row sales tax orders]> ∅));
        [| |exact H].
      * rewrite lookup_insert_eq. simpl. by rewrite Hs, Ht, Ho.
      * intros p ?. rewrite lookup_insert_ne by done. apply lookup_empty.
    + run. intros H. apply (Hrest' ∅); [| |exact H].
      * by subst a.
      * intros. apply lookup_empty.
  - run. intros H. apply (Hrest' ∅); [done| |exact H].
    intros. apply lookup_empty.
Qed.

Lemma create_comparison_dashboard_returns self s1 r1 r2 :
  analyze_meesho_data self = (s1, ok r1) →
  (analyze_amazon_data self).2 = ok r2 →
  ∃ cmp, create_comparison_dashboard self = (s1, ok cmp).
Proof.
  intros Hr1 Hr2.
  pose proof (analyze_meesho_data_frame self) as (_ & _ & Ham).
  rewrite Hr1 in Ham. simpl in Ham.
  assert (∀ c1, ∃ cmp,
    (amazon_analysis ← analyze_amazon_data;
     let comparisons := add_amazon_row amazon_analysis c1 in
     self ← this;
     let comparisons := add_flipkart_row (flipkart_data self) comparisons in
     mret comparisons) s1 = (s1, ok cmp)) as Hrest.
  { intros c1. run. rewrite (analyze_amazon_data_run s1).
    rewrite (analyze_amazon_data_ext s1 self Ham), Hr2. run. by eexists. }
  unfold create_comparison_dashboard. rewrite run_bind, Hr1.
  cbv beta iota delta [ok]. rewrite run_bind.
  destruct (meesho_sales self) as [df|] eqn:Hdf.
  - destruct (analyze_meesho_data_inv _ _ _ _ Hdf Hr1)
      as (df1 & a & -> & Hrun & _).
    destruct (meesho_run_scalars _ _ _ Hrun)
      as (ts & tt & tx & _ & _ & _ & Ho & Hs & Ht & _).
    unfold truthy at 1.
    rewrite bool_decide_eq_true_2 by (by eapply meesho_run_nonempty).
    run. unfold dict_getitem. rewrite Hs, Ht, Ho. run.
    apply (Hrest (<["Meesho" := _]> ∅)).
  - rewrite analyze_meesho_data_None in Hr1 by done.
    injection Hr1 as <- <-. run. apply (Hrest ∅).
Qed.

(** * The claims of the specification *)

(** Equalities between closed terms are settled by evaluation. *)
Ltac by_evaluation :=
  cbv zeta; apply (bool_decide_unpack _); vm_compute; exact I.

(** ** C6 *)




(** ** C10 *)

(** C10.  For a stored Flipkart table that is not empty, the Flipkart row
    of every comparison returned is Sales = 0, Tax = 0 and Orders = the
    number of rows: it is a function of the row count alone.  With only
    that table stored the comparison is returned and is that single
    row. *)
Theorem flipkart_row_counts_rows :
  (∀ self self' cmp df,
     flipkart_data self = Some df → empty df = false →
     create_comparison_dashboard self = (self', ok cmp) →
     cmp !! "Flipkart"
     = Some (comparison_row (Scalar (PyInt 0)) (Scalar (PyInt 0))
               (Scalar (PyInt (len df))))) ∧
  (∀ df,
     empty df = false →
     create_comparison_dashboard (Examples.loaded None None (Some df))
     = (Examples.loaded None None (Some df),
        ok {[ "Flipkart" :=
                comparison_row (Scalar (PyInt 0)) (Scalar (PyInt 0))
                  (Scalar (PyInt (len df))) ]})).
Proof.
  split.
  - intros self self' cmp df Hdf Hempty
      (_ & _ & _ & _ & _ & _ & Hf & _)%create_comparison_dashboard_inv.
    rewrite Hf, Hdf. simpl. by rewrite Hempty.
  - intros df Hempty.
    unfold create_comparison_dashboard, analyze_meesho_data,
      analyze_amazon_data.
    run. simpl. run. simpl. run. simpl. rewrite Hempty. simpl.
    by rewrite insert_empty.
Qed.

Lemma flipkart_row_counts_rows_witness :
  comparison_of (Examples.loaded (Some Examples.meesho_sheet) None
                   (Some Examples.flipkart_sheet)) !! "Flipkart"
  = Some (comparison_row (Scalar (PyInt 0)) (Scalar (PyInt 0))
            (Scalar (PyInt 2))).
Proof.
  eapply (proj1 flipkart_row_counts_rows
            (Examples.loaded (Some Examples.meesho_sheet) None
               (Some Examples.flipkart_sheet)) _ _ Examples.flipkart_sheet).
  - reflexivity.
  - reflexivity.
  - apply comparison_of_eq. vm_compute. reflexivity.
Defined.

(** Membership in a list given in full *)
Ltac in_list :=
  repeat first [apply list_elem_of_here | apply list_elem_of_further].

(** Case analysis on a member of a list given in full *)
Ltac cases_in H :=
  repeat (apply elem_of_cons in H as [?|H]; [simplify_eq|]);
  [..|by apply elem_of_nil in H].

(** ** C1 *)

Lemma traverse_returns {A B} (f : A → result B) l :
  (∀ x, x ∈ l → ∃ y, f x = ok y) → ∃ l', traverse f l = ok l'.
Proof.
  induction l as [|x l IH]; intros H; simpl; [by eexists|].
  destruct (H x) as [y ->]; [apply elem_of_cons; by left|].
  destruct IH as [l' ->]; [|by eexists].
  intros. apply H. apply elem_of_cons. by right.
Qed.

Lemma has_column_getitem p df c :
  has_column p df c = true →
  ∃ col, getitem df c = ok col ∧ forallb p col = true.
Proof.
  unfold has_column. destruct (getitem df c) as [e|col]; [done|].
  intros. by exists col.
Qed.

Lemma summands_returns col :
  forallb numeric col = true → ∃ vals, summands col = ok vals.
Proof.
  intros Hcol. apply traverse_returns. intros x Hx.
  apply list_elem_of_In in Hx.
  pose proof (proj1 (forallb_forall _ _) Hcol x Hx) as Hn.
  destruct x; try done; by eexists.
Qed.

Lemma dt_to_period_returns col :
  forallb datelike col = true → ∃ month, dt_to_period col = ok month.
Proof.
  intros Hcol. apply traverse_returns. intros x Hx.
  apply list_elem_of_In in Hx.
  pose proof (proj1 (forallb_forall _ _) Hcol x Hx) as Hn.
  destruct x; try done; by eexists.
Qed.

Lemma Series_sum_returns df c :
  has_column numeric df c = true → ∃ s, getitem df c ≫= Series_sum = ok s.
Proof.
  intros (col & -> & [vals Hvals]%summands_returns)%has_column_getitem.
  simpl. unfold Series_sum. rewrite Hvals. simpl.
  destruct col; by eexists.
Qed.

Lemma groupby_agg_sum_returns df key cols :
  key ∈ columns df → (∀ c, c ∈ cols → has_column numeric df c = true) →
  ∃ g, groupby_agg_sum df key cols = ok g.
Proof.
  intros [keys Hkeys]%getitem_ok_iff Hcols.
  unfold groupby_agg_sum. rewrite Hkeys. simpl.
  apply traverse_returns. intros c Hc. unfold agg_sum.
  destruct (has_column_getitem _ _ _ (Hcols c Hc))
    as (col & -> & [vals Hvals]%summands_returns).
  simpl. rewrite Hvals. simpl. by eexists.
Qed.

Lemma has_column_setitem_ne p df c c' col :
  c ≠ c' → has_column p (setitem df c col) c' = has_column p df c'.
Proof. intros. unfold has_column. by rewrite getitem_setitem_ne. Qed.

(** On a table that has its required columns, numeric where they are
    summed, the Meesho analysis returns. *)
Lemma meesho_run_returns df :
  (∀ c, c ∈ meesho_numeric → has_column numeric df c = true) →
  (∀ c, c ∈ meesho_group_keys → c ∈ columns df) →
  ("order_date" ∈ columns df → has_column datelike df "order_date" = true) →
  ∃ df1 a, meesho_run df df1 a.
Proof.
  intros Hnum Hkeys Hdate.
  assert (∀ c, c ∈ meesho_sums → has_column numeric df c = true) as Hsums.
  { intros c Hc. apply Hnum. unfold meesho_sums in Hc.
    unfold meesho_numeric. cases_in Hc; in_list. }
  destruct (Series_sum_returns df "total_invoice_value") as [ts Hts];
    [apply Hnum; unfold meesho_numeric; in_list|].
  destruct (Series_sum_returns df "tax_amount") as [tt Htt];
    [apply Hnum; unfold meesho_numeric; in_list|].
  destruct (Series_sum_returns df "total_taxable_sale_value") as [tx Htx];
    [apply Hnum; unfold meesho_numeric; in_list|].
  destruct (groupby_agg_sum_returns df "end_customer_state_new" meesho_sums)
    as [sw Hsw]; [apply Hkeys; unfold meesho_group_keys; in_list|done|].
  assert (∃ df1 mo, month_step "order_date" meesho_sums df df1 mo ∧
            (∀ c, c ∈ meesho_group_keys → c ∈ columns df1) ∧
            (∀ c, c ∈ meesho_sums → has_column numeric df1 c = true))
    as (df1 & mo & Hmo & Hkeys1 & Hsums1).
  { unfold month_step. case_bool_decide as Hod.
    - destruct (has_column_getitem _ _ _ (Hdate Hod))
        as (dates & Hdates & [month Hmonth]%dt_to_period_returns).
      assert (∀ c, c ∈ meesho_sums →
                has_column numeric (setitem df "month" month) c = true)
        as Hsums1.
      { intros c Hc. rewrite has_column_setitem_ne; [by apply Hsums|].
        unfold meesho_sums in Hc. by cases_in Hc. }
      destruct (groupby_agg_sum_returns (setitem df "month" month) "month"
                  meesho_sums) as [monthly Hmonthly]; [|done|].
      { apply elem_of_columns_setitem. by left. }
      exists (setitem df "month" month), (Some monthly). split_and!.
      + exists month, monthly. rewrite Hdates. simpl. by rewrite Hmonth.
      + intros c Hc. apply elem_of_columns_setitem. right. by apply Hkeys.
      + done.
    - exists df, None. by split_and!. }
  destruct (groupby_agg_sum_returns df1 "hsn_code" meesho_sums)
    as [pp Hpp]; [apply Hkeys1; unfold meesho_group_keys; in_list|done|].
  destruct (groupby_agg_sum_returns df1 "gst_rate" meesho_sums)
    as [tr Htr]; [apply Hkeys1; unfold meesho_group_keys; in_list|done|].
  eexists _, _. by eapply Meesho_run.
Qed.

Lemma Series_sum_column df c s :
  getitem df c ≫= Series_sum = ok s → c ∈ columns df.
Proof. intros (col & Hcol & _)%bind_ok. apply getitem_ok_iff. by eexists. Qed.

Lemma groupby_agg_sum_columns df key cols g :
  groupby_agg_sum df key cols = ok g →
  key ∈ columns df ∧ ∀ c, c ∈ cols → c ∈ columns df.
Proof.
  intros Hg. split.
  - apply groupby_agg_sum_inv in Hg as (keys & Hkeys & _).
    apply getitem_ok_iff. by eexists.
  - intros c Hc.
    destruct (groupby_agg_sum_assoc _ _ _ _ _ Hg Hc)
      as (_ & col & _ & _ & Hcol & _).
    apply getitem_ok_iff. by eexists.
Qed.

Lemma month_step_columns d sums df df1 mo c :
  month_step d sums df df1 mo → c ≠ "month" →
  c ∈ columns df1 → c ∈ columns df.
Proof.
  unfold month_step. case_bool_decide.
  - intros (month & monthly & _ & -> & _) Hc.
    rewrite elem_of_columns_setitem. by intros [?|?].
  - by intros [-> _].
Qed.

(** A run that returns has read every required column. *)
Lemma meesho_run_required df df1 a c :
  meesho_run df df1 a → c ∈ meesho_required → c ∈ columns df.
Proof.
  intros [ts tt tx sw df1' mo pp tr Hts Htt Htx Hsw Hmo Hpp Htr].
  apply Series_sum_column in Hts, Htt, Htx.
  apply groupby_agg_sum_columns in Hsw as [Hstate Hsums].
  apply groupby_agg_sum_columns in Hpp as [Hhsn _].
  apply groupby_agg_sum_columns in Htr as [Hgst _].
  apply (month_step_columns _ _ _ _ _ _ Hmo) in Hhsn, Hgst; [|done..].
  pose proof (Hsums "quantity") as Hq.
  unfold meesho_required, meesho_numeric, meesho_group_keys. simpl.
  intros Hc. cases_in Hc; try done.
  apply Hq. unfold meesho_sums. in_list.
Qed.

(** C1, as the code has it.  Of the columns the Meesho analysis depends
    on, [order_date] alone may be absent: the analysis then returns, leaves
    out the aggregate [monthly] and computes the seven others, provided the
    other columns are present (numeric where they are summed).  The absence
    of any of those other columns makes the analysis raise. *)
Theorem meesho_missing_column self df :
  meesho_sales self = Some df → wf df →
  ("order_date" ∉ columns df →
   (∀ c, c ∈ meesho_numeric → has_column numeric df c = true) →
   (∀ c, c ∈ meesho_group_keys → c ∈ columns df) →
   ∃ a, analyze_meesho_data self = (self, ok (Some a)) ∧
     meesho_run df df a ∧ dom a = meesho_keys) ∧
  (∀ c, c ∈ meesho_required → c ∉ columns df →
     raises (analyze_meesho_data self).2).
Proof.
  intros Hdf _. split.
  - intros Hod Hnum Hkeys.
    destruct (meesho_run_returns df Hnum Hkeys) as (df1 & a & Hrun);
      [done|].
    assert (df1 = df) as ->.
    { destruct Hrun as [? ? ? ? ? ? ? ? _ _ _ _ Hmo _ _].
      unfold month_step in Hmo.
      rewrite bool_decide_eq_false_2 in Hmo by done. by destruct Hmo. }
    exists a. split_and!; [|done|].
    + rewrite (analyze_meesho_data_intro self df df a Hdf Hrun).
      by rewrite with_meesho_sales_id.
    + rewrite (meesho_run_dom _ _ _ Hrun).
      by rewrite bool_decide_eq_false_2.
  - intros c Hc Hmissing.
    destruct (analyze_meesho_data self) as [self' [e|r]] eqn:Hrun; [done|].
    destruct (analyze_meesho_data_inv _ _ _ _ Hdf Hrun)
      as (df1 & a & _ & Hmr & _).
    destruct Hmissing. by eapply meesho_run_required.
Qed.

Lemma meesho_missing_column_witness :
  let df := {| index := 2;
               series :=
                 [("total_invoice_value",
                   [Examples.rupees 100; Examples.rupees 50]);
                  ("tax_amount", [Examples.rupees 18; Examples.rupees 9]);
                  ("total_taxable_sale_value",
                   [Examples.rupees 82; Examples.rupees 41]);
                  ("end_customer_state_new", [Str "UP"; Str "MH"]);
                  ("quantity", [Examples.rupees 1; Examples.rupees 1]);
                  ("hsn_code", [Examples.rupees 6109; Examples.rupees 6110]);
                  ("gst_rate", [Examples.rupees 18; Examples.rupees 18])] |} in
  ∃ a, analyze_meesho_data (Examples.loaded (Some df) None None)
       = (Examples.loaded (Some df) None None, ok (Some a)) ∧
    meesho_run df df a ∧ dom a = meesho_keys.
Proof.
  intros df.
  apply (proj1 (meesho_missing_column
                  (Examples.loaded (Some df) None None) df eq_refl
                  ltac:(by_evaluation))).
  - by_evaluation.
  - intros c Hc. unfold meesho_numeric in Hc. cases_in Hc; reflexivity.
  - intros c Hc. unfold meesho_group_keys in Hc. cases_in Hc; by_evaluation.
Defined.

(** C1 as stated fails: without the column [tax_amount] the analysis
    raises [KeyError]. *)
Lemma meesho_missing_column_counterexample :
  let df := {| index := 1;
               series :=
                 [("total_invoice_value", [Examples.rupees 100]);
                  ("total_taxable_sale_value", [Examples.rupees 82]);
                  ("end_customer_state_new", [Str "UP"]);
                  ("quantity", [Examples.rupees 1]);
                  ("order_date", [Timestamp 2024 1 5]);
                  ("hsn_code", [Examples.rupees 6109]);
                  ("gst_rate", [Examples.rupees 18])] |} in
  (analyze_meesho_data (Examples.loaded (Some df) None None)).2
  = raise (KeyError "tax_amount").
Proof. by_evaluation. Qed.

(** ** C2 *)

Lemma elem_of_group_keys keys k : k ∈ group_keys keys ↔ k ∈ keys ∧ k ≠ NaN.
Proof.
  unfold group_keys. rewrite elem_of_list_to_set, list_elem_of_filter. tauto.
Qed.

Lemma groupby_groups df key cols g :
  wf df → groupby_agg_sum df key cols = ok g →
  ∃ keys, getitem df key = ok keys ∧ groups_are (round_frame g) keys.
Proof.
  intros Hwf (keys & Hkeys & Hdom)%groupby_agg_sum_dom; [|done].
  exists keys. split; [done|]. intros c m Hin k.
  rewrite (Hdom c m Hin). apply elem_of_group_keys.
Qed.

Lemma month_step_getitem d sums df df1 mo c :
  month_step d sums df df1 mo → c ≠ "month" → getitem df1 c = getitem df c.
Proof.
  unfold month_step. case_bool_decide.
  - intros (month & monthly & _ & -> & _) Hc. by apply getitem_setitem_ne.
  - by intros [-> _].
Qed.

Lemma month_step_index d sums df df1 mo :
  month_step d sums df df1 mo → index df1 = index df.
Proof.
  unfold month_step. case_bool_decide.
  - by intros (month & monthly & _ & -> & _).
  - by intros [-> _].
Qed.

Lemma month_column_length df d month :
  wf df → getitem df d ≫= dt_to_period = ok month → length month = index df.
Proof.
  intros Hwf (dates & Hdates & Hmonth)%bind_ok.
  unfold dt_to_period in Hmonth. rewrite (traverse_length _ _ _ Hmonth).
  by eapply getitem_length.
Qed.

Lemma month_step_wf d sums df df1 mo :
  wf df → month_step d sums df df1 mo → wf df1.
Proof.
  intros Hwf. unfold month_step. case_bool_decide.
  - intros (month & monthly & Hmonth & -> & _).
    apply wf_setitem; [done|]. by eapply month_column_length.
  - by intros [-> _].
Qed.

Lemma month_step_groupby d sums df df1 mo key cols :
  month_step d sums df df1 mo → key ≠ "month" → "month" ∉ cols →
  groupby_agg_sum df1 key cols = groupby_agg_sum df key cols.
Proof.
  intros Hmo Hkey Hcols. apply groupby_agg_sum_ext.
  intros c Hc. eapply month_step_getitem; [done|].
  apply elem_of_cons in Hc as [->|Hc]; [done|]. by intros ->.
Qed.

(** The monthly aggregate exists exactly through the month step. *)
Lemma month_step_Some d sums df df1 monthly :
  month_step d sums df df1 (Some monthly) →
  ∃ month, getitem df d ≫= dt_to_period = ok month ∧
    df1 = setitem df "month" month ∧
    groupby_agg_sum df1 "month" sums = ok monthly.
Proof.
  unfold month_step. case_bool_decide.
  - intros (month & monthly' & ? & ? & ? & [= <-]). by exists month.
  - by intros [_ [=]].
Qed.

(** Every grouped table of a Meesho result is a rounded grouping of the
    table the run leaves behind. *)
Lemma meesho_run_frame_inv df df1 a name g :
  meesho_run df df1 a → a !! name = Some (Frame g) →
  ∃ g0, g = round_frame g0 ∧
    ((∃ key, (name, key) ∈ meesho_groupings ∧
        groupby_agg_sum df1 key meesho_sums = ok g0) ∨
     (name = "monthly" ∧ ∃ month,
        getitem df "order_date" ≫= dt_to_period = ok month ∧
        df1 = setitem df "month" month ∧
        groupby_agg_sum df1 "month" meesho_sums = ok g0)).
Proof.
  intros [ts tt tx sw df1' mo pp tr Hts Htt Htx Hsw Hmo Hpp Htr] Hg.
  assert ("month" ∉ meesho_sums) as Hsums by by_evaluation.
  apply lookup_insert_Some in Hg as [[<- [= <-]]|[? Hg]].
  { exists tr. split; [done|]. left. exists "gst_rate".
    split; [unfold meesho_groupings; in_list | done]. }
  apply lookup_insert_Some in Hg as [[<- [= <-]]|[? Hg]].
  { exists pp. split; [done|]. left. exists "hsn_code".
    split; [unfold meesho_groupings; in_list | done]. }
  destruct mo as [monthly|]; simpl in Hg.
  - apply lookup_insert_Some in Hg as [[<- [= <-]]|[? Hg]].
    { exists monthly. split; [done|]. right. split; [done|].
      by apply month_step_Some in Hmo. }
    apply lookup_insert_Some in Hg as [[<- [= <-]]|[? Hg]].
    { exists sw. split; [done|]. left. exists "end_customer_state_new".
      split; [unfold meesho_groupings; in_list|].
      by rewrite (month_step_groupby _ _ _ _ _ _ _ Hmo). }
    repeat (apply lookup_insert_Some in Hg as [[_ [=]]|[? Hg]]).
    by rewrite lookup_empty in Hg.
  - apply lookup_insert_Some in Hg as [[<- [= <-]]|[? Hg]].
    { exists sw. split; [done|]. left. exists "end_customer_state_new".
      split; [unfold meesho_groupings; in_list|].
      by rewrite (month_step_groupby _ _ _ _ _ _ _ Hmo). }
    repeat (apply lookup_insert_Some in Hg as [[_ [=]]|[? Hg]]).
    by rewrite lookup_empty in Hg.
Qed.

Lemma meesho_run_month_step df df1 a :
  meesho_run df df1 a → ∃ mo, month_step "order_date" meesho_sums df df1 mo.
Proof. intros []. by eexists. Qed.

(** Every grouped table of an Amazon result is a rounded grouping of the
    shipments. *)
Lemma amazon_run_frame_inv df a ty name g :
  amazon_run df a → getitem df "Transaction Type" = ok ty →
  a !! name = Some (Frame g) →
  ∃ sh1 mo g0,
    month_step "Order Date" amazon_sums (partition df ty "Shipment") sh1 mo ∧
    g = round_frame g0 ∧
    ((∃ key, (name, key) ∈ amazon_groupings ∧
        groupby_agg_sum sh1 key amazon_sums = ok g0) ∨
     (name = "monthly" ∧ ∃ month,
        getitem (partition df ty "Shipment") "Order Date" ≫= dt_to_period
          = ok month ∧
        sh1 = setitem (partition df ty "Shipment") "month" month ∧
        groupby_agg_sum sh1 "month" amazon_sums = ok g0)).
Proof.
  assert ("month" ∉ amazon_sums) as Hsums by by_evaluation.
  intros [ty' Hty' Hempty
         |ty' ts tt gross sw sh1 mo pp tcs Hty' Hempty Hts Htt Hgross Hsw Hmo
            Hpp Htcs] Hty Hg;
    rewrite Hty in Hty'; injection Hty' as <-.
  { unfold amazon_counts in Hg.
    repeat (apply lookup_insert_Some in Hg as [[_ [=]]|[? Hg]]).
    by rewrite lookup_empty in Hg. }
  exists sh1, mo.
  apply lookup_insert_Some in Hg as [[_ [=]]|[? Hg]].
  apply lookup_insert_Some in Hg as [[<- [= <-]]|[? Hg]].
  { exists pp. split_and!; [done..|]. left. exists "Hsn/sac".
    split; [unfold amazon_groupings; in_list | done]. }
  assert (∀ a0 : analysis, a0 !! name = Some (Frame g) →
    a0 = <["state_wise" := Frame (round_frame sw)]>
           (<["tax_exclusive_gross" := Scalar gross]>
              (<["total_tax" := Scalar tt]>
                 (<["total_sales" := Scalar ts]> (amazon_counts df ty)))) →
    ∃ g0, month_step "Order Date" amazon_sums (partition df ty "Shipment")
            sh1 mo ∧ g = round_frame g0 ∧
      ((∃ key, (name, key) ∈ amazon_groupings ∧
          groupby_agg_sum sh1 key amazon_sums = ok g0) ∨
       (name = "monthly" ∧ ∃ month,
          getitem (partition df ty "Shipment") "Order Date" ≫= dt_to_period
            = ok month ∧
          sh1 = setitem (partition df ty "Shipment") "month" month ∧
          groupby_agg_sum sh1 "month" amazon_sums = ok g0))) as Hstate.
  { intros a0 Ha0 ->.
    apply lookup_insert_Some in Ha0 as [[<- [= <-]]|[? Ha0]].
    - exists sw. split_and!; [done..|]. left. exists "Ship To State".
      split; [unfold amazon_groupings; in_list|].
      by rewrite (month_step_groupby _ _ _ _ _ _ _ Hmo).
    - unfold amazon_counts in Ha0.
      repeat (apply lookup_insert_Some in Ha0 as [[_ [=]]|[? Ha0]]).
      by rewrite lookup_empty in Ha0. }
  destruct mo as [monthly|]; simpl in Hg.
  - apply lookup_insert_Some in Hg as [[<- [= <-]]|[? Hg]].
    + exists monthly. split_and!; [done..|]. right. split; [done|].
      by apply month_step_Some in Hmo.
    + by eapply Hstate.
  - by eapply Hstate.
Qed.

Lemma wf_partition df ty s :
  wf df → getitem df "Transaction Type" = ok ty → wf (partition df ty s).
Proof.
  intros Hwf Hty. apply wf_getitem_mask; [done|].
  rewrite length_eq_str. by eapply getitem_length.
Qed.

(** C2, as the code has it.  Every grouped aggregate of a Meesho or Amazon
    analysis has, in each of its columns, one group per distinct value of
    its grouping column (for Amazon: over the shipments) other than the
    missing-value marker.  A row whose key is missing belongs to no
    group. *)
Theorem grouped_aggregate_groups :
  (∀ self self' df a,
     meesho_sales self = Some df → wf df →
     analyze_meesho_data self = (self', ok (Some a)) →
     ∀ name g, a !! name = Some (Frame g) →
       ∃ keys, groups_are g keys ∧
         ((∃ key, (name, key) ∈ meesho_groupings ∧
             getitem df key = ok keys) ∨
          (name = "monthly" ∧
             getitem df "order_date" ≫= dt_to_period = ok keys))) ∧
  (∀ self self' df a ty,
     amazon_data self = Some df → wf df →
     analyze_amazon_data self = (self', ok (Some a)) →
     getitem df "Transaction Type" = ok ty →
     ∀ name g, a !! name = Some (Frame g) →
       ∃ keys, groups_are g keys ∧
         ((∃ key, (name, key) ∈ amazon_groupings ∧
             getitem (partition df ty "Shipment") key = ok keys) ∨
          (name = "monthly" ∧
             getitem (partition df ty "Shipment") "Order Date"
               ≫= dt_to_period = ok keys))).
Proof.
  split.
  - intros self self' df a Hdf Hwf Hrun name g Hg.
    destruct (analyze_meesho_data_inv _ _ _ _ Hdf Hrun)
      as (df1 & a' & [= <-] & Hmr & _).
    destruct (meesho_run_month_step _ _ _ Hmr) as [mo Hmo].
    pose proof (month_step_wf _ _ _ _ _ Hwf Hmo) as Hwf1.
    destruct (meesho_run_frame_inv _ _ _ _ _ Hmr Hg)
      as (g0 & -> & [(key & Hkey & Hg0)|(-> & month & Hmonth & -> & Hg0)]);
      destruct (groupby_groups _ _ _ _ Hwf1 Hg0) as (keys & Hkeys & Hgroups);
      exists keys; (split; [done|]).
    + left. exists key. split; [done|].
      rewrite <-Hkeys. symmetry. eapply month_step_getitem; [done|].
      unfold meesho_groupings in Hkey. by cases_in Hkey.
    + right. split; [done|].
      rewrite getitem_setitem_eq in Hkeys. by injection Hkeys as <-.
  - intros self self' df a ty Hdf Hwf Hrun Hty name g Hg.
    destruct (analyze_amazon_data_inv _ _ _ _ Hdf Hrun)
      as (_ & a' & [= <-] & Har).
    pose proof (wf_partition df ty "Shipment" Hwf Hty) as Hwfs.
    destruct (amazon_run_frame_inv _ _ _ _ _ Har Hty Hg)
      as (sh1 & mo & g0 & Hmo & -> &
          [(key & Hkey & Hg0)|(-> & month & Hmonth & -> & Hg0)]);
      pose proof (month_step_wf _ _ _ _ _ Hwfs Hmo) as Hwf1;
      destruct (groupby_groups _ _ _ _ Hwf1 Hg0) as (keys & Hkeys & Hgroups);
      exists keys; (split; [done|]).
    + left. exists key. split; [done|].
      rewrite <-Hkeys. symmetry. eapply month_step_getitem; [done|].
      unfold amazon_groupings in Hkey. by cases_in Hkey.
    + right. split; [done|].
      rewrite getitem_setitem_eq in Hkeys. by injection Hkeys as <-.
Qed.

Lemma grouped_aggregate_groups_witness :
  let self := Examples.loaded (Some Examples.meesho_sheet) None None in
  let g := frame_of (analysis_of (analyze_meesho_data self)) "state_wise" in
  ∃ keys, groups_are g keys ∧
    ((∃ key, ("state_wise", key) ∈ meesho_groupings ∧
        getitem Examples.meesho_sheet key = ok keys) ∨
     ("state_wise" = "monthly" ∧
        getitem Examples.meesho_sheet "order_date" ≫= dt_to_period
          = ok keys)).
Proof.
  intros self g.
  apply (proj1 grouped_aggregate_groups self
           (analyze_meesho_data self).1 Examples.meesho_sheet
           (analysis_of (analyze_meesho_data self))).
  - reflexivity.
  - by_evaluation.
  - apply (returns_analysis_eq (analyze_meesho_data self)).
    vm_compute. reflexivity.
  - apply frame_of_eq. vm_compute. reflexivity.
Defined.

(** C2 as stated fails: the row whose state is missing forms no group of
    its own, the only group of the state-wise table is UP. *)
Lemma grouped_aggregate_groups_counterexample :
  let df := {| index := 2;
               series :=
                 [("total_invoice_value",
                   [Examples.rupees 100; Examples.rupees 50]);
                  ("tax_amount", [Examples.rupees 18; Examples.rupees 9]);
                  ("total_taxable_sale_value",
                   [Examples.rupees 82; Examples.rupees 41]);
                  ("end_customer_state_new", [Str "UP"; NaN]);
                  ("quantity", [Examples.rupees 1; Examples.rupees 1]);
                  ("hsn_code", [Examples.rupees 6109; Examples.rupees 6110]);
                  ("gst_rate", [Examples.rupees 18; Examples.rupees 18])] |} in
  groups_of
    (analysis_of
       (analyze_meesho_data (Examples.loaded (Some df) None None)))
    "state_wise" "total_invoice_value"
  = Some {[ Str "UP" ]}.
Proof. by_evaluation. Qed.

(** ** C3 *)

Lemma Series_sum_total col s :
  Series_sum col = ok s →
  ∃ vals, summands col = ok vals ∧ scalar_to_Qc s = total vals.
Proof.
  unfold Series_sum. intros (vals & Hvals & Hs)%bind_ok.
  exists vals. split; [done|]. destruct col as [|c col].
  - injection Hs as <-. unfold summands in Hvals. simpl in Hvals.
    injection Hvals as <-. apply Z2Qc_inj_0.
  - by injection Hs as <-.
Qed.





(** ** C4 *)

Lemma exact_sum_intro df c s :
  getitem df c ≫= Series_sum = ok s → exact_sum df c s.
Proof.
  intros (col & Hcol & Hs)%bind_ok.
  destruct (Series_sum_total _ _ Hs) as (vals & Hvals & Htotal).
  by exists col, vals.
Qed.

Lemma month_step_elem_of d sums df df1 mo c :
  month_step d sums df df1 mo → c ≠ "month" →
  c ∈ columns df1 ↔ c ∈ columns df.
Proof.
  intros Hmo Hc. split; [by eapply month_step_columns|].
  revert Hmo. unfold month_step. case_bool_decide.
  - intros (month & monthly & _ & -> & _) Hin.
    apply elem_of_columns_setitem. by right.
  - by intros [-> _].
Qed.

Lemma tcs_data_month_step d sums df df1 mo cols :
  month_step d sums df df1 mo → "month" ∉ cols →
  tcs_data df1 cols = tcs_data df cols.
Proof.
  intros Hmo. induction cols as [|c cols IH]; simpl; [done|].
  intros [Hc Hcols]%not_elem_of_cons.
  rewrite (bool_decide_ext _ _ (month_step_elem_of _ _ _ _ _ c Hmo
                                  (not_eq_sym Hc))).
  rewrite (month_step_getitem _ _ _ _ _ c Hmo (not_eq_sym Hc)).
  by rewrite IH.
Qed.

Lemma amazon_run_scalars df a ty name col v :
  amazon_run df a → getitem df "Transaction Type" = ok ty →
  (name, col) ∈ amazon_scalars → a !! name = Some v →
  ∃ s, v = Scalar s ∧
    getitem (partition df ty "Shipment") col ≫= Series_sum = ok s.
Proof.
  intros [ty' Hty' Hempty
         |ty' ts tt gross sw sh1 mo pp tcs Hty' Hempty Hts Htt Hgross Hsw Hmo
            Hpp Htcs] Hty Hname Hv;
    rewrite Hty in Hty'; injection Hty' as <-;
    unfold amazon_scalars in Hname; cases_in Hname;
    revert Hv; unfold amazon_counts; lookup_dict; try done;
    intros [= <-]; by eexists.
Qed.

Lemma amazon_run_tcs df a ty v :
  amazon_run df a → getitem df "Transaction Type" = ok ty →
  a !! "total_tcs" = Some v →
  ∃ tcs, tcs_data (partition df ty "Shipment") tcs_columns = ok tcs ∧
    v = Scalar (py_sum tcs).
Proof.
  intros [ty' Hty' Hempty
         |ty' ts tt gross sw sh1 mo pp tcs Hty' Hempty Hts Htt Hgross Hsw Hmo
            Hpp Htcs] Hty;
    rewrite Hty in Hty'; injection Hty' as <-;
    unfold amazon_counts; lookup_dict; [done|].
  intros [= <-]. exists tcs. split; [|done].
  rewrite <-Htcs. symmetry. eapply tcs_data_month_step; [done|].
  by_evaluation.
Qed.

(** C4, as the code has it.  Every value of every grouped table of a
    Meesho or Amazon analysis is rounded to two decimals.  The scalar sums
    are not: each is the sum of its column as it is (for Amazon: over the
    shipments), and [total_tcs] is the plain sum of such sums. *)
Theorem grouped_sums_rounded :
  (∀ self self' df a,
     meesho_sales self = Some df → wf df →
     analyze_meesho_data self = (self', ok (Some a)) →
     (∀ name g c m k v,
        a !! name = Some (Frame g) → (c, m) ∈ g → m !! k = Some v →
        two_decimals v) ∧
     (∀ name col, (name, col) ∈ meesho_scalars →
        ∃ s, a !! name = Some (Scalar s) ∧ exact_sum df col s)) ∧
  (∀ self self' df a ty,
     amazon_data self = Some df → wf df →
     analyze_amazon_data self = (self', ok (Some a)) →
     getitem df "Transaction Type" = ok ty →
     (∀ name g c m k v,
        a !! name = Some (Frame g) → (c, m) ∈ g → m !! k = Some v →
        two_decimals v) ∧
     (∀ name col v, (name, col) ∈ amazon_scalars → a !! name = Some v →
        ∃ s, v = Scalar s ∧ exact_sum (partition df ty "Shipment") col s) ∧
     (∀ v, a !! "total_tcs" = Some v →
        ∃ tcs, tcs_data (partition df ty "Shipment") tcs_columns = ok tcs ∧
          v = Scalar (py_sum tcs))).
Proof.
  split.
  - intros self self' df a Hdf _ Hrun.
    destruct (analyze_meesho_data_inv _ _ _ _ Hdf Hrun)
      as (df1 & a' & [= <-] & Hmr & _).
    split.
    + intros name g c m k v Hg Hin Hv.
      destruct (meesho_run_frame_inv _ _ _ _ _ Hmr Hg) as (g0 & -> & _).
      by eapply round_frame_two_decimals.
    + intros name col Hname.
      destruct (meesho_run_scalars _ _ _ Hmr)
        as (ts & tt & tx & Hts & Htt & Htx & _ & Hs1 & Hs2 & Hs3).
      unfold meesho_scalars in Hname. cases_in Hname;
        eexists; (split; [done|]); by apply exact_sum_intro.
  - intros self self' df a ty Hdf _ Hrun Hty.
    destruct (analyze_amazon_data_inv _ _ _ _ Hdf Hrun)
      as (_ & a' & [= <-] & Har).
    split_and!.
    + intros name g c m k v Hg Hin Hv.
      destruct (amazon_run_frame_inv _ _ _ _ _ Har Hty Hg)
        as (sh1 & mo & g0 & _ & -> & _).
      by eapply round_frame_two_decimals.
    + intros name col v Hname Hv.
      destruct (amazon_run_scalars _ _ _ _ _ _ Har Hty Hname Hv)
        as (s & -> & Hs).
      exists s. split; [done|]. by apply exact_sum_intro.
    + intros v Hv. by eapply amazon_run_tcs.
Qed.

Lemma grouped_sums_rounded_witness :
  let self := Examples.loaded (Some Examples.meesho_sheet) None None in
  ∃ s, analysis_of (analyze_meesho_data self) !! "total_sales"
       = Some (Scalar s) ∧
    exact_sum Examples.meesho_sheet "total_invoice_value" s.
Proof.
  intros self.
  assert (returns_analysis (analyze_meesho_data self) = true) as Hrun
    by (vm_compute; reflexivity).
  apply (proj2 (proj1 grouped_sums_rounded self (analyze_meesho_data self).1
                  Examples.meesho_sheet
                  (analysis_of (analyze_meesho_data self)) eq_refl
                  ltac:(by_evaluation) (returns_analysis_eq _ Hrun))).
  unfold meesho_scalars. in_list.
Defined.

(** C4 as stated fails: the scalar [total_sales] of a single sale of 0.001
    is 0.001, which has more than two decimals. *)
Lemma grouped_sums_rounded_counterexample :
  let df := {| index := 1;
               series :=
                 [("total_invoice_value", [Num (Q2Qc (1 # 1000))]);
                  ("tax_amount", [Examples.rupees 0]);
                  ("total_taxable_sale_value", [Examples.rupees 0]);
                  ("end_customer_state_new", [Str "UP"]);
                  ("quantity", [Examples.rupees 1]);
                  ("hsn_code", [Examples.rupees 6109]);
                  ("gst_rate", [Examples.rupees 18])] |} in
  scalar_of
    (analysis_of (analyze_meesho_data (Examples.loaded (Some df) None None)))
    "total_sales"
  = Some (NpFloat (Q2Qc (1 # 1000))) ∧
  ¬ two_decimals (Q2Qc (1 # 1000)).
Proof. by_evaluation. Qed.

(** ** C5 *)

Lemma Series_sum_numpy df c s :
  wf df → index df ≠ 0%nat → getitem df c ≫= Series_sum = ok s →
  ∃ x, s = NpFloat x.
Proof.
  intros Hwf Hrows (col & Hcol & Hs)%bind_ok.
  pose proof (getitem_length _ _ _ Hwf Hcol) as Hlen.
  unfold Series_sum in Hs. apply bind_ok in Hs as (vals & _ & Hs).
  destruct col; [done|]. injection Hs as <-. by eexists.
Qed.

(** On a table with at least one row the unguarded division of the Meesho
    tab does not raise: the sums are numpy scalars, and a zero
    [total_sales] gives [nan] or [inf]. *)
Lemma meesho_tax_rate_with_rows df df1 a :
  wf df → index df ≠ 0%nat → meesho_run df df1 a →
  ∃ r, meesho_tax_rate a = ok r ∧
    (∀ s, a !! "total_sales" = Some (Scalar s) → scalar_to_Qc s = 0%Qc →
       r = NotANumber ∨ r = Inf).
Proof.
  intros Hwf Hrows Hrun.
  destruct (meesho_run_scalars _ _ _ Hrun)
    as (ts & tt & tx & Hts & Htt & _ & _ & Hsales & Htax & _).
  destruct (Series_sum_numpy _ _ _ Hwf Hrows Hts) as [x ->].
  destruct (Series_sum_numpy _ _ _ Hwf Hrows Htt) as [y ->].
  unfold meesho_tax_rate, dict_getitem. rewrite Htax, Hsales. simpl.
  destruct (decide (x = 0%Qc)) as [->|Hx].
  - destruct (decide (y = 0%Qc)) as [->|Hy]; simpl.
    + eexists. split; [done|]. intros. by left.
    + eexists. split; [done|]. intros. by right.
  - eexists. split; [done|]. by intros s [= <-] ?.
Qed.

(** The return rate of the Amazon tab, which is guarded, never raises on
    a returned analysis. *)
Lemma amazon_return_rate_guarded df a :
  amazon_run df a → ∃ r, amazon_return_rate a = ok r.
Proof.
  intros (ty & _ & Hs & Hr & _)%amazon_run_counts.
  unfold amazon_return_rate, dict_getitem. rewrite Hs, Hr. simpl.
  case_bool_decide as Hpos; simpl; [|by eexists].
  rewrite decide_False; [by eexists|].
  intros Hz. rewrite Hz in Hpos. simpl in Hpos.
  rewrite <-Z2Qc_inj_0 in Hpos. apply Z2Qc_inj_lt in Hpos. lia.
Qed.

(** C5 fails on the code.  For a Meesho file that holds only its header
    line the analysis returns with [total_sales] and [total_tax] the
    built-in integer 0, and the average tax rate computed in [main]
    raises [ZeroDivisionError]. *)
Theorem meesho_tax_rate_header_only :
  let self := Examples.loaded
                (Some (Examples.header_only Examples.meesho_header))
                None None in
  let a := analysis_of (analyze_meesho_data self) in
  (analyze_meesho_data self).2 = ok (Some a) ∧
  a !! "total_sales" = Some (Scalar (PyInt 0)) ∧
  a !! "total_tax" = Some (Scalar (PyInt 0)) ∧
  meesho_tax_rate a = raise ZeroDivisionError.
Proof. by_evaluation. Qed.

(** ** C7 *)

Lemma len_partition df ty s :
  len (partition df ty s) = Z.of_nat (count_str ty s).
Proof. unfold len, partition, getitem_mask. simpl. by rewrite count_eq_str. Qed.




(** ** C8 *)

Lemma month_step_idem d sums df df1 mo :
  d ≠ "month" → month_step d sums df df1 mo → month_step d sums df1 df1 mo.
Proof.
  intros Hd Hmo.
  pose proof (month_step_elem_of _ _ _ _ _ d Hmo Hd) as Hin.
  pose proof (month_step_getitem _ _ _ _ _ d Hmo Hd) as Hget.
  revert Hmo Hin Hget. unfold month_step.
  case_bool_decide as Hdf; intros Hmo Hin Hget.
  - rewrite bool_decide_eq_true_2 by (by apply Hin).
    destruct Hmo as (month & monthly & Hmonth & -> & Hmonthly & ->).
    exists month, monthly. rewrite Hget.
    rewrite (setitem_id (setitem df "month" month) "month" month)
      by apply getitem_setitem_eq.
    done.
  - destruct Hmo as [-> ->]. by rewrite bool_decide_eq_false_2.
Qed.

(** A run on the table a run has left behind returns the same dict and
    leaves the table as it is. *)
Lemma meesho_run_again df df1 a : meesho_run df df1 a → meesho_run df1 df1 a.
Proof.
  intros [ts tt tx sw df1' mo pp tr Hts Htt Htx Hsw Hmo Hpp Htr].
  assert ("month" ∉ meesho_sums) as Hsums by by_evaluation.
  replace (len df) with (len df1')
    by (unfold len; by rewrite (month_step_index _ _ _ _ _ Hmo)).
  apply Meesho_run.
  - by rewrite (month_step_getitem _ _ _ _ _ _ Hmo).
  - by rewrite (month_step_getitem _ _ _ _ _ _ Hmo).
  - by rewrite (month_step_getitem _ _ _ _ _ _ Hmo).
  - by rewrite (month_step_groupby _ _ _ _ _ _ _ Hmo).
  - by eapply month_step_idem.
  - done.
  - done.
Qed.

(** C8, as the code has it.  A second run of the Meesho analysis returns
    what the first returned and changes nothing more.  The first run leaves
    the other tables alone, but it assigns the column [month] of the stored
    Meesho table when the table has the column [order_date]: the column is
    added, or replaced if it exists; no other column and no row count
    changes.  The Amazon analysis never changes the analyzer, so that a
    second run returns what the first returned. *)
Theorem analyzer_rerun :
  (∀ self self' r,
     (∀ df, meesho_sales self = Some df → wf df) →
     analyze_meesho_data self = (self', ok r) →
     analyze_meesho_data self' = (self', ok r) ∧
     meesho_returns self' = meesho_returns self ∧
     flipkart_data self' = flipkart_data self ∧
     amazon_data self' = amazon_data self ∧
     match meesho_sales self with
     | None => meesho_sales self' = None
     | Some df =>
         ∃ df1, meesho_sales self' = Some df1 ∧
           index df1 = index df ∧
           (∀ c, c ≠ "month" → getitem df1 c = getitem df c) ∧
           if bool_decide ("order_date" ∈ columns df) then
             ∃ month,
               getitem df "order_date" ≫= dt_to_period = ok month ∧
               df1 = setitem df "month" month
           else df1 = df
     end) ∧
  (∀ self,
     (analyze_amazon_data self).1 = self ∧
     analyze_amazon_data (analyze_amazon_data self).1
     = analyze_amazon_data self).
Proof.
  split.
  - intros self self' r _ Hrun.
    pose proof (analyze_meesho_data_frame self) as (Hret & Hfk & Ham).
    rewrite Hrun in Hret, Hfk, Ham. simpl in Hret, Hfk, Ham.
    destruct (meesho_sales self) as [df|] eqn:Hdf.
    + destruct (analyze_meesho_data_inv _ _ _ _ Hdf Hrun)
        as (df1 & a & -> & Hmr & ->).
      destruct (meesho_run_month_step _ _ _ Hmr) as [mo Hmo].
      split_and!; try done.
      * rewrite (analyze_meesho_data_intro _ df1 df1 a);
          [done | done | by eapply meesho_run_again].
      * exists df1. split_and!; [done | by eapply month_step_index | |].
        -- intros c Hc. by eapply month_step_getitem.
        -- revert Hmo. unfold month_step. case_bool_decide.
           ++ intros (month & monthly & ? & ? & _). by exists month.
           ++ by intros [-> _].
    + rewrite analyze_meesho_data_None in Hrun by done.
      injection Hrun as <- <-.
      split_and!; try done. by apply analyze_meesho_data_None.
  - intros self. split; [apply analyze_amazon_data_self|].
    by rewrite analyze_amazon_data_self.
Qed.

Lemma analyzer_rerun_witness :
  let self := Examples.loaded (Some Examples.meesho_sheet) None None in
  let self' := (analyze_meesho_data self).1 in
  let a := analysis_of (analyze_meesho_data self) in
  analyze_meesho_data self' = (self', ok (Some a)).
Proof.
  intros self self' a.
  apply (proj1 analyzer_rerun self self' (Some a)).
  - intros df [= <-]. by_evaluation.
  - apply (returns_analysis_eq (analyze_meesho_data self)).
    vm_compute. reflexivity.
Defined.

(** C8 as stated fails: the run assigns a column of the stored table.
    After the analysis of a table with [order_date] the analyzer is not
    what it was: its Meesho table has the further column [month]. *)
Lemma analyzer_rerun_counterexample :
  let self := Examples.loaded (Some Examples.meesho_sheet) None None in
  (analyze_meesho_data self).1 ≠ self ∧
  columns <$> meesho_sales (analyze_meesho_data self).1
  = Some (Examples.meesho_header ++ ["month"]) ∧
  columns <$> meesho_sales self = Some Examples.meesho_header.
Proof. by_evaluation. Qed.

(** ** C9 *)

Lemma run_try_except {A} (body : method A) handler self :
  try_except body handler self =
    match body self with
    | (self', inl e) => handler e self'
    | (self', inr a) => (self', inr a)
    end.
Proof. done. Qed.

Lemma run_set_amazon_data df self :
  set_amazon_data df self = (with_amazon_data self df, inr ()).
Proof. done. Qed.

Lemma to_datetime_coerced parse col :
  length (to_datetime parse col) = length col ∧
  (∀ i v, col !! i = Some v →
     to_datetime parse col !! i
     = Some match parse v with
            | Some (y, m, d) => Timestamp y m d
            | None => NaN
            end) ∧
  (Forall (λ v, parse v = None) col →
   Forall (λ v, v = NaN) (to_datetime parse col)).
Proof.
  unfold to_datetime. split_and!.
  - apply length_fmap.
  - intros i v Hv. rewrite list_lookup_fmap, Hv. simpl. unfold coerce.
    by destruct (parse v) as [[[y m] d]|].
  - intros Hcol. apply list.Forall_fmap.
    eapply list.Forall_impl; [exact Hcol|]. intros v Hv. simpl.
    unfold coerce. by rewrite Hv.
Qed.

Lemma dates_coerced_none parse df : dates_coerced parse df [] df.
Proof.
  split_and!; try done. by intros c col ?%elem_of_nil.
Qed.

Lemma getitem_converted_notin parse df cols c :
  c ∉ cols → getitem (converted parse df cols) c = getitem df c.
Proof.
  revert df. induction cols as [|c0 cols IH]; intros df; simpl; [done|].
  intros [Hc Hcols]%not_elem_of_cons. rewrite IH by done.
  destruct (getitem df c0); [done|]. by apply getitem_setitem_ne.
Qed.

Lemma index_converted parse df cols :
  index (converted parse df cols) = index df.
Proof.
  revert df. induction cols as [|c0 cols IH]; intros df; simpl; [done|].
  rewrite IH. by destruct (getitem df c0).
Qed.

Lemma columns_converted parse df cols :
  columns (converted parse df cols) = columns df.
Proof.
  revert df. induction cols as [|c0 cols IH]; intros df; simpl; [done|].
  rewrite IH. destruct (getitem df c0) as [e|col] eqn:Hc0; [done|].
  rewrite columns_setitem. rewrite decide_True; [done|].
  apply getitem_ok_iff. by eexists.
Qed.

Lemma getitem_converted_in parse df cols c col :
  NoDup cols → c ∈ cols → getitem df c = ok col →
  getitem (converted parse df cols) c = ok (to_datetime parse col).
Proof.
  intros Hnd. revert df.
  induction Hnd as [|c0 cols Hc0 Hnd IH]; intros df.
  - by intros ?%elem_of_nil.
  - simpl. intros [->|Hin]%elem_of_cons Hcol.
    + rewrite getitem_converted_notin by done. rewrite Hcol.
      apply getitem_setitem_eq.
    + apply IH; [done|].
      destruct (getitem df c0); [done|].
      rewrite getitem_setitem_ne; [done|]. by intros ->.
Qed.

Lemma dates_coerced_converted parse df cols :
  NoDup cols → dates_coerced parse df cols (converted parse df cols).
Proof.
  intros Hnd. split_and!.
  - apply index_converted.
  - apply columns_converted.
  - intros c Hc. by apply getitem_converted_notin.
  - intros c col Hc Hcol. exists (to_datetime parse col).
    split; [by apply getitem_converted_in|].
    apply to_datetime_coerced.
Qed.

Lemma convert_date_columns_run parse df cols self :
  amazon_data self = Some df →
  convert_date_columns parse df cols self
  = (with_amazon_data self (converted parse df cols), ok ()).
Proof.
  revert df self. induction cols as [|c cols IH]; intros df self Hdf; simpl.
  - destruct self. simpl in Hdf. by subst.
  - case_bool_decide as Hc.
    + apply getitem_ok_iff in Hc as [col Hcol]. rewrite Hcol. run.
      rewrite run_set_amazon_data. cbv beta iota. by rewrite IH.
    + rewrite getitem_missing by done. by apply IH.
Qed.

(** C9.  On a file that [read_csv] parses, whose stripped header has no
    repeated name, either loader returns [True] and stores the table with
    its date columns converted, whatever their values: a value that does
    not parse as a date becomes the missing-value marker, so that a date
    column of unparseable values is stored entirely missing; the other
    columns and the row count are those of the file. *)
Theorem permissive_date_parse (parse : cell → option (Z * Z * Z)) :
  (∀ self df returns_file,
     NoDup (columns (columns_strip df)) →
     ∃ self' df',
       load_meesho_data parse (Csv df) returns_file self = (self', ok true) ∧
       meesho_sales self' = Some df' ∧
       dates_coerced parse (columns_strip df) ["order_date"] df') ∧
  (∀ self df,
     NoDup (columns (columns_strip df)) →
     ∃ self' df',
       load_amazon_data parse (Csv df) self = (self', ok true) ∧
       amazon_data self' = Some df' ∧
       dates_coerced parse (columns_strip df) date_columns df').
Proof.
  split.
  - intros self df returns_file _.
    assert (∀ s : EcommerceAnalyzer, ∃ s',
      match returns_file with
      | Some f =>
          try_except
            (r ← lift (read_csv f);
             set_meesho_returns r;; set_meesho_returns (columns_strip r))
            (λ _, mret ())
      | None => mret ()
      end s = (s', ok ()) ∧ meesho_sales s' = meesho_sales s) as Hreturns.
    { intros s. destruct returns_file as [[|r]|]; by eexists. }
    unfold load_meesho_data. rewrite run_try_except. run. simpl read_csv.
    run.
    case_bool_decide as Hod.
    + apply getitem_ok_iff in Hod as [col Hcol]. run. rewrite Hcol. run.
      destruct (Hreturns
                  (with_meesho_sales
                     (with_meesho_sales (with_meesho_sales self df)
                        (columns_strip df))
                     (setitem (columns_strip df) "order_date"
                        (to_datetime parse col))))
        as (s' & -> & Hs').
      run. eexists _, _. split; [done|]. split; [exact Hs'|].
      replace (setitem (columns_strip df) "order_date"
                 (to_datetime parse col))
        with (converted parse (columns_strip df) ["order_date"])
        by (simpl; by rewrite Hcol).
      apply dates_coerced_converted, list.NoDup_singleton.
    + run.
      destruct (Hreturns
                  (with_meesho_sales (with_meesho_sales self df)
                     (columns_strip df)))
        as (s' & -> & Hs').
      run. eexists _, _. split; [done|]. split; [exact Hs'|].
      replace (columns_strip df)
        with (converted parse (columns_strip df) ["order_date"]) at 2
        by (simpl; by rewrite getitem_missing).
      apply dates_coerced_converted, list.NoDup_singleton.
  - intros self df _.
    unfold load_amazon_data. rewrite run_try_except. run. simpl read_csv.
    run. rewrite !run_set_amazon_data. cbv beta iota.
    rewrite run_bind, run_set_amazon_data. cbv beta iota.
    rewrite run_bind, convert_date_columns_run by done. cbv beta iota.
    run. eexists _, _. split; [done|]. split; [done|].
    apply dates_coerced_converted. by_evaluation.
Qed.

Lemma permissive_date_parse_witness :
  let file :=
    Csv {| index := 3;
           series :=
             [(" order_date ", [Str "2024-01-15"; Str "soon"; NaN]);
              ("total_invoice_value",
               [Examples.rupees 100; Examples.rupees 50;
                Examples.rupees 200])] |} in
  ∃ self' df',
    load_meesho_data parse_iso file None init = (self', ok true) ∧
    meesho_sales self' = Some df' ∧
    getitem df' "order_date" = ok [Timestamp 2024 1 15; NaN; NaN].
Proof.
  intros file.
  destruct (proj1 (permissive_date_parse parse_iso) init
              {| index := 3;
                 series :=
                   [(" order_date ", [Str "2024-01-15"; Str "soon"; NaN]);
                    ("total_invoice_value",
                     [Examples.rupees 100; Examples.rupees 50;
                      Examples.rupees 200])] |} None)
    as (self' & df' & Hload & Hdf' & _ & _ & _ & Hdates).
  - by_evaluation.
  - exists self', df'. split; [exact Hload|]. split; [exact Hdf'|].
    destruct (Hdates "order_date"
                [Str "2024-01-15"; Str "soon"; NaN]) as (col' & -> & Hlen & Hcells & _).
    + in_list.
    + reflexivity.
    + f_equal.
      pose proof (Hcells 0%nat _ eq_refl) as H0.
      pose proof (Hcells 1%nat _ eq_refl) as H1.
      pose proof (Hcells 2%nat _ eq_refl) as H2.
      destruct col' as [|c0 [|c1 [|c2 [|]]]]; try done.
      simpl in H0, H1, H2. by injection H0 as ->; injection H1 as ->;
        injection H2 as ->.
Defined.

(** * Further properties of the code *)

(** ** Stripping of column names *)

Lemma append_cons a s t : String a s +:+ t = String a (s +:+ t).
Proof. done. Qed.

Lemma append_nil_r s : s +:+ "" = s.
Proof. induction s as [|a s IH]; [done|]. by rewrite append_cons, IH. Qed.

Lemma append_assoc s1 s2 s3 : (s1 +:+ s2) +:+ s3 = s1 +:+ (s2 +:+ s3).
Proof.
  induction s1 as [|a s1 IH]; [done|]. by rewrite !append_cons, IH.
Qed.

Lemma rev_app_append s1 s2 : String.rev_app s1 s2 = String.rev s1 +:+ s2.
Proof.
  unfold String.rev. revert s2. induction s1 as [|a s1 IH]; intros s2.
  - done.
  - simpl. rewrite (IH (String a s2)), (IH (String a "")).
    by rewrite append_assoc.
Qed.

Lemma rev_cons a s : String.rev (String a s) = String.rev s +:+ String a "".
Proof. unfold String.rev at 1. simpl. apply rev_app_append. Qed.

Lemma rev_append s1 s2 :
  String.rev (s1 +:+ s2) = String.rev s2 +:+ String.rev s1.
Proof.
  induction s1 as [|a s1 IH].
  - by rewrite append_nil_r.
  - rewrite append_cons, !rev_cons, IH. by rewrite append_assoc.
Qed.

Lemma rev_involutive s : String.rev (String.rev s) = s.
Proof.
  induction s as [|a s IH]; [done|].
  by rewrite rev_cons, rev_append, IH.
Qed.

Lemma lstrip_starts_clean s : starts_clean (lstrip s).
Proof.
  induction s as [|a s IH]; simpl; [done|].
  destruct (is_whitespace a) eqn:Ha; [done|]. simpl. done.
Qed.

Lemma lstrip_id s : starts_clean s → lstrip s = s.
Proof. destruct s as [|a s]; simpl; [done|]. by intros ->. Qed.

Lemma lstrip_snoc s a :
  is_whitespace a = false →
  lstrip (s +:+ String a "") = lstrip s +:+ String a "".
Proof.
  intros Ha. induction s as [|b s IH].
  - simpl. by rewrite Ha.
  - rewrite append_cons. simpl. by destruct (is_whitespace b).
Qed.

Lemma rstrip_starts_clean s : starts_clean s → starts_clean (rstrip s).
Proof.
  destruct s as [|a s]; [done|]. simpl. intros Ha. unfold rstrip.
  rewrite rev_cons, lstrip_snoc by done.
  by rewrite rev_append.
Qed.

(** X4.  [strip] leaves a string that neither starts nor ends with white
    space, leaves such a string as it is, and is therefore idempotent. *)
Theorem strip_trimmed s :
  trimmed (strip s) ∧ (trimmed s → strip s = s) ∧ strip (strip s) = strip s.
Proof.
  assert (trimmed (strip s)) as Hstrip.
  { split.
    - apply rstrip_starts_clean, lstrip_starts_clean.
    - unfold strip, rstrip. rewrite rev_involutive.
      apply lstrip_starts_clean. }
  assert (∀ t, trimmed t → strip t = t) as Hid.
  { intros t [Hl Hr]. unfold strip, rstrip.
    rewrite (lstrip_id t Hl), (lstrip_id _ Hr). apply rev_involutive. }
  split_and!; [done | apply Hid | by apply Hid].
Qed.

Lemma strip_trimmed_witness : strip "order_date" = "order_date".
Proof.
  apply (proj1 (proj2 (strip_trimmed "order_date"))).
  by split.
Defined.

(** ** Loaders *)

Lemma run_set_meesho_returns df self :
  set_meesho_returns df self = (with_meesho_returns self df, inr ()).
Proof. done. Qed.

Lemma run_set_flipkart_data df self :
  set_flipkart_data df self = (with_flipkart_data self df, inr ()).
Proof. done. Qed.

Ltac run_load :=
  repeat (rewrite ?run_try_except, ?run_bind, ?run_lift, ?run_this, ?run_ret,
            ?run_set_meesho_sales, ?run_set_meesho_returns,
            ?run_set_flipkart_data, ?run_set_amazon_data;
          cbv beta iota delta [ok raise read_csv]).

Lemma load_meesho_data_Unreadable parse returns_file self :
  load_meesho_data parse Unreadable returns_file self = (self, ok false).
Proof. unfold load_meesho_data. by run_load. Qed.

Lemma load_meesho_data_Csv parse df returns_file self :
  load_meesho_data parse (Csv df) returns_file self
  = ({| meesho_sales :=
          Some (converted parse (columns_strip df) ["order_date"]);
        meesho_returns := returns_after returns_file (meesho_returns self);
        flipkart_data := flipkart_data self;
        amazon_data := amazon_data self |}, ok true).
Proof.
  unfold load_meesho_data. run_load. simpl converted.
  case_bool_decide as Hod.
  - apply getitem_ok_iff in Hod as [col Hcol]. rewrite Hcol. run_load.
    destruct returns_file as [[|r]|]; by run_load.
  - rewrite getitem_missing by done. run_load.
    destruct returns_file as [[|r]|]; by run_load.
Qed.

Lemma load_flipkart_data_Unreadable self :
  load_flipkart_data Unreadable self = (self, ok false).
Proof. unfold load_flipkart_data. by run_load. Qed.

Lemma load_flipkart_data_Csv df self :
  load_flipkart_data (Csv df) self
  = (with_flipkart_data self (columns_strip df), ok true).
Proof. unfold load_flipkart_data. by run_load. Qed.

Lemma load_amazon_data_Unreadable parse self :
  load_amazon_data parse Unreadable self = (self, ok false).
Proof. unfold load_amazon_data. by run_load. Qed.

Lemma load_amazon_data_Csv parse df self :
  load_amazon_data parse (Csv df) self
  = (with_amazon_data self (converted parse (columns_strip df) date_columns),
     ok true).
Proof.
  unfold load_amazon_data. rewrite run_try_except. run.
  simpl read_csv. run. rewrite !run_set_amazon_data. cbv beta iota.
  rewrite run_bind, run_set_amazon_data. cbv beta iota.
  rewrite run_bind, convert_date_columns_run by done. cbv beta iota.
  by run.
Qed.

(** X1.  No loader raises: each returns [True] exactly when [read_csv]
    parses its primary file, and when it returns [False] the analyzer is
    what it was: no table is replaced, and the returns file is not even
    read. *)
Theorem loaders_outcome parse file returns_file self :
  ((load_meesho_data parse file returns_file self).2 = ok (parses file) ∧
   (load_flipkart_data file self).2 = ok (parses file) ∧
   (load_amazon_data parse file self).2 = ok (parses file)) ∧
  (parses file = false →
   (load_meesho_data parse file returns_file self).1 = self ∧
   (load_flipkart_data file self).1 = self ∧
   (load_amazon_data parse file self).1 = self).
Proof.
  destruct file as [|df].
  - rewrite load_meesho_data_Unreadable, load_flipkart_data_Unreadable,
      load_amazon_data_Unreadable. done.
  - rewrite load_meesho_data_Csv, load_flipkart_data_Csv,
      load_amazon_data_Csv. done.
Qed.

Lemma loaders_outcome_witness :
  (load_meesho_data parse_iso Unreadable (Some (Csv Examples.meesho_sheet))
     (Examples.loaded (Some Examples.meesho_sheet) None None)).1
  = Examples.loaded (Some Examples.meesho_sheet) None None.
Proof.
  apply (proj2 (loaders_outcome parse_iso Unreadable
                  (Some (Csv Examples.meesho_sheet))
                  (Examples.loaded (Some Examples.meesho_sheet) None None))).
  reflexivity.
Defined.

(** X2.  The returns file is optional and its failure is not fatal: for a
    sales file that parses, [load_meesho_data] returns [True] and stores
    the same sales table whatever the returns file is.  A returns file
    that parses is stored with its header stripped; one that does not, or
    none, leaves the returns table as it was. *)
Theorem returns_file_non_fatal parse df returns_file self :
  let after := load_meesho_data parse (Csv df) returns_file self in
  after.2 = ok true ∧
  meesho_sales after.1
  = meesho_sales (load_meesho_data parse (Csv df) None self).1 ∧
  meesho_returns after.1
  = match returns_file with
    | Some (Csv r) => Some (columns_strip r)
    | Some Unreadable | None => meesho_returns self
    end.
Proof.
  rewrite !load_meesho_data_Csv. simpl.
  by destruct returns_file as [[|r]|].
Qed.

(** X3.  A loader assigns the tables of its own platform only, whether it
    succeeds or not. *)
Theorem loaders_frame parse file returns_file self :
  (let after := (load_meesho_data parse file returns_file self).1 in
   flipkart_data after = flipkart_data self ∧
   amazon_data after = amazon_data self) ∧
  (let after := (load_flipkart_data file self).1 in
   meesho_sales after = meesho_sales self ∧
   meesho_returns after = meesho_returns self ∧
   amazon_data after = amazon_data self) ∧
  (let after := (load_amazon_data parse file self).1 in
   meesho_sales after = meesho_sales self ∧
   meesho_returns after = meesho_returns self ∧
   flipkart_data after = flipkart_data self).
Proof.
  destruct file as [|df].
  - rewrite load_meesho_data_Unreadable, load_flipkart_data_Unreadable,
      load_amazon_data_Unreadable. done.
  - rewrite load_meesho_data_Csv, load_flipkart_data_Csv,
      load_amazon_data_Csv. done.
Qed.

(** X5.  Whatever a loader stores has a stripped header: the names of the
    stored columns are the names of the file, stripped, in the same order,
    and none starts or ends with white space.  This holds for the three
    platform tables and for the returns table. *)
Theorem stored_header_stripped parse df r self :
  columns <$> meesho_sales
                (load_meesho_data parse (Csv df) (Some (Csv r)) self).1
  = Some (strip <$> columns df) ∧
  columns <$> meesho_returns
                (load_meesho_data parse (Csv df) (Some (Csv r)) self).1
  = Some (strip <$> columns r) ∧
  columns <$> flipkart_data (load_flipkart_data (Csv df) self).1
  = Some (strip <$> columns df) ∧
  columns <$> amazon_data (load_amazon_data parse (Csv df) self).1
  = Some (strip <$> columns df) ∧
  Forall trimmed (strip <$> columns df).
Proof.
  assert (∀ t, columns (columns_strip t) = strip <$> columns t) as Hstrip.
  { intros t. unfold columns, columns_strip. simpl.
    rewrite <-!list_fmap_compose. by apply list_fmap_ext. }
  rewrite load_meesho_data_Csv, load_flipkart_data_Csv, load_amazon_data_Csv.
  cbn -[converted columns_strip columns strip].
  rewrite !columns_converted, !Hstrip. split_and!; try done.
  apply list.Forall_fmap, list.Forall_forall. intros c _. simpl.
  apply strip_trimmed.
Qed.

Lemma to_datetime_datelike parse col :
  forallb datelike (to_datetime parse col) = true.
Proof.
  unfold to_datetime. induction col as [|c col IH]; [done|].
  rewrite fmap_cons. simpl. rewrite IH. unfold coerce.
  by destruct (parse c) as [[[y m] d]|].
Qed.

(** X6.  Loading then analysing.  Once [load_meesho_data] has stored a
    file whose stripped table has the columns the analysis sums, numeric,
    and the columns it groups by, [analyze_meesho_data] returns a result,
    whatever the file holds in [order_date]: the Loader leaves only dates
    and missing values there, so that the month step cannot fail.  The
    result has the seven aggregates, and [monthly] exactly when the file
    has the column [order_date]. *)
Theorem load_then_analyze parse df returns_file self :
  wf (columns_strip df) →
  (∀ c, c ∈ meesho_numeric → has_column numeric (columns_strip df) c = true) →
  (∀ c, c ∈ meesho_group_keys → c ∈ columns (columns_strip df)) →
  ∃ self' a,
    analyze_meesho_data (load_meesho_data parse (Csv df) returns_file self).1
    = (self', ok (Some a)) ∧
    dom a = if bool_decide ("order_date" ∈ columns (columns_strip df))
            then {["monthly"]} ∪ meesho_keys else meesho_keys.
Proof.
  intros _ Hnum Hkeys. rewrite load_meesho_data_Csv. simpl.
  set (stored := converted parse (columns_strip df) ["order_date"]).
  destruct (meesho_run_returns stored) as (df1 & a & Hrun).
  - intros c Hc. unfold has_column, stored.
    rewrite getitem_converted_notin; [by apply Hnum|].
    intros ->%list_elem_of_singleton.
    unfold meesho_numeric in Hc. by cases_in Hc.
  - intros c Hc. unfold stored. rewrite columns_converted. by apply Hkeys.
  - unfold stored. rewrite columns_converted.
    intros [col Hcol]%getitem_ok_iff. unfold has_column.
    rewrite (getitem_converted_in parse _ _ _ col);
      [apply to_datetime_datelike | apply list.NoDup_singleton | in_list
      | done].
  - eexists _, a. split.
    + by apply (analyze_meesho_data_intro _ stored df1 a).
    + rewrite (meesho_run_dom _ _ _ Hrun). unfold stored.
      by rewrite columns_converted.
Qed.

Lemma load_then_analyze_witness :
  let df :=
    {| index := 2;
       series :=
         [(" total_invoice_value", [Examples.rupees 100; Examples.rupees 50]);
          ("tax_amount ", [Examples.rupees 18; Examples.rupees 9]);
          ("total_taxable_sale_value",
           [Examples.rupees 82; Examples.rupees 41]);
          ("end_customer_state_new", [Str "UP"; Str "MH"]);
          ("quantity", [Examples.rupees 1; Examples.rupees 1]);
          ("order_date", [Str "2024-01-15"; Str "next week"]);
          ("hsn_code", [Examples.rupees 6109; Examples.rupees 6110]);
          ("gst_rate", [Examples.rupees 18; Examples.rupees 18])] |} in
  ∃ self' a,
    analyze_meesho_data (load_meesho_data parse_iso (Csv df) None init).1
    = (self', ok (Some a)) ∧
    dom a = if bool_decide ("order_date" ∈ columns (columns_strip df))
            then {["monthly"]} ∪ meesho_keys else meesho_keys.
Proof.
  intros df. apply (load_then_analyze parse_iso df None init).
  - by_evaluation.
  - intros c Hc. unfold meesho_numeric in Hc. cases_in Hc; reflexivity.
  - intros c Hc. unfold meesho_group_keys in Hc. cases_in Hc; by_evaluation.
Defined.

(** ** Analyzers *)

Ltac same_names :=
  apply set_eq; intros ?;
  rewrite ?elem_of_union, ?elem_of_list_to_set, ?elem_of_cons, ?elem_of_nil,
    ?elem_of_singleton, ?elem_of_empty;
  tauto.

(** X7.  An Amazon table is analysed through its column
    [Transaction Type] first.  Without that column the analysis raises
    [KeyError] for it.  With it and without a row of type Shipment the
    analysis returns the three counts and nothing else, with
    [total_shipments = 0]: no other column is read, present or not. *)
Theorem amazon_without_shipment self df :
  amazon_data self = Some df →
  ("Transaction Type" ∉ columns df →
   analyze_amazon_data self = (self, raise (KeyError "Transaction Type"))) ∧
  (∀ ty, getitem df "Transaction Type" = ok ty →
     count_str ty "Shipment" = 0%nat →
     analyze_amazon_data self = (self, ok (Some (amazon_counts df ty))) ∧
     dom (amazon_counts df ty) = list_to_set amazon_count_names ∧
     amazon_counts df ty !! "total_shipments" = Some (Scalar (PyInt 0))).
Proof.
  intros Hdf. split.
  - intros Hty. unfold analyze_amazon_data. run. rewrite Hdf. run.
    by rewrite getitem_missing.
  - intros ty Hty Hcount.
    assert (len (partition df ty "Shipment") = 0) as Hlen
      by (by rewrite len_partition, Hcount).
    split_and!.
    + apply (analyze_amazon_data_intro self df); [done|].
      apply Amazon_no_shipment; [done|].
      unfold empty. apply bool_decide_eq_true_2. left.
      unfold len in Hlen. lia.
    + unfold amazon_counts, amazon_count_names.
      rewrite !dom_insert_L, dom_empty_L. same_names.
    + destruct (amazon_counts_lookup df ty) as (-> & _). by rewrite Hlen.
Qed.

Lemma amazon_without_shipment_witness :
  let df := {| index := 2;
               series := [("Transaction Type", [Str "Refund"; Str "Cancel"]);
                          ("Invoice Amount",
                           [Examples.rupees 50; Examples.rupees 70])] |} in
  analyze_amazon_data (Examples.loaded None (Some df) None)
  = (Examples.loaded None (Some df) None,
     ok (Some (amazon_counts df [Str "Refund"; Str "Cancel"]))).
Proof.
  intros df.
  apply (proj2 (amazon_without_shipment
                  (Examples.loaded None (Some df) None) df eq_refl)
           [Str "Refund"; Str "Cancel"]).
  - reflexivity.
  - reflexivity.
Defined.

Lemma amazon_run_dom df a ty :
  amazon_run df a → getitem df "Transaction Type" = ok ty →
  dom a =
    if decide (count_str ty "Shipment" = 0%nat)
    then list_to_set amazon_count_names
    else list_to_set amazon_count_names ∪ list_to_set amazon_sum_names ∪
         (if bool_decide ("Order Date" ∈ columns df)
          then {["monthly"]} else ∅).
Proof.
  assert (dom (amazon_counts df ty) = list_to_set amazon_count_names)
    as Hcounts.
  { unfold amazon_counts, amazon_count_names.
    rewrite !dom_insert_L, dom_empty_L. same_names. }
  assert (∀ ty, empty (partition df ty "Shipment")
                = bool_decide (count_str ty "Shipment" = 0%nat ∨
                               series df = [])) as Hempty.
  { intros ty'. unfold empty, partition, getitem_mask. simpl.
    rewrite count_eq_str. apply bool_decide_ext.
    split; (intros [?|Hs]; [by left|right]).
    - by apply fmap_nil_inv in Hs.
    - by rewrite Hs. }
  intros [ty' Hty' He
         |ty' ts tt gross sw sh1 mo pp tcs Hty' He Hts Htt Hgross Hsw Hmo
            Hpp Htcs] Hty;
    rewrite Hty in Hty'; injection Hty' as <-; rewrite Hempty in He.
  - apply bool_decide_eq_true_1 in He as [Hz|Hnil].
    + by rewrite decide_True.
    + unfold getitem in Hty. by rewrite Hnil in Hty.
  - apply bool_decide_eq_false_1 in He.
    rewrite decide_False by tauto.
    rewrite !dom_insert_L, dom_add_monthly, !dom_insert_L, Hcounts.
    unfold month_step, partition in Hmo.
    rewrite columns_getitem_mask in Hmo.
    unfold amazon_sum_names, amazon_count_names.
    case_bool_decide.
    + destruct Hmo as (? & ? & _ & _ & _ & ->). same_names.
    + destruct Hmo as [_ ->]. same_names.
Qed.

(** X8.  The entries of a returned result are fixed by the columns of the
    table.  A Meesho result has its seven aggregates, and [monthly] exactly
    when the table has [order_date].  An Amazon result has its three
    counts alone when no row is a shipment; otherwise it has the six
    further entries, and [monthly] exactly when the table has
    [Order Date]. *)
Theorem analysis_entries :
  (∀ self self' df a,
     meesho_sales self = Some df →
     analyze_meesho_data self = (self', ok (Some a)) →
     dom a = if bool_decide ("order_date" ∈ columns df)
             then {["monthly"]} ∪ meesho_keys else meesho_keys) ∧
  (∀ self self' df a ty,
     amazon_data self = Some df →
     analyze_amazon_data self = (self', ok (Some a)) →
     getitem df "Transaction Type" = ok ty →
     dom a =
       if decide (count_str ty "Shipment" = 0%nat)
       then list_to_set amazon_count_names
       else list_to_set amazon_count_names ∪ list_to_set amazon_sum_names ∪
            (if bool_decide ("Order Date" ∈ columns df)
             then {["monthly"]} else ∅)).
Proof.
  split.
  - intros self self' df a Hdf Hrun.
    destruct (analyze_meesho_data_inv _ _ _ _ Hdf Hrun)
      as (df1 & a' & [= <-] & Hmr & _).
    by eapply meesho_run_dom.
  - intros self self' df a ty Hdf Hrun Hty.
    destruct (analyze_amazon_data_inv _ _ _ _ Hdf Hrun)
      as (_ & a' & [= <-] & Har).
    by apply amazon_run_dom.
Qed.

Lemma analysis_entries_witness :
  let self := Examples.loaded None (Some Examples.amazon_sheet) None in
  dom (analysis_of (analyze_amazon_data self))
  = list_to_set amazon_count_names ∪ list_to_set amazon_sum_names ∪ ∅.
Proof.
  intros self.
  apply (proj2 analysis_entries self (analyze_amazon_data self).1
           Examples.amazon_sheet _
           [Str "Shipment"; Str "Shipment"; Str "Refund"]).
  - reflexivity.
  - apply (returns_analysis_eq (analyze_amazon_data self)).
    vm_compute. reflexivity.
  - reflexivity.
Defined.

(** ** Grouped sums *)

Lemma select_eq_cell_notin keys k (vals : list Qc) :
  k ∉ keys → select (eq_cell keys k) vals = [].
Proof.
  unfold eq_cell. revert vals.
  induction keys as [|k0 keys IH]; intros [|v vals]; try done.
  intros [Hne Hnotin]%not_elem_of_cons. rewrite fmap_cons.
  rewrite bool_decide_eq_false_2 by (by intros ->). simpl.
  by apply IH.
Qed.

Lemma group_sum_lookup keys vals k :
  length keys = length vals → k ≠ NaN →
  group_sum keys vals !! k =
    if decide (k ∈ keys) then Some (total (select (eq_cell keys k) vals))
    else None.
Proof.
  intros Hlen Hk. revert vals Hlen.
  induction keys as [|k0 keys IH]; intros [|v vals]; try done.
  intros [= Hlen]. specialize (IH vals Hlen).
  change (eq_cell (k0 :: keys) k)
    with (bool_decide (k0 = k) :: eq_cell keys k).
  cbn [group_sum].
  destruct (isna k0) eqn:Hk0.
  - apply isna_true in Hk0. subst k0. rewrite IH.
    rewrite bool_decide_eq_false_2 by (by intros <-). simpl.
    destruct (decide (k ∈ keys)) as [Hin|Hout].
    + rewrite decide_True by (by right). done.
    + rewrite decide_False; [done|].
      intros [->|?]%elem_of_cons; done.
  - destruct (decide (k = k0)) as [<-|Hne].
    + rewrite lookup_insert_eq, decide_True by left.
      rewrite bool_decide_eq_true_2 by done. simpl.
      rewrite IH. destruct (decide (k ∈ keys)) as [Hin|Hout]; simpl.
      * done.
      * rewrite select_eq_cell_notin by done. done.
    + rewrite lookup_insert_ne by done.
      rewrite bool_decide_eq_false_2 by done. simpl. rewrite IH.
      destruct (decide (k ∈ keys)) as [Hin|Hout].
      * rewrite decide_True by (by right). done.
      * rewrite decide_False; [done|].
        intros [->|?]%elem_of_cons; done.
Qed.

Lemma round_group_sum_lookup keys vals k :
  length keys = length vals →
  (round2 <$> group_sum keys vals) !! k = group_value keys vals k.
Proof.
  intros Hlen. unfold group_value. rewrite lookup_fmap.
  destruct (decide (k = NaN)) as [->|Hk].
  - rewrite decide_False by (by intros [_ ?]).
    assert (group_sum keys vals !! NaN = None) as ->; [|done].
    apply not_elem_of_dom. rewrite dom_group_sum by done.
    unfold group_keys. rewrite elem_of_list_to_set, list_elem_of_filter.
    by intros [? _].
  - rewrite group_sum_lookup by done.
    destruct (decide (k ∈ keys)) as [Hin|Hout].
    + by rewrite decide_True.
    + by rewrite decide_False by (by intros [? _]).
Qed.

Lemma groupby_agg_sum_value df key cols g c keys col vals :
  wf df → groupby_agg_sum df key cols = ok g → c ∈ cols →
  getitem df key = ok keys → getitem df c = ok col →
  summands col = ok vals →
  ∃ m, assoc c (round_frame g) = Some m ∧
    ∀ k, m !! k = group_value keys vals k.
Proof.
  intros Hwf Hg Hc Hkeys Hcol Hvals.
  destruct (groupby_agg_sum_assoc _ _ _ _ _ Hg Hc)
    as (keys' & col' & vals' & Hkeys' & Hcol' & Hvals' & Hassoc).
  rewrite Hkeys in Hkeys'. injection Hkeys' as <-.
  rewrite Hcol in Hcol'. injection Hcol' as <-.
  rewrite Hvals in Hvals'. injection Hvals' as <-.
  eexists. split.
  - rewrite assoc_round_frame, Hassoc. done.
  - intros k. simpl. apply round_group_sum_lookup.
    rewrite (getitem_length _ _ _ Hwf Hkeys).
    rewrite (traverse_length _ _ _ Hvals).
    by rewrite (getitem_length _ _ _ Hwf Hcol).
Qed.

Lemma frame_value d sums groupings df df1 name g0 c keys col vals :
  wf df → "month" ∉ sums →
  (∀ n k, (n, k) ∈ groupings → n ≠ "monthly" ∧ k ≠ "month") →
  (∀ n k k', (n, k) ∈ groupings → (n, k') ∈ groupings → k = k') →
  (∃ mo, month_step d sums df df1 mo) →
  ((∃ key, (name, key) ∈ groupings ∧
      groupby_agg_sum df1 key sums = ok g0) ∨
   (name = "monthly" ∧ ∃ month,
      getitem df d ≫= dt_to_period = ok month ∧
      df1 = setitem df "month" month ∧
      groupby_agg_sum df1 "month" sums = ok g0)) →
  key_column groupings d df name keys →
  c ∈ sums → getitem df c = ok col → summands col = ok vals →
  ∃ m, assoc c (round_frame g0) = Some m ∧
    ∀ k, m !! k = group_value keys vals k.
Proof.
  intros Hwf Hsums Hnames Hfun [mo Hmo] Hg Hkey Hc Hcol Hvals.
  destruct Hg as [(key & Hin & Hg)|(-> & month & Hmonth & -> & Hg)];
    destruct Hkey as [(key' & Hin' & Hkeys)|(Hname & Hkeys)].
  - rewrite (Hfun _ _ _ Hin' Hin) in Hkeys.
    rewrite (month_step_groupby _ _ _ _ _ key sums Hmo) in Hg;
      [|by apply (Hnames _ _ Hin)|done].
    by eapply groupby_agg_sum_value.
  - subst name. by destruct (Hnames _ _ Hin) as [[] _].
  - by destruct (Hnames _ _ Hin') as [[] _].
  - rewrite Hkeys in Hmonth. unfold ok in Hmonth. injection Hmonth as <-.
    apply bind_ok in Hkeys as (dates & Hdates & Hperiod).
    assert (length keys = index df) as Hlen.
    { rewrite (traverse_length _ _ _ Hperiod).
      by apply (getitem_length _ _ _ Hwf Hdates). }
    eapply (groupby_agg_sum_value (setitem df "month" keys));
      [by apply wf_setitem|exact Hg|done|apply getitem_setitem_eq| |done].
    rewrite getitem_setitem_ne; [done|]. by intros <-.
Qed.

(** X9.  What a grouped table holds.  In every grouped table of a result,
    by state, by product code, by tax rate or by month, the value of a
    summed column for a key is the sum of that column over the rows that
    have this key, rounded to two decimals; a key that no row has, and the
    missing key, have no value.  For Amazon the rows are the shipments. *)
Theorem group_values :
  (∀ self self' df a name g c keys col vals,
     meesho_sales self = Some df → wf df →
     analyze_meesho_data self = (self', ok (Some a)) →
     a !! name = Some (Frame g) →
     key_column meesho_groupings "order_date" df name keys →
     c ∈ meesho_sums → getitem df c = ok col → summands col = ok vals →
     ∃ m, assoc c g = Some m ∧ ∀ k, m !! k = group_value keys vals k) ∧
  (∀ self self' df a ty name g c keys col vals,
     amazon_data self = Some df → wf df →
     analyze_amazon_data self = (self', ok (Some a)) →
     getitem df "Transaction Type" = ok ty →
     a !! name = Some (Frame g) →
     key_column amazon_groupings "Order Date" (partition df ty "Shipment")
       name keys →
     c ∈ amazon_sums →
     getitem (partition df ty "Shipment") c = ok col →
     summands col = ok vals →
     ∃ m, assoc c g = Some m ∧ ∀ k, m !! k = group_value keys vals k).
Proof.
  split.
  - intros self self' df a name g c keys col vals Hdf Hwf Hrun Hg Hkey Hc
      Hcol Hvals.
    destruct (analyze_meesho_data_inv _ _ _ _ Hdf Hrun)
      as (df1 & a' & [= <-] & Hmr & _).
    destruct (meesho_run_frame_inv _ _ _ _ _ Hmr Hg) as (g0 & -> & Hg0).
    destruct (meesho_run_frames _ _ _ Hmr) as (_ & mo & _ & _ & _ & Hmo & _).
    eapply (frame_value "order_date" meesho_sums meesho_groupings df df1);
      try done.
    + by_evaluation.
    + intros n k Hin. unfold meesho_groupings in Hin. by cases_in Hin.
    + intros n k k' Hin Hin'. unfold meesho_groupings in Hin, Hin'.
      cases_in Hin; by cases_in Hin'.
    + by exists mo.
  - intros self self' df a ty name g c keys col vals Hdf Hwf Hrun Hty Hg Hkey
      Hc Hcol Hvals.
    destruct (analyze_amazon_data_inv _ _ _ _ Hdf Hrun)
      as (_ & a' & [= <-] & Har).
    destruct (amazon_run_frame_inv _ _ _ _ _ Har Hty Hg)
      as (sh1 & mo & g0 & Hmo & -> & Hg0).
    eapply (frame_value "Order Date" amazon_sums amazon_groupings
              (partition df ty "Shipment") sh1); try done.
    + by apply wf_partition.
    + by_evaluation.
    + intros n k Hin. unfold amazon_groupings in Hin. by cases_in Hin.
    + intros n k k' Hin Hin'. unfold amazon_groupings in Hin, Hin'.
      cases_in Hin; by cases_in Hin'.
    + by exists mo.
Qed.

Lemma group_values_witness :
  let self := Examples.loaded (Some Examples.meesho_sheet) None None in
  ∃ m,
    assoc "total_invoice_value"
      (frame_of (analysis_of (analyze_meesho_data self)) "state_wise")
    = Some m ∧
    ∀ k, m !! k = group_value [Str "UP"; Str "UP"; Str "MH"]
                    [Qc_of_Z 100; Qc_of_Z 50; Qc_of_Z 200] k.
Proof.
  intros self.
  apply (proj1 group_values self (analyze_meesho_data self).1
           Examples.meesho_sheet (analysis_of (analyze_meesho_data self))
           "state_wise" _ "total_invoice_value"
           [Str "UP"; Str "UP"; Str "MH"]
           [Examples.rupees 100; Examples.rupees 50; Examples.rupees 200]
           [Qc_of_Z 100; Qc_of_Z 50; Qc_of_Z 200]).
  - reflexivity.
  - by_evaluation.
  - apply (returns_analysis_eq (analyze_meesho_data self)).
    vm_compute. reflexivity.
  - apply frame_of_eq. vm_compute. reflexivity.
  - left. exists "end_customer_state_new". split; [|reflexivity].
    unfold meesho_groupings. in_list.
  - unfold meesho_sums. in_list.
  - reflexivity.
  - reflexivity.
Defined.

(** ** Scalars and ratios *)

Lemma scalar_to_Qc_add a b :
  scalar_to_Qc (scalar_add a b) = (scalar_to_Qc a + scalar_to_Qc b)%Qc.
Proof. destruct a, b; simpl; try done. apply Z2Qc_inj_add. Qed.

Lemma py_sum_total l :
  scalar_to_Qc (py_sum l) = total (scalar_to_Qc <$> l).
Proof.
  unfold py_sum.
  assert (∀ acc, scalar_to_Qc (foldl scalar_add acc l)
                 = (scalar_to_Qc acc + total (scalar_to_Qc <$> l))%Qc) as H.
  { induction l as [|x l IH]; intros acc.
    - change (scalar_to_Qc acc = (scalar_to_Qc acc + 0)%Qc). ring.
    - cbn [foldl]. rewrite IH, scalar_to_Qc_add, fmap_cons.
      change (total (scalar_to_Qc x :: (scalar_to_Qc <$> l)))
        with (scalar_to_Qc x + total (scalar_to_Qc <$> l))%Qc.
      ring. }
  rewrite H. change (scalar_to_Qc (PyInt 0)) with (Qc_of_Z 0).
  rewrite Z2Qc_inj_0. ring.
Qed.

Lemma tcs_data_inv sh names cols tcs :
  columns sh = names → tcs_data sh cols = ok tcs →
  Forall2 (exact_sum sh) (filter (λ c, c ∈ names) cols) tcs.
Proof.
  intros <-. revert tcs. induction cols as [|c cols IH]; intros tcs; simpl.
  - unfold ok. intros [= <-]. constructor.
  - case_bool_decide as Hc.
    + rewrite filter_cons_True by done.
      intros (x & Hx & (xs & Hxs & Hok)%bind_ok)%bind_ok.
      unfold ok in Hok. injection Hok as <-.
      constructor; [by apply exact_sum_intro | by apply IH].
    + rewrite filter_cons_False by done. apply IH.
Qed.

(** X10.  [total_tcs] is the sum, over those of the four TCS columns that
    the table has, of the sum of the column over the shipments; a TCS
    column that the table lacks is skipped, and when it has none of them
    [total_tcs] is the integer 0. *)
Theorem total_tcs_sum self self' df a ty v :
  amazon_data self = Some df →
  analyze_amazon_data self = (self', ok (Some a)) →
  getitem df "Transaction Type" = ok ty →
  a !! "total_tcs" = Some v →
  ∃ tcs,
    v = Scalar (py_sum tcs) ∧
    Forall2 (exact_sum (partition df ty "Shipment"))
      (filter (λ c, c ∈ columns df) tcs_columns) tcs ∧
    scalar_to_Qc (py_sum tcs) = total (scalar_to_Qc <$> tcs) ∧
    (Forall (λ c, c ∉ columns df) tcs_columns → v = Scalar (PyInt 0)).
Proof.
  intros Hdf Hrun Hty Hv.
  destruct (analyze_amazon_data_inv _ _ _ _ Hdf Hrun)
    as (_ & a' & [= <-] & Har).
  destruct (amazon_run_tcs _ _ _ _ Har Hty Hv) as (tcs & Htcs & ->).
  apply (tcs_data_inv _ (columns df)) in Htcs;
    [|apply columns_getitem_mask].
  exists tcs. split_and!; [done|done|apply py_sum_total|].
  intros Hnone.
  assert (filter (λ c, c ∈ columns df) tcs_columns = []) as Hfilter.
  { clear Htcs. induction Hnone as [|c cols Hc _ IH]; [done|].
    by rewrite filter_cons_False. }
  rewrite Hfilter in Htcs. by inversion Htcs.
Qed.

Lemma total_tcs_sum_witness :
  let self := Examples.loaded None (Some Examples.amazon_sheet) None in
  ∃ tcs,
    Scalar (PyInt 0) = Scalar (py_sum tcs) ∧
    Forall2 (exact_sum (partition Examples.amazon_sheet
                          [Str "Shipment"; Str "Shipment"; Str "Refund"]
                          "Shipment"))
      (filter (λ c, c ∈ columns Examples.amazon_sheet) tcs_columns) tcs ∧
    scalar_to_Qc (py_sum tcs) = total (scalar_to_Qc <$> tcs) ∧
    (Forall (λ c, c ∉ columns Examples.amazon_sheet) tcs_columns →
     Scalar (PyInt 0) = Scalar (PyInt 0)).
Proof.
  intros self.
  apply (total_tcs_sum self (analyze_amazon_data self).1
           Examples.amazon_sheet (analysis_of (analyze_amazon_data self))).
  - reflexivity.
  - apply (returns_analysis_eq (analyze_amazon_data self)).
    vm_compute. reflexivity.
  - reflexivity.
  - vm_compute. reflexivity.
Defined.

(** X11.  The return rate of the Amazon tab never raises on a returned
    result: it is not computed when no row is a shipment, and is otherwise
    the number of refunds over the number of shipments, times 100. *)
Theorem amazon_return_rate_value self self' df a ty :
  amazon_data self = Some df →
  analyze_amazon_data self = (self', ok (Some a)) →
  getitem df "Transaction Type" = ok ty →
  amazon_return_rate a =
    ok (if decide (count_str ty "Shipment" = 0%nat) then None
        else Some (Finite (Qc_of_Z (Z.of_nat (count_str ty "Refund")) /
                           Qc_of_Z (Z.of_nat (count_str ty "Shipment")) *
                           Qc_of_Z 100)%Qc)).
Proof.
  intros Hdf Hrun Hty.
  destruct (analyze_amazon_data_inv _ _ _ _ Hdf Hrun)
    as (_ & a' & [= <-] & Har).
  destruct (amazon_run_counts _ _ Har) as (ty' & Hty' & Hs & Hr & _).
  rewrite Hty in Hty'. unfold ok in Hty'. injection Hty' as <-.
  rewrite len_partition in Hs, Hr.
  unfold amazon_return_rate, dict_getitem. rewrite Hs, Hr. simpl.
  case_bool_decide as Hpos; simpl.
  - rewrite <-Z2Qc_inj_0 in Hpos. apply Z2Qc_inj_lt in Hpos.
    rewrite decide_False by lia.
    by rewrite (decide_False (P := count_str ty "Shipment" = 0%nat)) by lia.
  - destruct (decide (count_str ty "Shipment" = 0%nat)) as [|Hnz]; [done|].
    exfalso. apply Hpos. rewrite <-Z2Qc_inj_0.
    apply (proj1 (Z2Qc_inj_lt 0 _)). lia.
Qed.

Lemma amazon_return_rate_value_witness :
  let self := Examples.loaded None (Some Examples.amazon_sheet) None in
  amazon_return_rate (analysis_of (analyze_amazon_data self))
  = ok (Some (Finite (Qc_of_Z 1 / Qc_of_Z 2 * Qc_of_Z 100)%Qc)).
Proof.
  intros self.
  apply (amazon_return_rate_value self (analyze_amazon_data self).1
           Examples.amazon_sheet (analysis_of (analyze_amazon_data self))
           [Str "Shipment"; Str "Shipment"; Str "Refund"]).
  - reflexivity.
  - apply (returns_analysis_eq (analyze_amazon_data self)).
    vm_compute. reflexivity.
  - reflexivity.
Defined.

(** X12.  The average tax rate of the Meesho tab, on a table with at least
    one row: it never raises, and is the sum of [tax_amount] over the sum
    of [total_invoice_value], times 100; when the sales add up to zero it
    is infinite, or not a number when the tax adds up to zero too. *)
Theorem meesho_tax_rate_value self self' df a :
  meesho_sales self = Some df → wf df → index df ≠ 0%nat →
  analyze_meesho_data self = (self', ok (Some a)) →
  ∃ ts tt,
    exact_sum df "total_invoice_value" ts ∧ exact_sum df "tax_amount" tt ∧
    meesho_tax_rate a =
      ok (if decide (scalar_to_Qc ts = 0%Qc)
          then if decide (scalar_to_Qc tt = 0%Qc) then NotANumber else Inf
          else Finite (scalar_to_Qc tt / scalar_to_Qc ts * Qc_of_Z 100)%Qc).
Proof.
  intros Hdf Hwf Hrows Hrun.
  destruct (analyze_meesho_data_inv _ _ _ _ Hdf Hrun)
    as (df1 & a' & [= <-] & Hmr & _).
  destruct (meesho_run_scalars _ _ _ Hmr)
    as (ts & tt & tx & Hts & Htt & _ & _ & Hsales & Htax & _).
  exists ts, tt. split_and!; [by apply exact_sum_intro..|].
  destruct (Series_sum_numpy _ _ _ Hwf Hrows Hts) as [x ->].
  destruct (Series_sum_numpy _ _ _ Hwf Hrows Htt) as [y ->].
  unfold meesho_tax_rate, dict_getitem. rewrite Htax, Hsales. simpl.
  destruct (decide (x = 0%Qc)) as [->|Hx]; [|done].
  by destruct (decide (y = 0%Qc)) as [->|Hy].
Qed.

Lemma meesho_tax_rate_value_witness :
  let self := Examples.loaded (Some Examples.meesho_sheet) None None in
  ∃ ts tt,
    exact_sum Examples.meesho_sheet "total_invoice_value" ts ∧
    exact_sum Examples.meesho_sheet "tax_amount" tt ∧
    meesho_tax_rate (analysis_of (analyze_meesho_data self)) =
      ok (if decide (scalar_to_Qc ts = 0%Qc)
          then if decide (scalar_to_Qc tt = 0%Qc) then NotANumber else Inf
          else Finite (scalar_to_Qc tt / scalar_to_Qc ts * Qc_of_Z 100)%Qc).
Proof.
  intros self.
  apply (meesho_tax_rate_value self (analyze_meesho_data self).1
           Examples.meesho_sheet).
  - reflexivity.
  - by_evaluation.
  - discriminate.
  - apply (returns_analysis_eq (analyze_meesho_data self)).
    vm_compute. reflexivity.
Defined.

(** ** Counts *)

Lemma count_str_cons c col s :
  count_str (c :: col) s
  = ((if decide (c = Str s) then 1 else 0) + count_str col s)%nat.
Proof.
  unfold count_str. rewrite filter_cons. by destruct (decide (c = Str s)).
Qed.

Lemma count_str_counted col :
  (count_str col "Shipment" + count_str col "Refund" + count_str col "Cancel"
   ≤ length col)%nat ∧
  ((count_str col "Shipment" + count_str col "Refund"
    + count_str col "Cancel" = length col)%nat ↔
   Forall (λ t, t ∈ counted_types) col).
Proof.
  induction col as [|c col [IHle IHeq]].
  - split; [done|]. split; [constructor|done].
  - rewrite !count_str_cons, list.Forall_cons. cbn [length].
    unfold counted_types.
    destruct (decide (c = Str "Shipment")) as [->|H1];
      [|destruct (decide (c = Str "Refund")) as [->|H2];
        [|destruct (decide (c = Str "Cancel")) as [->|H3]]].
    + rewrite ?(decide_False (P := Str "Shipment" = _)) by done.
      split; [lia|]. rewrite <-IHeq. split.
      * intros ?. split; [in_list|lia].
      * intros [_ ?]. lia.
    + rewrite ?(decide_False (P := Str "Refund" = _)) by done.
      split; [lia|]. rewrite <-IHeq. split.
      * intros ?. split; [in_list|lia].
      * intros [_ ?]. lia.
    + rewrite ?(decide_False (P := Str "Cancel" = _)) by done.
      split; [lia|]. rewrite <-IHeq. split.
      * intros ?. split; [in_list|lia].
      * intros [_ ?]. lia.
    + split; [lia|]. split; [lia|].
      intros [Hc _]. by cases_in Hc.
Qed.

(** X16.  The three counts of an Amazon result never exceed the number of
    rows of the table together, and add up to it exactly when every row
    is a shipment, a refund or a cancellation: a row of any other
    transaction type is counted nowhere. *)
Theorem amazon_counts_bound self self' df a ty :
  amazon_data self = Some df → wf df →
  analyze_amazon_data self = (self', ok (Some a)) →
  getitem df "Transaction Type" = ok ty →
  ∃ s r c : nat,
    a !! "total_shipments" = Some (Scalar (PyInt (Z.of_nat s))) ∧
    a !! "total_refunds" = Some (Scalar (PyInt (Z.of_nat r))) ∧
    a !! "total_cancellations" = Some (Scalar (PyInt (Z.of_nat c))) ∧
    (s + r + c ≤ index df)%nat ∧
    ((s + r + c = index df)%nat ↔ Forall (λ t, t ∈ counted_types) ty).
Proof.
  intros Hdf Hwf Hrun Hty.
  destruct (analyze_amazon_data_inv _ _ _ _ Hdf Hrun)
    as (_ & a' & [= <-] & Har).
  destruct (amazon_run_counts _ _ Har) as (ty' & Hty' & Hs & Hr & Hc).
  rewrite Hty in Hty'. unfold ok in Hty'. injection Hty' as <-.
  rewrite len_partition in Hs, Hr, Hc.
  exists (count_str ty "Shipment"), (count_str ty "Refund"),
    (count_str ty "Cancel").
  rewrite <-(getitem_length _ _ _ Hwf Hty).
  split_and!; [done|done|done|apply count_str_counted..].
Qed.

Lemma amazon_counts_bound_witness :
  let self := Examples.loaded None (Some Examples.amazon_sheet) None in
  ∃ s r c : nat,
    analysis_of (analyze_amazon_data self) !! "total_shipments"
      = Some (Scalar (PyInt (Z.of_nat s))) ∧
    analysis_of (analyze_amazon_data self) !! "total_refunds"
      = Some (Scalar (PyInt (Z.of_nat r))) ∧
    analysis_of (analyze_amazon_data self) !! "total_cancellations"
      = Some (Scalar (PyInt (Z.of_nat c))) ∧
    (s + r + c ≤ 3)%nat ∧
    ((s + r + c = 3)%nat ↔
     Forall (λ t, t ∈ counted_types)
       [Str "Shipment"; Str "Shipment"; Str "Refund"]).
Proof.
  intros self.
  apply (amazon_counts_bound self (analyze_amazon_data self).1
           Examples.amazon_sheet (analysis_of (analyze_amazon_data self))).
  - reflexivity.
  - by_evaluation.
  - apply (returns_analysis_eq (analyze_amazon_data self)).
    vm_compute. reflexivity.
  - reflexivity.
Defined.

(** ** Comparator *)

Lemma analyze_meesho_data_again self s1 r :
  analyze_meesho_data self = (s1, ok r) →
  analyze_meesho_data s1 = (s1, ok r).
Proof.
  intros Hrun. destruct (meesho_sales self) as [df|] eqn:Hdf.
  - destruct (analyze_meesho_data_inv _ _ _ _ Hdf Hrun)
      as (df1 & a & -> & Hmr & ->).
    assert (meesho_sales (with_meesho_sales self df1) = Some df1) as Hdf1
      by done.
    rewrite (analyze_meesho_data_intro _ df1 df1 a Hdf1);
      [|by eapply meesho_run_again].
    by rewrite with_meesho_sales_id.
  - rewrite analyze_meesho_data_None in Hrun by done.
    unfold ok in Hrun. injection Hrun as <- <-.
    by apply analyze_meesho_data_None.
Qed.

(** X17.  [main] builds the comparison twice, for the overview and for the
    comparison tab.  The second call returns the comparison of the first
    and leaves the analyzer as the first left it, although the first call
    has assigned the column [month] of the stored Meesho table. *)
Theorem comparison_again self s1 cmp :
  create_comparison_dashboard self = (s1, ok cmp) →
  create_comparison_dashboard s1 = (s1, ok cmp).
Proof.
  intros Hrun.
  destruct (create_comparison_dashboard_inv _ _ _ Hrun)
    as (r1 & r2 & Hr1 & Hr2 & Hm & Ha & Hf & Hother).
  pose proof (analyze_meesho_data_again _ _ _ Hr1) as Hr1'.
  destruct (analyze_meesho_data_frame self) as (_ & Hflip & Hamazon).
  rewrite Hr1 in Hflip, Hamazon. simpl in Hflip, Hamazon.
  assert ((analyze_amazon_data s1).2 = ok r2) as Hr2'
    by (by rewrite (analyze_amazon_data_ext s1 self)).
  destruct (create_comparison_dashboard_returns _ _ _ _ Hr1' Hr2')
    as [cmp' Hrun'].
  rewrite Hrun'. do 2 f_equal.
  destruct (create_comparison_dashboard_inv _ _ _ Hrun')
    as (r1' & r2' & Hr1'' & Hr2'' & Hm' & Ha' & Hf' & Hother').
  rewrite Hr1' in Hr1''. unfold ok in Hr1''. injection Hr1'' as <-.
  rewrite Hr2' in Hr2''. unfold ok in Hr2''. injection Hr2'' as <-.
  apply map_eq. intros p.
  destruct (decide (p ∈ platforms)) as [Hp|Hp].
  - unfold platforms in Hp. cases_in Hp; congruence.
  - by rewrite Hother, Hother'.
Qed.

Lemma comparison_again_witness :
  let self := Examples.loaded (Some Examples.meesho_sheet) None
                (Some Examples.flipkart_sheet) in
  let first := create_comparison_dashboard self in
  create_comparison_dashboard first.1 = (first.1, ok (returned first ∅)).
Proof.
  intros self first.
  apply (comparison_again self).
  apply (returns_eq (create_comparison_dashboard self)).
  vm_compute. reflexivity.
Defined.

(** X18.  What the comparison shows.  The row of Meesho holds the sums of
    [total_invoice_value] and of [tax_amount] over all rows and the number
    of rows.  The row of Amazon, when there is a shipment, holds the sums
    of [Invoice Amount] and of [Total Tax Amount] over the shipments and
    the number of shipments; refunds and cancellations count for
    nothing. *)
Theorem comparison_row_values self self' cmp :
  create_comparison_dashboard self = (self', ok cmp) →
  (∀ df, meesho_sales self = Some df →
     ∃ ts tt,
       exact_sum df "total_invoice_value" ts ∧ exact_sum df "tax_amount" tt ∧
       cmp !! "Meesho"
       = Some (comparison_row (Scalar ts) (Scalar tt)
                 (Scalar (PyInt (len df))))) ∧
  (∀ df ty, amazon_data self = Some df →
     getitem df "Transaction Type" = ok ty →
     count_str ty "Shipment" ≠ 0%nat →
     ∃ ts tt,
       exact_sum (partition df ty "Shipment") "Invoice Amount" ts ∧
       exact_sum (partition df ty "Shipment") "Total Tax Amount" tt ∧
       cmp !! "Amazon"
       = Some (comparison_row (Scalar ts) (Scalar tt)
                 (Scalar (PyInt (Z.of_nat (count_str ty "Shipment")))))).
Proof.
  intros (r1 & r2 & Hr1 & Hr2 & Hm & Ha & _)%create_comparison_dashboard_inv.
  split.
  - intros df Hdf.
    destruct (analyze_meesho_data_inv _ _ _ _ Hdf Hr1)
      as (df1 & a & -> & Hmr & _).
    destruct (meesho_run_scalars _ _ _ Hmr)
      as (ts & tt & tx & Hts & Htt & _ & Ho & Hs & Ht & _).
    exists ts, tt. split_and!; [by apply exact_sum_intro..|].
    rewrite Hm. simpl. by rewrite Hs, Ht, Ho.
  - intros df ty Hdf Hty Hcount.
    pose proof (analyze_amazon_data_run self) as Hrun. rewrite Hr2 in Hrun.
    destruct (analyze_amazon_data_inv _ _ _ _ Hdf Hrun)
      as (_ & a & -> & Har).
    pose proof (amazon_run_nonempty _ _ Har) as Hne.
    destruct Har as [ty' Hty' He
                    |ty' ts tt gross sw sh1 mo pp tcs Hty' He Hts Htt Hgross
                       Hsw Hmo Hpp Htcs];
      rewrite Hty in Hty'; unfold ok in Hty'; injection Hty' as <-.
    + exfalso. apply Hcount. apply bool_decide_eq_true_1 in He as [He|He].
      * unfold partition, getitem_mask in He. simpl in He.
        by rewrite count_eq_str in He.
      * unfold partition, getitem_mask in He. simpl in He.
        apply fmap_nil_inv in He. unfold getitem in Hty.
        by rewrite He in Hty.
    + exists ts, tt. split_and!; [by apply exact_sum_intro..|].
      rewrite Ha. simpl. rewrite bool_decide_eq_true_2 by done.
      unfold dict_get. rewrite <-(len_partition df).
      f_equal. unfold comparison_row. repeat f_equal; by lookup_dict.
Qed.

Lemma comparison_row_values_witness :
  let self := Examples.loaded (Some Examples.meesho_sheet) None None in
  ∃ ts tt,
    exact_sum Examples.meesho_sheet "total_invoice_value" ts ∧
    exact_sum Examples.meesho_sheet "tax_amount" tt ∧
    returned (create_comparison_dashboard self) ∅ !! "Meesho"
    = Some (comparison_row (Scalar ts) (Scalar tt)
              (Scalar (PyInt (len Examples.meesho_sheet)))).
Proof.
  intros self.
  assert (returns (create_comparison_dashboard self) = true) as Hrun
    by (vm_compute; reflexivity).
  apply (proj1 (comparison_row_values self
                  (create_comparison_dashboard self).1 _
                  (returns_eq _ ∅ Hrun))
           Examples.meesho_sheet).
  reflexivity.
Defined.

(** ** What a result depends on *)

Lemma analyze_meesho_data_ext self1 self2 :
  meesho_sales self1 = meesho_sales self2 →
  (analyze_meesho_data self1).2 = (analyze_meesho_data self2).2.
Proof.
  intros Heq. unfold analyze_meesho_data. run. rewrite Heq.
  destruct (meesho_sales self2); run; [|done]. run_any.
Qed.

(** X13.  Every figure comes from the table of its own platform.  The
    outcome of the Meesho analysis depends on the Meesho sales table
    alone, that of the Amazon analysis on the Amazon table alone, and that
    of the comparison on the three platform tables: the returns table is
    stored by the Loader and read by nothing. *)
Theorem results_from_own_table self1 self2 :
  (meesho_sales self1 = meesho_sales self2 →
   (analyze_meesho_data self1).2 = (analyze_meesho_data self2).2) ∧
  (amazon_data self1 = amazon_data self2 →
   (analyze_amazon_data self1).2 = (analyze_amazon_data self2).2) ∧
  (meesho_sales self1 = meesho_sales self2 →
   amazon_data self1 = amazon_data self2 →
   flipkart_data self1 = flipkart_data self2 →
   (create_comparison_dashboard self1).2
   = (create_comparison_dashboard self2).2).
Proof.
  split_and!.
  - apply analyze_meesho_data_ext.
  - apply analyze_amazon_data_ext.
  - intros Hm Ha Hf. unfold create_comparison_dashboard. rewrite !run_bind.
    pose proof (analyze_meesho_data_ext _ _ Hm) as Hr.
    pose proof (analyze_meesho_data_frame self1) as (_ & Hf1 & Ha1).
    pose proof (analyze_meesho_data_frame self2) as (_ & Hf2 & Ha2).
    destruct (analyze_meesho_data self1) as [s1 r1].
    destruct (analyze_meesho_data self2) as [s2 r2].
    simpl in Hr, Hf1, Ha1, Hf2, Ha2. subst r2.
    destruct r1 as [e|r1]; [done|].
    assert ((analyze_amazon_data s1).2 = (analyze_amazon_data s2).2) as Hr2
      by (apply analyze_amazon_data_ext; congruence).
    assert (flipkart_data s1 = flipkart_data s2) as Hfk by congruence.
    assert (∀ c1 : gmap string (gmap string value),
      ((amazon_analysis ← analyze_amazon_data;
        let comparisons := add_amazon_row amazon_analysis c1 in
        self ← this;
        let comparisons :=
          add_flipkart_row (flipkart_data self) comparisons in
        mret comparisons) s1).2
      = ((amazon_analysis ← analyze_amazon_data;
          let comparisons := add_amazon_row amazon_analysis c1 in
          self ← this;
          let comparisons :=
            add_flipkart_row (flipkart_data self) comparisons in
          mret comparisons) s2).2) as Hrest.
    { intros c1. run.
      rewrite (analyze_amazon_data_run s1), (analyze_amazon_data_run s2), Hr2.
      destruct (analyze_amazon_data s2).2; run; [done|]. by rewrite Hfk. }
    destruct r1 as [a|]; run; [|apply Hrest].
    destruct (truthy (Some a)); run; [|apply Hrest].
    destruct (dict_getitem a "total_sales"); run; [done|].
    destruct (dict_getitem a "total_tax"); run; [done|].
    destruct (dict_getitem a "total_orders"); run; [done|].
    apply Hrest.
Qed.

Lemma results_from_own_table_witness :
  let self := Examples.loaded (Some Examples.meesho_sheet) None None in
  (analyze_meesho_data (with_meesho_returns self Examples.flipkart_sheet)).2
  = (analyze_meesho_data self).2.
Proof.
  intros self.
  apply (proj1 (results_from_own_table
                  (with_meesho_returns self Examples.flipkart_sheet) self)).
  reflexivity.
Defined.

(** ** A table without rows *)

Lemma getitem_no_rows df c col :
  wf df → index df = 0%nat → getitem df c = ok col → col = [].
Proof.
  intros Hwf Hrows Hcol. apply nil_length_inv.
  by rewrite (getitem_length _ _ _ Hwf Hcol).
Qed.

Lemma has_column_no_rows p df c :
  wf df → index df = 0%nat → c ∈ columns df → has_column p df c = true.
Proof.
  intros Hwf Hrows [col Hcol]%getitem_ok_iff. unfold has_column.
  rewrite Hcol. by rewrite (getitem_no_rows _ _ _ Hwf Hrows Hcol).
Qed.

(** X14.  A Meesho table without rows, as a file that holds only its
    header line gives, is analysed without error whenever it has the
    seven columns the analysis reads: the four scalars are the integer 0
    and no grouped table has a group.  The average tax rate that [main]
    then computes divides 0 by 0 and raises [ZeroDivisionError]. *)
Theorem meesho_without_rows self df :
  meesho_sales self = Some df → wf df → index df = 0%nat →
  (∀ c, c ∈ meesho_required → c ∈ columns df) →
  ∃ self' a,
    analyze_meesho_data self = (self', ok (Some a)) ∧
    (∀ name, name ∈ meesho_scalar_names → a !! name = Some zero) ∧
    (∀ name g c m, a !! name = Some (Frame g) → (c, m) ∈ g → m = ∅) ∧
    meesho_tax_rate a = raise ZeroDivisionError.
Proof.
  intros Hdf Hwf Hrows Hreq.
  destruct (meesho_run_returns df) as (df1 & a & Hrun).
  { intros c Hc. apply has_column_no_rows; [done..|].
    apply Hreq. unfold meesho_required. apply elem_of_app. by left. }
  { intros c Hc. apply Hreq. unfold meesho_required. apply elem_of_app.
    by right. }
  { intros Hod. by apply has_column_no_rows. }
  exists (with_meesho_sales self df1), a.
  split; [by apply (analyze_meesho_data_intro _ df)|].
  destruct (meesho_run_scalars _ _ _ Hrun)
    as (ts & tt & tx & Hts & Htt & Htx & Ho & Hs & Ht & Hx).
  assert (∀ c s, getitem df c ≫= Series_sum = ok s → s = PyInt 0) as Hzero.
  { intros c s (col & Hcol & Hsum)%bind_ok.
    rewrite (getitem_no_rows _ _ _ Hwf Hrows Hcol) in Hsum.
    unfold ok in Hsum. simpl in Hsum. by injection Hsum as <-. }
  apply Hzero in Hts, Htt, Htx. subst ts tt tx.
  split_and!.
  - intros name Hn. unfold meesho_scalar_names in Hn. unfold zero.
    cases_in Hn; try done.
    rewrite Ho. unfold len. by rewrite Hrows.
  - intros name g c m Hg Hin.
    destruct (meesho_run_frames _ _ _ Hrun) as (_ & mo & _ & _ & _ & Hmo & _).
    pose proof (month_step_wf _ _ _ _ _ Hwf Hmo) as Hwf1.
    pose proof (month_step_index _ _ _ _ _ Hmo) as Hrows1.
    rewrite Hrows in Hrows1.
    destruct (meesho_run_frame_inv _ _ _ _ _ Hrun Hg) as (g0 & -> & Hg0).
    assert (∃ key, groupby_agg_sum df1 key meesho_sums = ok g0) as [key Hkey].
    { destruct Hg0 as [(key & _ & ?)|(_ & month & _ & _ & ?)]; by eexists. }
    apply groupby_agg_sum_inv in Hkey as (keys & Hkeys & Hsums).
    apply (getitem_no_rows _ _ _ Hwf1 Hrows1) in Hkeys. subst keys.
    unfold round_frame in Hin.
    apply list_elem_of_fmap in Hin as ([c0 m0] & [= -> ->] & Hin0).
    destruct (Hsums _ _ Hin0) as (_ & col & vals & _ & _ & ->).
    simpl. apply fmap_empty.
  - unfold meesho_tax_rate, dict_getitem. by rewrite Ht, Hs.
Qed.

Lemma meesho_without_rows_witness :
  let df := Examples.header_only Examples.meesho_header in
  ∃ self' a,
    analyze_meesho_data (Examples.loaded (Some df) None None)
    = (self', ok (Some a)) ∧
    (∀ name, name ∈ meesho_scalar_names → a !! name = Some zero) ∧
    (∀ name g c m, a !! name = Some (Frame g) → (c, m) ∈ g → m = ∅) ∧
    meesho_tax_rate a = raise ZeroDivisionError.
Proof.
  intros df.
  apply (meesho_without_rows (Examples.loaded (Some df) None None) df).
  - reflexivity.
  - by_evaluation.
  - reflexivity.
  - intros c Hc. unfold meesho_required, meesho_numeric, meesho_group_keys in Hc.
    simpl in Hc. cases_in Hc; by_evaluation.
Defined.

(** ** Months *)

Lemma wf_converted parse df cols : wf df → wf (converted parse df cols).
Proof.
  revert df. induction cols as [|c cols IH]; intros df Hwf; simpl; [done|].
  destruct (getitem df c) as [e|col] eqn:Hcol; apply IH; [done|].
  apply wf_setitem; [done|].
  unfold to_datetime. rewrite length_fmap. by eapply getitem_length.
Qed.

Lemma dt_to_period_to_datetime parse dates :
  dt_to_period (to_datetime parse dates) = ok (month_of parse <$> dates).
Proof.
  unfold dt_to_period, to_datetime.
  induction dates as [|c dates IH]; [done|].
  rewrite !fmap_cons. cbn [traverse]. rewrite IH.
  unfold coerce, month_of. by destruct (parse c) as [[[y m] d]|].
Qed.

(** X15.  The months of a loaded Meesho file.  After [load_meesho_data]
    and [analyze_meesho_data], the groups of [monthly] are the months of
    the order dates that parse: the day is dropped, and a row whose
    [order_date] does not parse is in no month, although it is counted in
    every total. *)
Theorem monthly_groups parse df returns_file self dates :
  wf (columns_strip df) →
  (∀ c, c ∈ meesho_numeric → has_column numeric (columns_strip df) c = true) →
  (∀ c, c ∈ meesho_group_keys → c ∈ columns (columns_strip df)) →
  getitem (columns_strip df) "order_date" = ok dates →
  ∃ self' a g,
    analyze_meesho_data (load_meesho_data parse (Csv df) returns_file self).1
    = (self', ok (Some a)) ∧
    a !! "total_orders" = Some (Scalar (PyInt (Z.of_nat (length dates)))) ∧
    a !! "monthly" = Some (Frame g) ∧
    groups_are g (month_of parse <$> dates).
Proof.
  intros Hwf Hnum Hkeys Hdates. rewrite load_meesho_data_Csv. simpl.
  set (stored := converted parse (columns_strip df) ["order_date"]).
  assert (wf stored) as Hwfs by (by apply wf_converted).
  assert (getitem stored "order_date" = ok (to_datetime parse dates))
    as Hstored.
  { apply getitem_converted_in; [apply list.NoDup_singleton|in_list|done]. }
  assert ("order_date" ∈ columns stored) as Hod
    by (apply getitem_ok_iff; by eexists).
  destruct (meesho_run_returns stored) as (df1 & a & Hrun).
  { intros c Hc. unfold has_column, stored.
    rewrite getitem_converted_notin; [by apply Hnum|].
    intros ->%list_elem_of_singleton.
    unfold meesho_numeric in Hc. by cases_in Hc. }
  { intros c Hc. unfold stored. rewrite columns_converted. by apply Hkeys. }
  { intros _. unfold has_column. rewrite Hstored.
    apply to_datetime_datelike. }
  destruct (meesho_run_frames _ _ _ Hrun)
    as (sw & mo & pp & tr & _ & Hmo & _ & _ & _ & Hmonthly & _).
  destruct (meesho_run_scalars _ _ _ Hrun)
    as (ts & tt & tx & _ & _ & _ & Ho & _).
  pose proof (month_step_wf _ _ _ _ _ Hwfs Hmo) as Hwf1.
  unfold month_step in Hmo. rewrite bool_decide_eq_true_2 in Hmo by done.
  destruct Hmo as (month & monthly & Hmonth & -> & Hg & ->).
  rewrite Hstored in Hmonth. simpl in Hmonth.
  rewrite dt_to_period_to_datetime in Hmonth.
  unfold ok in Hmonth. injection Hmonth as <-.
  eexists _, a, (round_frame monthly).
  split_and!.
  - by apply (analyze_meesho_data_intro _ stored).
  - rewrite Ho. unfold len, stored.
    by rewrite index_converted, (getitem_length _ _ _ Hwf Hdates).
  - done.
  - destruct (groupby_agg_sum_dom _ _ _ _ Hwf1 Hg) as (keys & Hkeys' & Hdom).
    rewrite getitem_setitem_eq in Hkeys'.
    unfold ok in Hkeys'. injection Hkeys' as <-.
    intros c m Hin k. rewrite (Hdom _ _ Hin). unfold group_keys.
    rewrite elem_of_list_to_set, list_elem_of_filter. tauto.
Qed.

Lemma monthly_groups_witness :
  let df :=
    {| index := 3;
       series :=
         [("total_invoice_value",
           [Examples.rupees 100; Examples.rupees 50; Examples.rupees 70]);
          ("tax_amount",
           [Examples.rupees 18; Examples.rupees 9; Examples.rupees 12]);
          ("total_taxable_sale_value",
           [Examples.rupees 82; Examples.rupees 41; Examples.rupees 58]);
          ("end_customer_state_new", [Str "UP"; Str "MH"; Str "UP"]);
          ("quantity",
           [Examples.rupees 1; Examples.rupees 1; Examples.rupees 1]);
          (" order_date ",
           [Str "2024-01-15"; Str "next week"; Str "2024-01-31"]);
          ("hsn_code",
           [Examples.rupees 6109; Examples.rupees 6110;
            Examples.rupees 6109]);
          ("gst_rate",
           [Examples.rupees 18; Examples.rupees 18; Examples.rupees 18])] |} in
  ∃ self' a g,
    analyze_meesho_data (load_meesho_data parse_iso (Csv df) None init).1
    = (self', ok (Some a)) ∧
    a !! "total_orders" = Some (Scalar (PyInt 3)) ∧
    a !! "monthly" = Some (Frame g) ∧
    groups_are g [Period 2024 1; NaN; Period 2024 1].
Proof.
  intros df.
  apply (monthly_groups parse_iso df None init
           [Str "2024-01-15"; Str "next week"; Str "2024-01-31"]).
  - by_evaluation.
  - intros c Hc. unfold meesho_numeric in Hc. cases_in Hc; reflexivity.
  - intros c Hc. unfold meesho_group_keys in Hc. cases_in Hc; by_evaluation.
  - reflexivity.
Defined.
